(** * quant-backtest: the signal and portfolio simulation core

    A shallow embedding of the three strategy variants
    ([src/strategies/tqqq_strategy.py], [tqqq_strategy_v2.py],
    [tqqq_strategy_v3.py]) and of the RSI indicator.

    Numbers.  The Python code computes on binary64 floats.  Here a finite
    float is an exact rational ([Q]); a pandas cell that may be NaN is an
    [option Q] with [None] for NaN, and every comparison against NaN is
    false, as in numpy.  Share counts are Python [int]s, hence [Z].
    Equality of amounts of money is [Qeq] ([==]).

    Frames.  A frame is the list of its rows.  The loops read the columns
    that [__init__], [prepare_data] and [generate_signals] have written; the
    rows below carry these columns (the rolling standard deviation is not a
    rational function of the prices, so the indicator columns are inputs).
    For variant 3, whose [backtest] calls [generate_signals] itself, the
    signal columns are computed from the indicator columns.

    Errors.  [int(x // y)] raises on a zero divisor and [iloc] raises out of
    range; both are [None] in the error monad below.  True division by a
    zero price yields inf/NaN in numpy and is outside the model: statements
    that depend on such a quotient assume the divisor positive. *)

From Stdlib Require Import String QArith Qround Qabs ZArith List Sorted Bool Lia Lqa.
Import ListNotations.
Open Scope Q_scope.

(** ** Python and pandas primitives *)

Notation "x <- e ;; k" :=
  (match e with Some x => k | None => None end)
  (at level 61, e at next level, right associativity).

(** [range(a, b)] *)
Definition py_range (a b : nat) : list nat := seq a (b - a).

(** [frame[col].iloc[i]] for [0 <= i] *)
Definition iloc {A : Type} (frame : list A) (i : nat) : option A :=
  nth_error frame i.

(** [frame[col].iloc[-1]] *)
Definition iloc_last {A : Type} (frame : list A) : option A :=
  match frame with
  | [] => None
  | _ => nth_error frame (length frame - 1)
  end.

(** [int(x // y)]: floor division, an exception when [y] is zero *)
Definition floordiv_int (x y : Q) : option Z :=
  if Qeq_bool y 0 then None else Some (Qfloor (x / y)).

(** [int(x)]: truncation toward zero *)
Definition py_int (x : Q) : Z :=
  if Qlt_le_dec x 0 then Qceiling x else Qfloor x.

(** [max(a, b)] and [min(a, b)] of the Python builtins: the first argument
    wins a tie *)
Definition py_max (a b : Q) : Q := if Qlt_le_dec a b then b else a.
Definition py_min (a b : Q) : Q := if Qlt_le_dec b a then b else a.

Definition Qltb (a b : Q) : bool := if Qlt_le_dec a b then true else false.
Definition Qleb (a b : Q) : bool := if Qlt_le_dec b a then false else true.

(** Comparisons of cells that may hold NaN *)
Definition nan_lt (a b : option Q) : bool :=
  match a, b with Some x, Some y => Qltb x y | _, _ => false end.
Definition nan_le (a b : option Q) : bool :=
  match a, b with Some x, Some y => Qleb x y | _, _ => false end.

(** The loop of a backtest: the body is run on each index in turn, and an
    exception in the body ends the run *)
Fixpoint run {S : Type} (body : S -> nat -> option S) (st : S)
    (idx : list nat) : option S :=
  match idx with
  | [] => Some st
  | i :: rest => st' <- body st i ;; run body st' rest
  end.

Inductive signal : Type := Buy | Sell | Hold.

(** ['buy' if buy_signal else ('sell' if sell_signal else 'hold')] *)
Definition signal_of (buy sell : bool) : signal :=
  if buy then Buy else if sell then Sell else Hold.

(** ** Variant 1: [TQQQStrategy] *)

Module V1.

(** One row of [self.data] as [backtest] reads it; [buy_signal] and
    [sell_signal] are the columns written by [generate_signals]. *)
Record bar : Type := {
  date : nat;
  open : Q;
  close : Q;
  buy_signal : bool;
  sell_signal : bool
}.

Record ledger_row : Type := {
  l_date : nat;
  l_cash : Q;
  l_position : Z;
  l_portfolio_value : Q;
  l_close : Q;
  l_signal : signal
}.

Record state : Type := {
  cash : Q;
  position : Z;
  history : list ledger_row
}.

Definition init (initial_cash : Q) : state :=
  {| cash := initial_cash; position := 0; history := [] |}.

(** The trade of one bar: the [if] / [elif] of lines 58-67 *)
Definition trade (b : bar) (next_open : Q) (c : Q) (p : Z) : option (Q * Z) :=
  let current_price := close b in
  let total_value := c + inject_Z p * current_price in
  if buy_signal b && (p =? 0)%Z then
    n <- floordiv_int (total_value * 0.97) next_open ;;
    Some (c - inject_Z n * next_open, n)
  else if sell_signal b && (0 <? p)%Z then
    Some (c + inject_Z p * next_open, 0%Z)
  else Some (c, p).

(** The body of the loop, lines 53-77 *)
Definition step (data : list bar) (st : state) (i : nat) : option state :=
  b <- iloc data i ;;
  nb <- iloc data (i + 1) ;;
  cp <- trade b (open nb) (cash st) (position st) ;;
  let '(c, p) := cp in
  let portfolio_value := c + inject_Z p * close b in
  Some {| cash := c;
          position := p;
          history := history st ++
            [ {| l_date := date b; l_cash := c; l_position := p;
                 l_portfolio_value := portfolio_value; l_close := close b;
                 l_signal := signal_of (buy_signal b) (sell_signal b) |} ] |}.

(** [range(7, len(self.data)-2)] *)
Definition bars (data : list bar) : list nat := py_range 7 (length data - 2).

Definition backtest_from (data : list bar) (st : state) (idx : list nat)
  : option state := run (step data) st idx.

Definition backtest (data : list bar) (initial_cash : Q) : option (list ledger_row) :=
  option_map history (backtest_from data (init initial_cash) (bars data)).

End V1.

(** [frame[col].iloc[i-1]]: at [i = 0] the index [-1] is the last row *)
Definition iloc_prev {A : Type} (frame : list A) (i : nat) : option A :=
  match i with
  | O => iloc_last frame
  | S j => iloc frame j
  end.

(** [max(floor, x)] where [x] may be NaN: [NaN > floor] is false, so the
    builtin keeps [floor] *)
Definition py_max_nan (floor : Q) (x : option Q) : Q :=
  match x with
  | Some v => py_max floor v
  | None => floor
  end.

(** ** Variant 2: [TQQQStrategyV2] *)

Module V2.

Record bar : Type := {
  date : nat;
  close : Q;
  volatility : option Q;
  buy_signal : bool;
  sell_signal : bool
}.

(** The parameters set in [__init__] *)
Definition max_position : Q := 0.7.
Definition stop_loss : Q := -0.05.
Definition trailing_stop : Q := 0.08.
Definition commission : Q := 0.0003.
Definition slippage : Q := 0.0002.
Definition vol_threshold : Q := 0.025.

Definition calculate_transaction_costs (price : Q) (shares : Z) : Q :=
  price * inject_Z shares * commission + price * inject_Z shares * slippage.

(** Returns the fraction of the account to allocate ([cash] and [price] are
    unused, as in the source) *)
Definition calculate_position_size (cash price : Q) (volatility : option Q) : Q :=
  let base_position := max_position in
  let vol_adj :=
    py_max_nan 0.3
      (option_map (fun v => 1 - v / (vol_threshold * 1.5)) volatility) in
  base_position * vol_adj.

Record ledger_row : Type := {
  l_date : nat;
  l_cash : Q;
  l_position : Z;
  l_portfolio_value : Q;
  l_close : Q;
  l_volatility : option Q;
  l_signal : signal
}.

(** The locals that the loop mutates *)
Record book : Type := {
  cash : Q;
  position : Z;
  highest_price : Q
}.

Record state : Type := {
  bk : book;
  history : list ledger_row
}.

Definition init (initial_cash : Q) : state :=
  {| bk := {| cash := initial_cash; position := 0; highest_price := 0 |};
     history := [] |}.

(** Line 96: the fixed stop or the trailing stop *)
Definition stop_triggered (current_price prev_close highest : Q) : bool :=
  let position_return := current_price / prev_close - 1 in
  let trailing_stop_price := highest * (1 - trailing_stop) in
  Qltb position_return stop_loss || Qltb current_price trailing_stop_price.

Definition liquidate (current_price : Q) (k : book) : book :=
  let sell_value := inject_Z (position k) * current_price in
  let transaction_costs := calculate_transaction_costs current_price (position k) in
  {| cash := cash k + (sell_value - transaction_costs);
     position := 0;
     highest_price := 0 |}.

(** Lines 88-101: the stop-loss block, run while a position is held *)
Definition risk (data : list bar) (i : nat) (current_price : Q) (k : book)
  : option book :=
  if (0 <? position k)%Z then
    let highest := py_max (highest_price k) current_price in
    pb <- iloc_prev data i ;;
    if stop_triggered current_price (close pb) highest
    then Some (liquidate current_price k)
    else Some {| cash := cash k; position := position k; highest_price := highest |}
  else Some k.

(** Lines 104-125: entry on a buy signal when flat, [elif] exit on a sell
    signal.  [total_value] is the value computed at line 85, before the
    stop-loss block. *)
Definition trade (b : bar) (total_value : Q) (k : book) : option book :=
  let current_price := close b in
  if buy_signal b && (position k =? 0)%Z then
    let position_size :=
      calculate_position_size (cash k) current_price (volatility b) in
    let max_buy_value := total_value * position_size in
    shares_to_buy <- floordiv_int max_buy_value current_price ;;
    if (0 <? shares_to_buy)%Z then
      let transaction_costs :=
        calculate_transaction_costs current_price shares_to_buy in
      let total_cost := inject_Z shares_to_buy * current_price + transaction_costs in
      if Qleb total_cost (cash k) then
        Some {| cash := cash k - total_cost;
                position := shares_to_buy;
                highest_price := current_price |}
      else Some k
    else Some k
  else if sell_signal b && (0 <? position k)%Z then
    Some (liquidate current_price k)
  else Some k.

Definition emit (b : bar) (k : book) : ledger_row :=
  {| l_date := date b;
     l_cash := cash k;
     l_position := position k;
     l_portfolio_value := cash k + inject_Z (position k) * close b;
     l_close := close b;
     l_volatility := volatility b;
     l_signal := signal_of (buy_signal b) (sell_signal b) |}.

(** The body of the loop, lines 83-136 *)
Definition step (data : list bar) (st : state) (i : nat) : option state :=
  b <- iloc data i ;;
  let current_price := close b in
  let total_value := cash (bk st) + inject_Z (position (bk st)) * current_price in
  k1 <- risk data i current_price (bk st) ;;
  k2 <- trade b total_value k1 ;;
  Some {| bk := k2; history := history st ++ [emit b k2] |}.

(** [range(20, len(self.data))] *)
Definition bars (data : list bar) : list nat := py_range 20 (length data).

Definition backtest_from (data : list bar) (st : state) (idx : list nat)
  : option state := run (step data) st idx.

Definition backtest (data : list bar) (initial_cash : Q) : option (list ledger_row) :=
  option_map history (backtest_from data (init initial_cash) (bars data)).

End V2.

(** ** Column helpers of pandas *)

(** [(cond).astype(int)] *)
Definition astype_int (b : bool) : Z := if b then 1%Z else 0%Z.

(** [col.shift(1)]: the first cell becomes NaN *)
Definition shift1 {A : Type} (col : list A) : list (option A) :=
  match col with
  | [] => []
  | _ => None :: map Some (removelast col)
  end.

(** [cur > prev] and [cur < prev] against a shifted integer column *)
Definition gt_shifted (cur : Z) (prev : option Z) : bool :=
  match prev with Some q => (q <? cur)%Z | None => false end.
Definition lt_shifted (cur : Z) (prev : option Z) : bool :=
  match prev with Some q => (cur <? q)%Z | None => false end.

(** Row-wise combination of two aligned columns *)
Fixpoint zip_with {A B C : Type} (f : A -> B -> C) (l : list A) (m : list B)
  : list C :=
  match l, m with
  | a :: l', b :: m' => f a b :: zip_with f l' m'
  | _, _ => []
  end.

(** [series.diff()] *)
Fixpoint diff_from (prev : Q) (series : list Q) : list (option Q) :=
  match series with
  | [] => []
  | x :: rest => Some (x - prev) :: diff_from x rest
  end.

Definition diff (series : list Q) : list (option Q) :=
  match series with
  | [] => []
  | x :: rest => None :: diff_from x rest
  end.

Definition Qsum (l : list Q) : Q := fold_right Qplus 0 l.

(** [col.rolling(window).mean()] on a column without NaN: defined from the
    bar at which [window] observations are available.  The source only rolls
    with positive windows; a window of 0 is given NaN cells here. *)
Definition rolling_mean_at (window : nat) (col : list Q) (i : nat) : option Q :=
  match window with
  | O => None
  | S _ =>
      if (window <=? i + 1)%nat
      then Some (Qsum (firstn window (skipn (i + 1 - window) col))
                 / inject_Z (Z.of_nat window))
      else None
  end.

Definition rolling_mean (window : nat) (col : list Q) : list (option Q) :=
  map (rolling_mean_at window col) (seq 0 (length col)).

(** ** RSI: [calculate_rsi] *)

Module RSI.

(** [delta.where(delta > 0, 0)]: a NaN cell fails the test and becomes 0 *)
Definition gain_cell (d : option Q) : Q :=
  match d with
  | Some v => if Qlt_le_dec 0 v then v else 0
  | None => 0
  end.

(** [-delta.where(delta < 0, 0)] *)
Definition loss_cell (d : option Q) : Q :=
  - match d with
    | Some v => if Qlt_le_dec v 0 then v else 0
    | None => 0
    end.

Definition gain (series : list Q) (period : nat) : list (option Q) :=
  rolling_mean period (map gain_cell (diff series)).

Definition loss (series : list Q) (period : nat) : list (option Q) :=
  rolling_mean period (map loss_cell (diff series)).

Definition epsilon : Q := 1e-10.

(** [loss.replace({0: 1e-10})] *)
Definition replace_zero (c : option Q) : option Q :=
  option_map (fun v => if Qeq_bool v 0 then epsilon else v) c.

Definition divisor (series : list Q) (period : nat) : list (option Q) :=
  map replace_zero (loss series period).

(** Cell-wise division of two columns; NaN propagates *)
Definition div_cell (a b : option Q) : option Q :=
  match a, b with
  | Some x, Some y => Some (x / y)
  | _, _ => None
  end.

Definition rs (series : list Q) (period : nat) : list (option Q) :=
  zip_with div_cell (gain series period) (divisor series period).

Definition calculate_rsi (series : list Q) (period : nat) : list (option Q) :=
  map (option_map (fun r => 100 - 100 / (1 + r))) (rs series period).

End RSI.

(** ** Variant 3: [TQQQStrategyV3] *)

Module V3.

(** The keyword arguments of [__init__] *)
Record params : Type := {
  buy_threshold : Q;
  sell_threshold : Q;
  max_position : Q;
  stop_loss : Q;
  trailing_stop : Q;
  commission : Q;
  slippage : Q;
  vol_threshold : Q;
  partial_sell_ratio : Q;
  partial_sell_gain : Q;
  atr_period : nat;
  atr_multiplier : Q
}.

Definition default_params : params := {|
  buy_threshold := 0.005;
  sell_threshold := -0.008;
  max_position := 0.8;
  stop_loss := 0.07;
  trailing_stop := 0.10;
  commission := 0.0003;
  slippage := 0.0002;
  vol_threshold := 0.03;
  partial_sell_ratio := 0.4;
  partial_sell_gain := 0.03;
  atr_period := 14;
  atr_multiplier := 3.5
|}.

(** One row of [self.data] after [prepare_data]: the close and the
    indicator columns that [generate_signals], [calculate_position_size] and
    [backtest] read.  Rolling columns hold NaN while they warm up. *)
Record bar : Type := {
  date : nat;
  close : Q;
  volatility : option Q;
  momentum : option Q;
  momentum_20 : option Q;
  ATR : option Q;
  rsi : option Q;
  ma_cross : Z;
  ma_trend : Z;
  ma_long_trend : Z
}.

(** *** [generate_signals] *)

(** One row of the [buy_conditions] frame *)
Record buy_conditions : Type := {
  c_ma_cross : Z;
  c_ma_trend : Z;
  c_ma_long_trend : Z;
  c_rsi_good : Z;
  c_vol_good : Z;
  c_momentum_good : Z
}.

Definition conditions_row (p : params) (prev_cross : option Z) (b : bar)
  : buy_conditions :=
  {| c_ma_cross := astype_int (gt_shifted (ma_cross b) prev_cross);
     c_ma_trend := astype_int (ma_trend b =? 1)%Z;
     c_ma_long_trend := astype_int (ma_long_trend b =? 1)%Z;
     c_rsi_good :=
       astype_int (nan_lt (Some 45) (rsi b) && nan_lt (rsi b) (Some 75));
     c_vol_good :=
       astype_int (nan_lt (volatility b) (Some (vol_threshold p * 1.2)));
     c_momentum_good :=
       astype_int (nan_lt (Some (-0.01)) (momentum b)
                   && nan_lt (Some 0) (momentum_20 b)) |}.

Definition buy_conditions_frame (p : params) (data : list bar)
  : list buy_conditions :=
  zip_with (conditions_row p) (shift1 (map ma_cross data)) data.

(** [buy_conditions.sum(axis=1)] *)
Definition buy_score (c : buy_conditions) : Z :=
  (c_ma_cross c + c_ma_trend c + c_ma_long_trend c
   + c_rsi_good c + c_vol_good c + c_momentum_good c)%Z.

Definition buy_signal (p : params) (data : list bar) : list bool :=
  map (fun c => (4 <=? buy_score c)%Z) (buy_conditions_frame p data).

Definition sell_row (p : params) (prev_cross : option Z) (b : bar) : bool :=
  lt_shifted (ma_cross b) prev_cross
  && ((nan_lt (rsi b) (Some 35) || nan_lt (Some 85) (rsi b))
      || (nan_lt (Some (vol_threshold p * 2.5)) (volatility b)
          && nan_lt (momentum b) (Some 0))).

Definition sell_signal (p : params) (data : list bar) : list bool :=
  zip_with (sell_row p) (shift1 (map ma_cross data)) data.

(** *** Costs and sizing *)

Definition calculate_transaction_costs (p : params) (price : Q) (shares : Z) : Q :=
  price * inject_Z shares * commission p + price * inject_Z shares * slippage p.

Definition rsi_adj (r : option Q) : Q :=
  if nan_lt r (Some 30) || nan_lt (Some 70) r then 0.6
  else if nan_le (Some 45) r && nan_le r (Some 65) then 1.0
  else 0.8.

Definition trend_adj (b : bar) : Q :=
  if (ma_long_trend b =? 1)%Z then
    if (ma_trend b =? 1)%Z then 1.2 else 1.0
  else 1.0.

(** Lines 123-148.  The RSI and the trend columns are read at [iloc[-1]]. *)
Definition calculate_position_size (p : params) (data : list bar)
    (cash price : Q) (volatility : option Q) : option Z :=
  let base_position := max_position p in
  let vol_adj :=
    py_max_nan 0.4
      (option_map (fun v => 1 - v / (vol_threshold p * 1.5)) volatility) in
  last <- iloc_last data ;;
  let adjusted_position :=
    base_position * vol_adj * rsi_adj (rsi last) * trend_adj last in
  let max_buy_value := cash * adjusted_position in
  floordiv_int max_buy_value price.

(** *** [backtest] *)

Record ledger_row : Type := {
  l_date : nat;
  l_cash : Q;
  l_position : Z;
  l_portfolio_value : Q;
  l_close : Q;
  l_volatility : option Q;
  l_ATR : option Q;
  l_rsi : option Q;
  l_signal : signal
}.

(** The locals that the loop mutates *)
Record book : Type := {
  cash : Q;
  position : Z;
  avg_cost : Q;
  highest_price : Q;
  atr_stop_price : option Q
}.

Record state : Type := {
  bk : book;
  history : list ledger_row
}.

Definition init (initial_cash : Q) : state :=
  {| bk := {| cash := initial_cash; position := 0; avg_cost := 0;
              highest_price := 0; atr_stop_price := Some 0 |};
     history := [] |}.

(** Lines 176-186: fixed stop, else trailing stop, else ATR stop *)
Definition should_stop_loss (p : params) (current_price : Q) (k : book)
    (highest : Q) (atr_stop : option Q) : bool :=
  let trailing_stop_price := highest * (1 - trailing_stop p) in
  if Qltb (current_price / avg_cost k - 1) (- stop_loss p) then true
  else if Qltb current_price trailing_stop_price then true
  else if nan_lt (Some current_price) atr_stop then true
  else false.

(** Lines 189-194 *)
Definition liquidate (p : params) (current_price : Q) (k : book) : book :=
  let sell_value := inject_Z (position k) * current_price in
  let transaction_costs := calculate_transaction_costs p current_price (position k) in
  {| cash := cash k + (sell_value - transaction_costs);
     position := 0;
     avg_cost := avg_cost k;
     highest_price := 0;
     atr_stop_price := Some 0 |}.

(** Line 199-200 *)
Definition shares_to_sell (p : params) (unrealized_pnl : Q) (k : book) : Z :=
  let sell_ratio := py_min 0.8 (partial_sell_ratio p * (1 + unrealized_pnl)) in
  py_int (inject_Z (position k) * sell_ratio).

(** How the risk block leaves the iteration: [Skip] is the [continue] of
    line 195, [Go] falls through to the signal handling. *)
Inductive flow : Type :=
  | Skip (k : book)
  | Go (k : book).

(** Lines 169-205 *)
Definition risk (p : params) (b : bar) (k : book) : flow :=
  let current_price := close b in
  if (0 <? position k)%Z then
    let highest := py_max (highest_price k) current_price in
    let atr_stop :=
      option_map (fun a => current_price - atr_multiplier p * a) (ATR b) in
    let unrealized_pnl := (current_price - avg_cost k) / avg_cost k in
    let k1 := {| cash := cash k; position := position k; avg_cost := avg_cost k;
                 highest_price := highest; atr_stop_price := atr_stop |} in
    if should_stop_loss p current_price k highest atr_stop then
      Skip (liquidate p current_price k)
    else if Qleb (partial_sell_gain p) unrealized_pnl then
      let n := shares_to_sell p unrealized_pnl k in
      if (0 <? n)%Z then
        let sell_value := inject_Z n * current_price in
        let transaction_costs := calculate_transaction_costs p current_price n in
        Go {| cash := cash k + (sell_value - transaction_costs);
              position := position k - n;
              avg_cost := avg_cost k;
              highest_price := highest;
              atr_stop_price := atr_stop |}
      else Go k1
    else Go k1
  else Go k.

(** Lines 208-227 *)
Definition trade (p : params) (data : list bar) (b : bar) (buy sell : bool)
    (k : book) : option book :=
  let current_price := close b in
  if buy && (position k =? 0)%Z then
    shares_to_buy <-
      calculate_position_size p data (cash k) current_price (volatility b) ;;
    if (0 <? shares_to_buy)%Z then
      let transaction_costs :=
        calculate_transaction_costs p current_price shares_to_buy in
      let total_cost := inject_Z shares_to_buy * current_price + transaction_costs in
      if Qleb total_cost (cash k) then
        Some {| cash := cash k - total_cost;
                position := shares_to_buy;
                avg_cost := current_price;
                highest_price := current_price;
                atr_stop_price :=
                  option_map (fun a => current_price - atr_multiplier p * a) (ATR b) |}
      else Some k
    else Some k
  else if sell && (0 <? position k)%Z then
    Some {| cash := cash k
                    + (inject_Z (position k) * current_price
                       - calculate_transaction_costs p current_price (position k));
            position := 0;
            avg_cost := avg_cost k;
            highest_price := 0;
            atr_stop_price := Some 0 |}
  else Some k.

Definition emit (b : bar) (buy sell : bool) (k : book) : ledger_row :=
  {| l_date := date b;
     l_cash := cash k;
     l_position := position k;
     l_portfolio_value := cash k + inject_Z (position k) * close b;
     l_close := close b;
     l_volatility := volatility b;
     l_ATR := ATR b;
     l_rsi := rsi b;
     l_signal := signal_of buy sell |}.

(** The body of the loop, lines 163-240 *)
Definition step (p : params) (data : list bar) (st : state) (i : nat)
  : option state :=
  b <- iloc data i ;;
  buy <- iloc (buy_signal p data) i ;;
  sell <- iloc (sell_signal p data) i ;;
  match risk p b (bk st) with
  | Skip k => Some {| bk := k; history := history st |}
  | Go k1 =>
      k2 <- trade p data b buy sell k1 ;;
      Some {| bk := k2; history := history st ++ [emit b buy sell k2] |}
  end.

(** [range(max(50, self.atr_period), len(self.data))] *)
Definition start_idx (p : params) : nat := Nat.max 50 (atr_period p).
Definition bars (p : params) (data : list bar) : list nat :=
  py_range (start_idx p) (length data).

Definition backtest_from (p : params) (data : list bar) (st : state)
    (idx : list nat) : option state := run (step p data) st idx.

Definition backtest (p : params) (data : list bar) (initial_cash : Q)
  : option (list ledger_row) :=
  option_map history (backtest_from p data (init initial_cash) (bars p data)).

End V3.

(** * Vocabulary of the statements and sample frames *)

(** The ledger row of bar [i] *)
Definition V1_row_of (data : list V1.bar) (r : V1.ledger_row) (i : nat) : Prop :=
  exists b, iloc data i = Some b /\ V1.l_date r = V1.date b /\
            V1.l_close r = V1.close b.

(** The same for variant 2 *)
Definition V2_row_of (data : list V2.bar) (r : V2.ledger_row) (i : nat) : Prop :=
  exists b, iloc data i = Some b /\ V2.l_date r = V2.date b /\
            V2.l_close r = V2.close b.

(** The invariant of C4 on the locals of the loop *)
Definition V2_sound (k : V2.book) : Prop :=
  0 <= V2.cash k /\ (0 <= V2.position k)%Z.

Definition V3_sound (k : V3.book) : Prop :=
  0 <= V3.cash k /\ (0 <= V3.position k)%Z.

(** Sample frames, used to run the loops on concrete input *)
Definition v1_bar (buy sell : bool) (o c : Q) (d : nat) : V1.bar :=
  {| V1.date := d; V1.open := o; V1.close := c;
     V1.buy_signal := buy; V1.sell_signal := sell |}.

(** Eleven bars: a buy signal on bar 7, a sell signal on bar 8 *)
Definition v1_sample : list V1.bar :=
  map (v1_bar false false 100 100) (seq 0 7)
  ++ [v1_bar true false 100 100 7; v1_bar false true 101 102 8;
      v1_bar false false 103 104 9; v1_bar false false 105 106 10].

Definition v2_bar (buy sell : bool) (c : Q) (d : nat) : V2.bar :=
  {| V2.date := d; V2.close := c; V2.volatility := Some 0.01;
     V2.buy_signal := buy; V2.sell_signal := sell |}.

(** Entry at 100 on bar 20, then a slide to 96 and 92.5 in daily steps of
    less than 5% *)
Definition v2_slide : list V2.bar :=
  map (v2_bar false false 100) (seq 0 20)
  ++ [v2_bar true false 100 20; v2_bar false false 96 21;
      v2_bar false false 92.5 22].

(** Entry at 100 on bar 20, then a fall to 90 on bar 21, which also carries
    a buy signal *)
Definition v2_stop_and_buy : list V2.bar :=
  map (v2_bar false false 100) (seq 0 20)
  ++ [v2_bar true false 100 20; v2_bar true false 90 21].

Definition v3_bar (c : Q) (r : option Q) (trend long_trend : Z) (d : nat)
  : V3.bar :=
  {| V3.date := d; V3.close := c; V3.volatility := Some 0.01;
     V3.momentum := Some 0.02; V3.momentum_20 := Some 0.05;
     V3.ATR := Some 1; V3.rsi := r; V3.ma_cross := 1;
     V3.ma_trend := trend; V3.ma_long_trend := long_trend |}.

(** Fifty quiet bars, an entry at 100 on bar 50 (score 5), a fall to 90 on
    bar 51 *)
Definition v3_stop : list V3.bar :=
  map (v3_bar 100 (Some 80) 0 0) (seq 0 50)
  ++ [v3_bar 100 (Some 50) 1 1 50; v3_bar 90 (Some 50) 1 1 51].

(** The states the loops are in after the entries on [v3_stop] and
    [v2_slide] *)
Definition v3_long : V3.state :=
  {| V3.bk := {| V3.cash := 25362.7; V3.position := 746; V3.avg_cost := 100;
                 V3.highest_price := 100; V3.atr_stop_price := Some 96.5 |};
     V3.history := [] |}.

Definition v2_long : V2.state :=
  {| V2.bk := {| V2.cash := 48674.35; V2.position := 513;
                 V2.highest_price := 100 |};
     V2.history := [] |}.

(** The state of a run that has not traded: [n] rows, each showing the
    initial cash *)
Definition V1_untouched (c0 : Q) (n : nat) (st : V1.state) : Prop :=
  V1.cash st = c0 /\ V1.position st = 0%Z /\
  length (V1.history st) = n /\
  Forall (fun r => V1.l_cash r = c0 /\ V1.l_position r = 0%Z /\
                   V1.l_portfolio_value r == c0) (V1.history st).

Definition V2_untouched (c0 : Q) (n : nat) (st : V2.state) : Prop :=
  V2.cash (V2.bk st) = c0 /\ V2.position (V2.bk st) = 0%Z /\
  length (V2.history st) = n /\
  Forall (fun r => V2.l_cash r = c0 /\ V2.l_position r = 0%Z /\
                   V2.l_portfolio_value r == c0) (V2.history st).

Definition V3_untouched (c0 : Q) (n : nat) (st : V3.state) : Prop :=
  V3.cash (V3.bk st) = c0 /\ V3.position (V3.bk st) = 0%Z /\
  length (V3.history st) = n /\
  Forall (fun r => V3.l_cash r = c0 /\ V3.l_position r = 0%Z /\
                   V3.l_portfolio_value r == c0) (V3.history st).

(** C4 on the ledger rows and on the whole state *)
Definition V1_row_sound (r : V1.ledger_row) : Prop :=
  0 <= V1.l_cash r /\ (0 <= V1.l_position r)%Z.
Definition V2_row_sound (r : V2.ledger_row) : Prop :=
  0 <= V2.l_cash r /\ (0 <= V2.l_position r)%Z.
Definition V3_row_sound (r : V3.ledger_row) : Prop :=
  0 <= V3.l_cash r /\ (0 <= V3.l_position r)%Z.

Definition V1_state_sound (st : V1.state) : Prop :=
  (0 <= V1.cash st /\ (0 <= V1.position st)%Z) /\
  Forall V1_row_sound (V1.history st).
Definition V2_state_sound (st : V2.state) : Prop :=
  V2_sound (V2.bk st) /\ Forall V2_row_sound (V2.history st).
Definition V3_state_sound (st : V3.state) : Prop :=
  V3_sound (V3.bk st) /\ Forall V3_row_sound (V3.history st).

(** Flat books with little cash *)
Definition v2_poor : V2.book :=
  {| V2.cash := 150; V2.position := 0; V2.highest_price := 0 |}.

Definition v3_poor : V3.book :=
  {| V3.cash := 50; V3.position := 0; V3.avg_cost := 0;
     V3.highest_price := 0; V3.atr_stop_price := Some 0 |}.



(** Sixteen closes that rise by one each bar: the average loss is zero on
    bar 14. *)
Definition rising : list Q := map (fun n => inject_Z (Z.of_nat n)) (seq 100 16).

(** Overwrite the RSI and the two trend columns of one row *)
Definition with_indicators (r : option Q) (trend long_trend : Z) (b : V3.bar)
  : V3.bar :=
  {| V3.date := V3.date b; V3.close := V3.close b;
     V3.volatility := V3.volatility b; V3.momentum := V3.momentum b;
     V3.momentum_20 := V3.momentum_20 b; V3.ATR := V3.ATR b;
     V3.rsi := r; V3.ma_cross := V3.ma_cross b;
     V3.ma_trend := trend; V3.ma_long_trend := long_trend |}.

(** [frame.iloc[i] = f(frame.iloc[i])] on a copy of the frame *)
Fixpoint update_at {A : Type} (f : A -> A) (i : nat) (l : list A) : list A :=
  match l, i with
  | [], _ => []
  | x :: rest, O => f x :: rest
  | x :: rest, S j => x :: update_at f j rest
  end.

(** [v3_stop] with the RSI of its last bar set to 40 *)
Definition v3_stop_cool : list V3.bar :=
  update_at (with_indicators (Some 40) 1 1) 51 v3_stop.


(** * The indicator and signal code around the loops *)

(** ** More column helpers *)

(** Cell-wise [a - b] and [a / b] of two cells that may hold NaN *)
Definition nan_sub (a b : option Q) : option Q :=
  match a, b with
  | Some x, Some y => Some (x - y)
  | _, _ => None
  end.

Definition nan_div (a b : option Q) : option Q :=
  match a, b with
  | Some x, Some y => Some (x / y)
  | _, _ => None
  end.

(** [col.shift(-k)]: the cells move up by [k], the last [k] become NaN *)
Definition shift_back (k : nat) (col : list (option Q)) : list (option Q) :=
  skipn k col ++ repeat None (Nat.min k (length col)).

(** [col.shift(k)]: the cells move down by [k], the first [k] become NaN *)
Definition shift_fwd (k : nat) (col : list (option Q)) : list (option Q) :=
  repeat None (Nat.min k (length col)) ++ firstn (length col - k) col.

(** The cell of row [i] of a float column, in an aligned row-wise
    operation *)
Definition cell (col : list (option Q)) (i : nat) : option Q :=
  nth i col None.

(** [col.pct_change(periods=k)] on a column without NaN:
    [col / col.shift(k) - 1] *)
Definition pct_change (k : nat) (col : list Q) : list (option Q) :=
  zip_with (fun cur prev => nan_sub (nan_div (Some cur) prev) (Some 1))
    col (shift_fwd k (map Some col)).

(** The cell of row [i] of an integer column, and of its [shift(1)] *)
Definition int_cell (col : list Z) (i : nat) : Z := nth i col 0%Z.
Definition shifted_cell (col : list Z) (i : nat) : option Z :=
  nth i (shift1 col) None.

(** ** Variant 1: [__init__] and [generate_signals] *)

Module TQQQStrategy.

(** One row of the frame handed to [__init__]: the columns variant 1
    reads *)
Record row : Type := {
  date : nat;
  open : Q;
  close : Q;
  avg : Q
}.

Definition buy_threshold : Q := 0.0003.
Definition sell_threshold : Q := -0.0002.

Definition avg_0 (data : list row) : list (option Q) :=
  map (fun r => Some (avg r)) data.

(** Lines 10-11 *)
Definition ma_2 (data : list row) : list (option Q) :=
  rolling_mean 2 (map avg data).
Definition ma_7 (data : list row) : list (option Q) :=
  rolling_mean 7 (map avg data).

(** Lines 22-30: tomorrow's and the day after's columns *)
Definition avg_1 (data : list row) : list (option Q) :=
  shift_back 1 (avg_0 data).
Definition avg_2 (data : list row) : list (option Q) :=
  shift_back 2 (avg_0 data).
Definition ma_7_1 (data : list row) : list (option Q) :=
  shift_back 1 (ma_7 data).

(** Lines 35-38, on row [i] *)
Definition buy_signal (data : list row) (i : nat) : bool :=
  nan_lt (Some buy_threshold)
    (nan_sub (cell (avg_1 data) i) (cell (ma_2 data) i))
  && nan_le (Some sell_threshold)
       (nan_sub (nan_div (cell (avg_2 data) i) (cell (ma_7_1 data) i))
          (Some 1)).

(** Lines 41-43, on row [i] *)
Definition sell_signal (data : list row) (i : nat) : bool :=
  nan_lt
    (nan_sub (nan_div (cell (avg_1 data) i) (cell (ma_7 data) i)) (Some 1))
    (Some sell_threshold).

(** The frame as [backtest] finds it after [generate_signals] *)
Definition generate_signals (data : list row) : list V1.bar :=
  zip_with
    (fun i r =>
       {| V1.date := date r; V1.open := open r; V1.close := close r;
          V1.buy_signal := buy_signal data i;
          V1.sell_signal := sell_signal data i |})
    (seq 0 (length data)) data.

End TQQQStrategy.

(** Sample frames of variant 1 before [generate_signals]: twelve rows whose
    average price is 100 except on bars 8 and 9 *)
Definition v1_row (a : Q) (d : nat) : TQQQStrategy.row :=
  {| TQQQStrategy.date := d; TQQQStrategy.open := a;
     TQQQStrategy.close := a; TQQQStrategy.avg := a |}.

Definition v1_rows (a8 a9 : Q) : list TQQQStrategy.row :=
  map (v1_row 100) (seq 0 8) ++ [v1_row a8 8; v1_row a9 9; v1_row 100 10;
                                 v1_row 100 11].

(** ** Variant 2: [__init__] and [generate_signals] *)

Module TQQQStrategyV2.

(** One row of the frame: the columns variant 2 reads, and the
    [volatility] column of line 15 (a rolling standard deviation, taken as
    given) *)
Record row : Type := {
  date : nat;
  close : Q;
  avg : Q;
  volatility : option Q
}.

(** Lines 10-12 *)
Definition ma_2 (data : list row) : list (option Q) :=
  rolling_mean 2 (map avg data).
Definition ma_7 (data : list row) : list (option Q) :=
  rolling_mean 7 (map avg data).
Definition ma_20 (data : list row) : list (option Q) :=
  rolling_mean 20 (map avg data).

(** Lines 30-31: [(a > b).astype(int)], row by row *)
Definition ma_cross (data : list row) : list Z :=
  map (fun i => astype_int (nan_lt (cell (ma_7 data) i) (cell (ma_2 data) i)))
      (seq 0 (length data)).
Definition ma_trend (data : list row) : list Z :=
  map (fun i => astype_int (nan_lt (cell (ma_20 data) i) (cell (ma_7 data) i)))
      (seq 0 (length data)).

(** Line 34 *)
Definition momentum (data : list row) : list (option Q) :=
  pct_change 5 (map avg data).

Definition volatility_cell (data : list row) (i : nat) : option Q :=
  match nth_error data i with
  | Some r => volatility r
  | None => None
  end.

(** Lines 40-47, on row [i] *)
Definition buy_signal (data : list row) (i : nat) : bool :=
  gt_shifted (int_cell (ma_cross data) i) (shifted_cell (ma_cross data) i)
  && ((int_cell (ma_trend data) i =? 1)%Z
      || nan_lt (Some 0.01) (cell (momentum data) i))
  && nan_lt (volatility_cell data i) (Some (V2.vol_threshold * 1.2)).

(** Lines 52-58, on row [i] *)
Definition sell_signal (data : list row) (i : nat) : bool :=
  lt_shifted (int_cell (ma_cross data) i) (shifted_cell (ma_cross data) i)
  && ((int_cell (ma_trend data) i =? 0)%Z
      || nan_lt (Some (V2.vol_threshold * 2)) (volatility_cell data i)).

(** The frame as [backtest] finds it after [generate_signals] *)
Definition generate_signals (data : list row) : list V2.bar :=
  zip_with
    (fun i r =>
       {| V2.date := date r; V2.close := close r;
          V2.volatility := volatility r;
          V2.buy_signal := buy_signal data i;
          V2.sell_signal := sell_signal data i |})
    (seq 0 (length data)) data.

End TQQQStrategyV2.

(** Sample frame of variant 2 before [generate_signals]: the average price
    is 100 for twenty bars, dips to 90 on bar 20 and recovers to 130 and 140,
    so that the 2-bar average crosses above the 7-bar average on bar 21 *)
Definition v2_row (a : Q) (d : nat) : TQQQStrategyV2.row :=
  {| TQQQStrategyV2.date := d; TQQQStrategyV2.close := a;
     TQQQStrategyV2.avg := a; TQQQStrategyV2.volatility := Some 0.02 |}.

Definition v2_rows : list TQQQStrategyV2.row :=
  map (v2_row 100) (seq 0 20) ++ [v2_row 90 20; v2_row 130 21; v2_row 140 22].

(** The account of variant 2 valued at a price *)
Definition V2_value (price : Q) (k : V2.book) : Q :=
  V2.cash k + inject_Z (V2.position k) * price.

(** A volatility cell as a rolling standard deviation gives it: NaN or not
    negative *)
Definition vol_ok (v : option Q) : Prop :=
  match v with
  | Some x => 0 <= x
  | None => True
  end.

(** ** Variant 3: [calculate_atr] and [prepare_data] *)

Module TQQQStrategyV3.

(** One row of the frame handed to [__init__]: the columns variant 3
    reads, and the [volatility] column of line 69 (a rolling standard
    deviation, taken as given) *)
Record row : Type := {
  date : nat;
  high : Q;
  low : Q;
  close : Q;
  avg : Q;
  volatility : option Q
}.

(** Lines 7-10: the largest of [H-L], [|H-PC|] and [|L-PC|]; on the first
    row the previous close is NaN and [max(axis=1)] skips the NaN cells *)
Definition true_range (r : row) (prev_close : option Q) : Q :=
  match prev_close with
  | None => high r - low r
  | Some pc =>
      py_max (py_max (high r - low r) (Qabs (high r - pc)))
             (Qabs (low r - pc))
  end.

Definition TR (data : list row) : list Q :=
  zip_with true_range data (shift1 (map close data)).

(** Lines 5-13: the [ATR] column *)
Definition calculate_atr (data : list row) (period : nat) : list (option Q) :=
  rolling_mean period (TR data).

(** Lines 63-66 *)
Definition ma_2 (data : list row) : list (option Q) :=
  rolling_mean 2 (map avg data).
Definition ma_7 (data : list row) : list (option Q) :=
  rolling_mean 7 (map avg data).
Definition ma_20 (data : list row) : list (option Q) :=
  rolling_mean 20 (map avg data).
Definition ma_50 (data : list row) : list (option Q) :=
  rolling_mean 50 (map avg data).

(** Lines 60-84: the frame after [prepare_data], row by row *)
Definition prepare_row (p : V3.params) (data : list row) (i : nat) (r : row)
  : V3.bar :=
  {| V3.date := date r;
     V3.close := close r;
     V3.volatility := volatility r;
     V3.momentum := cell (pct_change 5 (map avg data)) i;
     V3.momentum_20 := cell (pct_change 20 (map avg data)) i;
     V3.ATR := cell (calculate_atr data (V3.atr_period p)) i;
     V3.rsi := cell (RSI.calculate_rsi (map close data) 14) i;
     V3.ma_cross :=
       astype_int (nan_lt (cell (ma_7 data) i) (cell (ma_2 data) i));
     V3.ma_trend :=
       astype_int (nan_lt (cell (ma_20 data) i) (cell (ma_7 data) i));
     V3.ma_long_trend :=
       astype_int (nan_lt (cell (ma_50 data) i) (cell (ma_20 data) i)) |}.

Definition prepare_data (p : V3.params) (data : list row) : list V3.bar :=
  zip_with (prepare_row p data) (seq 0 (length data)) data.

End TQQQStrategyV3.

(** The account of variant 3 valued at a price *)
Definition V3_value (price : Q) (k : V3.book) : Q :=
  V3.cash k + inject_Z (V3.position k) * price.

(** An ATR cell as a rolling mean of true ranges gives it: NaN or not
    negative *)
Definition atr_ok (a : option Q) : Prop :=
  match a with
  | Some x => 0 <= x
  | None => True
  end.

(** What the loop of variant 3 keeps about its stop levels: a flat account
    has no highest price; a held position has a positive average cost that
    the highest price is not below *)
Definition V3_levels (k : V3.book) : Prop :=
  (V3.position k = 0%Z -> V3.highest_price k == 0) /\
  ((0 < V3.position k)%Z ->
   0 < V3.avg_cost k /\ V3.avg_cost k <= V3.highest_price k).

(** Sample frame of variant 3 before [prepare_data]: 53 bars with a range
    of 2 around a close of 100 *)
Definition v3_row (c : Q) (d : nat) : TQQQStrategyV3.row :=
  {| TQQQStrategyV3.date := d; TQQQStrategyV3.high := c + 1;
     TQQQStrategyV3.low := c - 1; TQQQStrategyV3.close := c;
     TQQQStrategyV3.avg := c; TQQQStrategyV3.volatility := Some 0.01 |}.

Definition v3_rows : list TQQQStrategyV3.row :=
  map (v3_row 100) (seq 0 51) ++ [v3_row 104 51; v3_row 101 52].

(** The ledger row of bar [i] in variant 3 *)
Definition V3_row_of (data : list V3.bar) (r : V3.ledger_row) (i : nat) : Prop :=
  exists b, iloc data i = Some b /\ V3.l_date r = V3.date b /\
            V3.l_close r = V3.close b.

(** [subseq l m]: [l] is [m] with some elements left out *)
Inductive subseq {A : Type} : list A -> list A -> Prop :=
  | subseq_nil : subseq [] []
  | subseq_skip (x : A) (l m : list A) : subseq l m -> subseq l (x :: m)
  | subseq_take (x : A) (l m : list A) : subseq l m -> subseq (x :: l) (x :: m).

(** ** The performance metrics: [main.calculate_performance_metrics] and
       [Backtester.calculate_performance]

    The ledger is read through its [signal] and [portfolio_value] columns.
    The annualised return (a fractional power), the Sharpe ratio (a standard
    deviation and a square root) and the monthly statistics (calendar
    resampling) are not rational functions of the ledger and are left out;
    so are the printing, plotting and saving of [calculate_performance]. *)

Module Metrics.

Definition ledger : Type := list (signal * Q).

Definition portfolio_value (results : ledger) : list Q := map snd results.

Definition is_buy (s : signal) : bool :=
  match s with Buy => true | _ => false end.
Definition is_sell (s : signal) : bool :=
  match s with Sell => true | _ => false end.

(** [len(results[results['signal'] == 'buy'])] and the like *)
Definition buy_trades (results : ledger) : nat :=
  length (filter (fun r => is_buy (fst r)) results).
Definition sell_trades (results : ledger) : nat :=
  length (filter (fun r => is_sell (fst r)) results).

(** [len(results[results['signal'].isin(['buy', 'sell'])])] *)
Definition signal_rows (results : ledger) : nat :=
  length (filter (fun r => is_buy (fst r) || is_sell (fst r)) results).

(** [col.expanding().max()] *)
Fixpoint expanding_max_from (m : Q) (col : list Q) : list Q :=
  match col with
  | [] => []
  | x :: rest => py_max m x :: expanding_max_from (py_max m x) rest
  end.

Definition expanding_max (col : list Q) : list Q :=
  match col with
  | [] => []
  | x :: rest => x :: expanding_max_from x rest
  end.

(** [col / col.expanding().max() - 1] *)
Definition drawdowns (col : list Q) : list Q :=
  zip_with (fun v m => v / m - 1) col (expanding_max col).


(** [col.min()]; an empty column has no minimum *)
Definition col_min (col : list Q) : option Q :=
  match col with
  | [] => None
  | x :: rest => Some (fold_left py_min rest x)
  end.

(** [len(r[r > 0])] for [r = col.pct_change()]: the bars whose value is
    above the value of the bar before *)
Definition up_days (col : list Q) : nat :=
  length (filter (fun r => nan_lt (Some 0) r) (pct_change 1 col)).

Record metrics : Type := {
  initial_value : Q;
  final_value : Q;
  total_return : Q;
  max_drawdown : Q;
  win_rate : Q;
  total_trades : nat;
  m_buy_trades : nat;
  m_sell_trades : nat
}.

Definition ratio (a b : nat) : Q :=
  inject_Z (Z.of_nat a) / inject_Z (Z.of_nat b).

(** [main.calculate_performance_metrics], lines 9-63 *)
Definition calculate_performance_metrics (results : ledger) : option metrics :=
  initial <- iloc (portfolio_value results) 0 ;;
  final <- iloc_last (portfolio_value results) ;;
  mdd <- col_min (drawdowns (portfolio_value results)) ;;
  let total := signal_rows results in
  let winning_trades := up_days (portfolio_value results) in
  Some {| initial_value := initial;
          final_value := final;
          total_return := (final - initial) / initial;
          max_drawdown := mdd;
          win_rate := if (0 <? total)%nat then ratio winning_trades total
                      else 0;
          total_trades := total;
          m_buy_trades := buy_trades results;
          m_sell_trades := sell_trades results |}.




End Metrics.

(** A column of values none of which is below an earlier one *)
Definition never_falls (col : list Q) : Prop := StronglySorted Qle col.

(** The [signal] and [portfolio_value] columns of the three ledgers *)
Definition V1_report (h : list V1.ledger_row) : Metrics.ledger :=
  map (fun r => (V1.l_signal r, V1.l_portfolio_value r)) h.
Definition V2_report (h : list V2.ledger_row) : Metrics.ledger :=
  map (fun r => (V2.l_signal r, V2.l_portfolio_value r)) h.
Definition V3_report (h : list V3.ledger_row) : Metrics.ledger :=
  map (fun r => (V3.l_signal r, V3.l_portfolio_value r)) h.

(** A ledger on which nothing happened: every row holds and shows the
    value [c0] *)
Definition idle (c0 : Q) (results : Metrics.ledger) : Prop :=
  Forall (fun r => fst r = Hold /\ snd r == c0) results.

(** ** The loader: [data_fetcher.fetch_tqqq_data]

    Reading the file is outside the model.  The frame is followed through
    its column names: [header] is the list of the column names of
    [data/tqqq.csv] as [read_csv] sees them (distinct names), or [None] when
    the file cannot be read.  Every exception inside the [try] is turned into
    the one exception of line 35, here [None]. *)

Module DataFetcher.

Definition has (col : string) (columns : list string) : bool :=
  existsb (String.eqb col) columns.

Definition drop (col : string) (columns : list string) : list string :=
  filter (fun c => negb (String.eqb col c)) columns.

Definition required_columns : list string :=
  ["open"; "high"; "low"; "close"; "avg"]%string.

(** Lines 10-37: the columns of the frame returned *)
Definition fetch_tqqq_data (header : option (list string))
  : option (list string) :=
  columns <- header ;;
  (* parse_dates=['dt'] and set_index('dt') need the column *)
  if has "dt" columns then
    let columns := drop "dt" columns in
    let columns :=
      if has "symbol" columns then drop "symbol" columns else columns in
    let missing_columns :=
      filter (fun col => negb (has col columns)) required_columns in
    match missing_columns with
    | [] => Some columns
    | _ => None
    end
  else None.

End DataFetcher.

(** ** The driver: [main.run_strategy]

    [run_strategy(data, strategy_class, strategy_name)] builds the strategy,
    generates the signals, runs the backtest with the default initial cash,
    computes the metrics and reads the first and last date of the ledger.
    One definition per strategy class.  The metrics are those of [Metrics];
    the dates are timestamps, as [parse_dates] of the loader delivers them,
    so that [strftime] is defined on them; the printing is left out. *)

Module Main.

Definition initial_cash : Q := 100000.

Definition report {R : Type} (to_report : list R -> Metrics.ledger)
    (results : list R) : option (list R * Metrics.metrics) :=
  metrics <- Metrics.calculate_performance_metrics (to_report results) ;;
  _ <- iloc results 0 ;;
  _ <- iloc_last results ;;
  Some (results, metrics).

Definition run_strategy_v1 (data : list TQQQStrategy.row)
  : option (list V1.ledger_row * Metrics.metrics) :=
  results <- V1.backtest (TQQQStrategy.generate_signals data) initial_cash ;;
  report V1_report results.

Definition run_strategy_v2 (data : list TQQQStrategyV2.row)
  : option (list V2.ledger_row * Metrics.metrics) :=
  results <- V2.backtest (TQQQStrategyV2.generate_signals data) initial_cash ;;
  report V2_report results.

Definition run_strategy_v3 (data : list TQQQStrategyV3.row)
  : option (list V3.ledger_row * Metrics.metrics) :=
  results <-
    V3.backtest V3.default_params
      (TQQQStrategyV3.prepare_data V3.default_params data) initial_cash ;;
  report V3_report results.

End Main.

(** * Properties *)

(** ** The loop *)

Lemma run_app {S : Type} (body : S -> nat -> option S) (l1 l2 : list nat) :
  forall st,
    run body st (l1 ++ l2) = (st' <- run body st l1 ;; run body st' l2).
Proof.
  induction l1 as [|i l1 IH]; intros st; simpl; [reflexivity|].
  destruct (body st i) as [st1|]; [apply IH | reflexivity].
Qed.

(** A property kept by every iteration holds after the loop. *)
Lemma run_invariant {S : Type} (body : S -> nat -> option S)
    (P : S -> Prop) (R : nat -> Prop) :
  (forall st i st', R i -> P st -> body st i = Some st' -> P st') ->
  forall idx st st',
    Forall R idx -> P st -> run body st idx = Some st' -> P st'.
Proof.
  intros Hstep idx; induction idx as [|i idx IH]; intros st st' HR HP Hrun;
    simpl in Hrun.
  - injection Hrun as <-. exact HP.
  - inversion HR as [|? ? Hi Hrest]; subst.
    destruct (body st i) as [st1|] eqn:E; [|discriminate].
    exact (IH st1 st' Hrest (Hstep st i st1 Hi HP E) Hrun).
Qed.

(** A loop whose body cannot fail under the invariant runs to its end. *)
Lemma run_total {S : Type} (body : S -> nat -> option S)
    (P : S -> Prop) (R : nat -> Prop) :
  (forall st i, R i -> P st -> exists st', body st i = Some st' /\ P st') ->
  forall idx st,
    Forall R idx -> P st -> exists st', run body st idx = Some st' /\ P st'.
Proof.
  intros Hstep idx; induction idx as [|i idx IH]; intros st HR HP; simpl.
  - eauto.
  - inversion HR as [|? ? Hi Hrest]; subst.
    destruct (Hstep st i Hi HP) as (st1 & E & HP1). rewrite E. eauto.
Qed.

Lemma Forall_firstn {A : Type} (P : A -> Prop) (k : nat) :
  forall l, Forall P l -> Forall P (firstn k l).
Proof.
  induction k as [|k IH]; intros l H; simpl; [constructor|].
  destruct H; constructor; auto.
Qed.

Lemma In_py_range (a b i : nat) :
  In i (py_range a b) <-> (a <= i /\ i < b)%nat.
Proof. unfold py_range. rewrite in_seq. lia. Qed.

Lemma iloc_Some {A : Type} (frame : list A) (i : nat) :
  (i < length frame)%nat -> exists x, iloc frame i = Some x /\ In x frame.
Proof.
  intros H. unfold iloc.
  destruct (nth_error frame i) as [x|] eqn:E.
  - exists x. split; [reflexivity|]. eapply nth_error_In; eauto.
  - apply nth_error_None in E. lia.
Qed.

Lemma iloc_In {A : Type} (frame : list A) (i : nat) (x : A) :
  iloc frame i = Some x -> In x frame.
Proof. apply nth_error_In. Qed.

Lemma iloc_prev_Some {A : Type} (frame : list A) (i : nat) :
  (0 < i <= length frame)%nat -> exists x, iloc_prev frame i = Some x.
Proof.
  intros H. destruct i as [|j]; [lia|]. simpl.
  destruct (iloc_Some frame j) as (x & E & _); [lia|]. eauto.
Qed.

(** ** Comparison and rounding facts *)

Lemma Qltb_true (a b : Q) : Qltb a b = true <-> a < b.
Proof.
  unfold Qltb. destruct (Qlt_le_dec a b); split; intros;
    first [easy | exfalso; lra].
Qed.

Lemma Qltb_false (a b : Q) : Qltb a b = false <-> b <= a.
Proof.
  unfold Qltb. destruct (Qlt_le_dec a b); split; intros;
    first [easy | exfalso; lra].
Qed.

Lemma Qleb_true (a b : Q) : Qleb a b = true <-> a <= b.
Proof.
  unfold Qleb. destruct (Qlt_le_dec b a); split; intros;
    first [easy | exfalso; lra].
Qed.

Lemma Qleb_false (a b : Q) : Qleb a b = false <-> b < a.
Proof.
  unfold Qleb. destruct (Qlt_le_dec b a); split; intros;
    first [easy | exfalso; lra].
Qed.

Lemma inject_Z_nonneg (z : Z) : (0 <= z)%Z -> 0 <= inject_Z z.
Proof. intros H. change 0 with (inject_Z 0). rewrite <- Zle_Qle. exact H. Qed.

Lemma inject_Z_pos (z : Z) : (0 < z)%Z -> 0 < inject_Z z.
Proof. intros H. change 0 with (inject_Z 0). rewrite <- Zlt_Qlt. exact H. Qed.

Lemma Qfloor_nonneg (x : Q) : 0 <= x -> (0 <= Qfloor x)%Z.
Proof.
  intros H. change 0%Z with (Qfloor 0). apply Qfloor_resp_le. exact H.
Qed.


Lemma floordiv_int_Some (x y : Q) (n : Z) :
  floordiv_int x y = Some n -> ~ y == 0 /\ n = Qfloor (x / y).
Proof.
  unfold floordiv_int. destruct (Qeq_bool y 0) eqn:E; [discriminate|].
  intros H. injection H as <-. split; [|reflexivity].
  intros Hy. apply Qeq_bool_iff in Hy. congruence.
Qed.

Lemma floordiv_int_total (x y : Q) :
  0 < y -> floordiv_int x y = Some (Qfloor (x / y)).
Proof.
  intros Hy. unfold floordiv_int.
  destruct (Qeq_bool y 0) eqn:E; [|reflexivity].
  apply Qeq_bool_iff in E. lra.
Qed.

(** [floor(x / y) * y <= x] for a positive divisor *)
Lemma floordiv_mul_le (x y : Q) :
  0 < y -> inject_Z (Qfloor (x / y)) * y <= x.
Proof.
  intros Hy. pose proof (Qfloor_le (x / y)) as H.
  assert (E : x == x / y * y) by (field; lra).
  rewrite E at 2. apply Qmult_le_compat_r; lra.
Qed.

(** ** Variant 1 *)

Lemma V1_trade_hold (b : V1.bar) (next_open c : Q) (p : Z) :
  V1.buy_signal b = false -> V1.sell_signal b = false ->
  V1.trade b next_open c p = Some (c, p).
Proof. intros Hb Hs. unfold V1.trade. rewrite Hb, Hs. reflexivity. Qed.

(** What one iteration does, read back from a successful [step] *)
Lemma V1_step_inv (data : list V1.bar) (st st' : V1.state) (i : nat) :
  V1.step data st i = Some st' ->
  exists b nb,
    iloc data i = Some b /\ iloc data (i + 1) = Some nb /\
    V1.trade b (V1.open nb) (V1.cash st) (V1.position st)
      = Some (V1.cash st', V1.position st') /\
    V1.history st' = V1.history st ++
      [ {| V1.l_date := V1.date b; V1.l_cash := V1.cash st';
           V1.l_position := V1.position st';
           V1.l_portfolio_value :=
             V1.cash st' + inject_Z (V1.position st') * V1.close b;
           V1.l_close := V1.close b;
           V1.l_signal := signal_of (V1.buy_signal b) (V1.sell_signal b) |} ].
Proof.
  unfold V1.step. intros H.
  destruct (iloc data i) as [b|]; [|discriminate].
  destruct (iloc data (i + 1)) as [nb|]; [|discriminate].
  destruct (V1.trade b (V1.open nb) (V1.cash st) (V1.position st))
    as [[c p]|] eqn:E; [|discriminate].
  injection H as <-. exists b, nb. simpl. rewrite E.
  repeat split; reflexivity.
Qed.

Lemma V1_run_rows (data : list V1.bar) :
  forall idx st st',
    run (V1.step data) st idx = Some st' ->
    exists rows, V1.history st' = V1.history st ++ rows /\
                 Forall2 (V1_row_of data) rows idx.
Proof.
  induction idx as [|i idx IH]; intros st st' H; simpl in H.
  - injection H as <-. exists []. rewrite app_nil_r. split; constructor.
  - destruct (V1.step data st i) as [st1|] eqn:E; [|discriminate].
    destruct (IH _ _ H) as (rows & Hh & Hr).
    destruct (V1_step_inv _ _ _ _ E) as (b & nb & Hb & _ & _ & Hh1).
    eexists (_ :: rows). split.
    + rewrite Hh, Hh1, <- app_assoc. reflexivity.
    + constructor; [|exact Hr]. exists b. simpl. auto.
Qed.

Lemma V1_trade_total (b : V1.bar) (next_open c : Q) (p : Z) :
  0 < next_open -> exists cp, V1.trade b next_open c p = Some cp.
Proof.
  intros Ho. unfold V1.trade.
  destruct (V1.buy_signal b && (p =? 0)%Z).
  - rewrite floordiv_int_total by exact Ho. eauto.
  - destruct (V1.sell_signal b && (0 <? p)%Z); eauto.
Qed.

(** With positive opening prices the loop of variant 1 raises nothing. *)
Lemma V1_run_total (data : list V1.bar) (idx : list nat) (st : V1.state) :
  (forall b, In b data -> 0 < V1.open b) ->
  Forall (fun i => (i + 1 < length data)%nat) idx ->
  exists st', run (V1.step data) st idx = Some st'.
Proof.
  intros Hpos Hidx.
  destruct (run_total (V1.step data) (fun _ => True)
              (fun i => (i + 1 < length data)%nat)) with (idx := idx) (st := st)
    as (st' & E & _); auto; [|eauto].
  intros s i Hi _. unfold V1.step.
  destruct (iloc_Some data i) as (b & -> & _); [lia|].
  destruct (iloc_Some data (i + 1)) as (nb & -> & Hin); [lia|].
  destruct (V1_trade_total b (V1.open nb) (V1.cash s) (V1.position s))
    as ([c p] & ->); [auto|]. eauto.
Qed.

Lemma V1_bars_in_range (data : list V1.bar) :
  Forall (fun i => (i + 1 < length data)%nat) (V1.bars data).
Proof.
  apply Forall_forall. intros i Hi. apply In_py_range in Hi. lia.
Qed.

Lemma V1_trade_nonneg (b : V1.bar) (next_open c c' : Q) (p p' : Z) :
  0 < next_open -> 0 <= c -> (0 <= p)%Z ->
  V1.trade b next_open c p = Some (c', p') ->
  0 <= c' /\ (0 <= p')%Z.
Proof.
  intros Ho Hc Hp. unfold V1.trade.
  destruct (V1.buy_signal b && (p =? 0)%Z) eqn:Eb.
  - apply andb_prop in Eb as [_ Ep]. apply Z.eqb_eq in Ep. subst p.
    rewrite floordiv_int_total by exact Ho.
    set (x := (c + inject_Z 0 * V1.close b) * 0.97).
    assert (Hx : x == c * 0.97) by (unfold x; ring).
    clearbody x. intros H.
    assert (Hp' : p' = Qfloor (x / next_open)) by congruence.
    assert (Hc' : c' = c - inject_Z p' * next_open) by congruence.
    pose proof (floordiv_mul_le x next_open Ho) as Hle.
    rewrite <- Hp' in Hle. subst c'.
    split; [lra|].
    rewrite Hp'. apply Qfloor_nonneg. apply Qle_shift_div_l; lra.
  - destruct (V1.sell_signal b && (0 <? p)%Z) eqn:Es;
      intros H; injection H as <- <-.
    + split; [|lia].
      pose proof (Qmult_le_0_compat (inject_Z p) next_open
                    (inject_Z_nonneg p Hp)). lra.
    + auto.
Qed.

(** ** Variant 2 *)

Lemma V2_costs_eq (price : Q) (shares : Z) :
  V2.calculate_transaction_costs price shares
  == price * inject_Z shares * 0.0005.
Proof.
  unfold V2.calculate_transaction_costs, V2.commission, V2.slippage. ring.
Qed.

Lemma V2_liquidate_cash (price : Q) (k : V2.book) :
  V2.cash (V2.liquidate price k)
  == V2.cash k + inject_Z (V2.position k) * price * 0.9995.
Proof. unfold V2.liquidate. simpl. rewrite V2_costs_eq. ring. Qed.

Lemma V2_step_inv (data : list V2.bar) (st st' : V2.state) (i : nat) :
  V2.step data st i = Some st' ->
  exists b k1,
    iloc data i = Some b /\
    V2.risk data i (V2.close b) (V2.bk st) = Some k1 /\
    V2.trade b (V2.cash (V2.bk st)
                + inject_Z (V2.position (V2.bk st)) * V2.close b) k1
      = Some (V2.bk st') /\
    V2.history st' = V2.history st ++ [V2.emit b (V2.bk st')].
Proof.
  unfold V2.step. intros H.
  destruct (iloc data i) as [b|]; [|discriminate].
  destruct (V2.risk data i (V2.close b) (V2.bk st)) as [k1|] eqn:Er;
    [|discriminate].
  destruct (V2.trade b _ k1) as [k2|] eqn:E; [|discriminate].
  injection H as <-. exists b, k1. simpl. rewrite Er, E.
  repeat split; reflexivity.
Qed.

Lemma V2_run_rows (data : list V2.bar) :
  forall idx st st',
    run (V2.step data) st idx = Some st' ->
    exists rows, V2.history st' = V2.history st ++ rows /\
                 Forall2 (V2_row_of data) rows idx.
Proof.
  induction idx as [|i idx IH]; intros st st' H; simpl in H.
  - injection H as <-. exists []. rewrite app_nil_r. split; constructor.
  - destruct (V2.step data st i) as [st1|] eqn:E; [|discriminate].
    destruct (IH _ _ H) as (rows & Hh & Hr).
    destruct (V2_step_inv _ _ _ _ E) as (b & k1 & Hb & _ & _ & Hh1).
    eexists (_ :: rows). split.
    + rewrite Hh, Hh1, <- app_assoc. reflexivity.
    + constructor; [|exact Hr]. exists b. simpl. auto.
Qed.

Lemma V2_risk_flat (data : list V2.bar) (i : nat) (price : Q) (k : V2.book) :
  V2.position k = 0%Z -> V2.risk data i price k = Some k.
Proof. intros H. unfold V2.risk. rewrite H. reflexivity. Qed.

Lemma V2_trade_hold (b : V2.bar) (total_value : Q) (k : V2.book) :
  V2.buy_signal b = false -> V2.sell_signal b = false ->
  V2.trade b total_value k = Some k.
Proof. intros Hb Hs. unfold V2.trade. rewrite Hb, Hs. reflexivity. Qed.

Lemma V2_risk_total (data : list V2.bar) (i : nat) (price : Q) (k : V2.book) :
  (0 < i <= length data)%nat -> exists k', V2.risk data i price k = Some k'.
Proof.
  intros Hi. unfold V2.risk.
  destruct (0 <? V2.position k)%Z; [|eauto].
  destruct (iloc_prev_Some data i Hi) as (pb & ->).
  destruct (V2.stop_triggered _ _ _); eauto.
Qed.

Lemma V2_trade_total (b : V2.bar) (total_value : Q) (k : V2.book) :
  0 < V2.close b -> exists k', V2.trade b total_value k = Some k'.
Proof.
  intros Hc. unfold V2.trade.
  destruct (V2.buy_signal b && (V2.position k =? 0)%Z).
  - rewrite floordiv_int_total by exact Hc.
    destruct (0 <? _)%Z; [|eauto]. destruct (Qleb _ _); eauto.
  - destruct (V2.sell_signal b && (0 <? V2.position k)%Z); eauto.
Qed.

(** With positive closing prices the loop of variant 2 raises nothing. *)
Lemma V2_run_total (data : list V2.bar) (idx : list nat) (st : V2.state) :
  (forall b, In b data -> 0 < V2.close b) ->
  Forall (fun i => (0 < i < length data)%nat) idx ->
  exists st', run (V2.step data) st idx = Some st'.
Proof.
  intros Hpos Hidx.
  destruct (run_total (V2.step data) (fun _ => True)
              (fun i => (0 < i < length data)%nat)) with (idx := idx) (st := st)
    as (st' & E & _); auto; [|eauto].
  intros s i Hi _. unfold V2.step.
  destruct (iloc_Some data i) as (b & -> & Hin); [lia|].
  destruct (V2_risk_total data i (V2.close b) (V2.bk s)) as (k1 & ->); [lia|].
  destruct (V2_trade_total b
              (V2.cash (V2.bk s) + inject_Z (V2.position (V2.bk s)) * V2.close b)
              k1) as (k2 & ->); [auto|]. eauto.
Qed.

Lemma V2_bars_in_range (data : list V2.bar) :
  Forall (fun i => (0 < i < length data)%nat) (V2.bars data).
Proof.
  apply Forall_forall. intros i Hi. apply In_py_range in Hi. lia.
Qed.

Lemma V2_liquidate_sound (price : Q) (k : V2.book) :
  0 <= price -> V2_sound k -> V2_sound (V2.liquidate price k).
Proof.
  intros Hp [Hc Hn]. split; [|simpl; lia].
  rewrite V2_liquidate_cash.
  pose proof (Qmult_le_0_compat _ _ (inject_Z_nonneg _ Hn) Hp). lra.
Qed.

Lemma V2_risk_sound (data : list V2.bar) (i : nat) (price : Q) (k k' : V2.book) :
  0 <= price -> V2_sound k -> V2.risk data i price k = Some k' -> V2_sound k'.
Proof.
  intros Hp Hk. unfold V2.risk.
  destruct (0 <? V2.position k)%Z; [|congruence].
  destruct (iloc_prev data i) as [pb|]; [|discriminate].
  destruct (V2.stop_triggered _ _ _); intros H; injection H as <-.
  - apply V2_liquidate_sound; assumption.
  - exact Hk.
Qed.

Lemma V2_trade_sound (b : V2.bar) (total_value : Q) (k k' : V2.book) :
  0 <= V2.close b -> V2_sound k -> V2.trade b total_value k = Some k' ->
  V2_sound k'.
Proof.
  intros Hp Hk. unfold V2.trade.
  destruct (V2.buy_signal b && (V2.position k =? 0)%Z).
  - destruct (floordiv_int _ _) as [n|]; [|discriminate].
    destruct (0 <? n)%Z eqn:En; [|congruence].
    destruct (Qleb _ _) eqn:El; [|congruence].
    intros H. injection H as <-. apply Qleb_true in El.
    split; simpl; [lra|]. apply Z.ltb_lt in En. lia.
  - destruct (V2.sell_signal b && (0 <? V2.position k)%Z); [|congruence].
    intros H. injection H as <-. apply V2_liquidate_sound; assumption.
Qed.

(** A buy signal whose share count is zero, or whose cost exceeds the cash,
    changes nothing. *)
Lemma V2_trade_no_op (b : V2.bar) (total_value : Q) (k : V2.book) (n : Z) :
  V2.buy_signal b = true -> V2.position k = 0%Z ->
  floordiv_int
    (total_value
     * V2.calculate_position_size (V2.cash k) (V2.close b) (V2.volatility b))
    (V2.close b) = Some n ->
  (n <= 0)%Z \/
  V2.cash k < inject_Z n * V2.close b
              + V2.calculate_transaction_costs (V2.close b) n ->
  V2.trade b total_value k = Some k.
Proof.
  intros Hb Hflat Hn Hor. unfold V2.trade. rewrite Hb, Hflat. simpl.
  rewrite Hn. destruct (0 <? n)%Z eqn:En; [|reflexivity].
  apply Z.ltb_lt in En. destruct Hor as [H|H]; [lia|].
  apply Qleb_false in H. rewrite H. reflexivity.
Qed.

(** ** Variant 3 *)

Lemma zip_with_length {A B C : Type} (f : A -> B -> C) :
  forall l m, length l = length m -> length (zip_with f l m) = length m.
Proof.
  induction l as [|a l IH]; intros [|b m] H; simpl in *; try lia.
  rewrite IH; lia.
Qed.

Lemma shift1_length {A : Type} (col : list A) :
  length (shift1 col) = length col.
Proof.
  destruct col as [|a col]; [reflexivity|].
  unfold shift1. cbn [length].
  rewrite length_map, removelast_firstn_len, length_firstn.
  cbn [length]. lia.
Qed.

Lemma V3_buy_signal_length (p : V3.params) (data : list V3.bar) :
  length (V3.buy_signal p data) = length data.
Proof.
  unfold V3.buy_signal, V3.buy_conditions_frame.
  rewrite length_map, zip_with_length; [reflexivity|].
  rewrite shift1_length, length_map. reflexivity.
Qed.

Lemma V3_sell_signal_length (p : V3.params) (data : list V3.bar) :
  length (V3.sell_signal p data) = length data.
Proof.
  unfold V3.sell_signal.
  rewrite zip_with_length; [reflexivity|].
  rewrite shift1_length, length_map. reflexivity.
Qed.

Lemma V3_costs_eq (p : V3.params) (price : Q) (shares : Z) :
  V3.calculate_transaction_costs p price shares
  == price * inject_Z shares * (V3.commission p + V3.slippage p).
Proof. unfold V3.calculate_transaction_costs. ring. Qed.

Lemma py_min_le_l (a b : Q) : py_min a b <= a.
Proof. unfold py_min. destruct (Qlt_le_dec b a); lra. Qed.

Lemma Qceiling_nonpos (x : Q) : x <= 0 -> (Qceiling x <= 0)%Z.
Proof.
  intros H. unfold Qceiling.
  assert (0 <= Qfloor (- x))%Z by (apply Qfloor_nonneg; lra). lia.
Qed.

(** [int(x)] never exceeds a non-negative bound of [x] *)
Lemma py_int_le (x y : Q) : 0 <= y -> x <= y -> inject_Z (py_int x) <= y.
Proof.
  intros Hy Hx. unfold py_int. destruct (Qlt_le_dec x 0) as [Hn|Hn].
  - pose proof (Qceiling_nonpos x) as Hc.
    assert (inject_Z (Qceiling x) <= 0).
    { change 0 with (inject_Z 0). rewrite <- Zle_Qle. apply Hc. lra. }
    lra.
  - pose proof (Qfloor_le x). lra.
Qed.

(** The partial exit never takes the whole position: the ratio is capped at
    0.8. *)
Lemma V3_shares_to_sell_lt (p : V3.params) (pnl : Q) (k : V3.book) :
  (0 < V3.position k)%Z -> (V3.shares_to_sell p pnl k < V3.position k)%Z.
Proof.
  intros Hpos. unfold V3.shares_to_sell.
  set (r := py_min 0.8 _). pose proof (py_min_le_l 0.8 (V3.partial_sell_ratio p * (1 + pnl))) as Hr.
  fold r in Hr. pose proof (inject_Z_pos _ Hpos) as Hq.
  assert (Hx : inject_Z (V3.position k) * r <= inject_Z (V3.position k) * 0.8)
    by nra.
  pose proof (py_int_le (inject_Z (V3.position k) * r)
                (inject_Z (V3.position k) * 0.8)) as Hle.
  rewrite Zlt_Qlt. lra.
Qed.

Lemma V3_step_inv (p : V3.params) (data : list V3.bar) (st st' : V3.state)
    (i : nat) :
  V3.step p data st i = Some st' ->
  exists b buy sell,
    iloc data i = Some b /\
    iloc (V3.buy_signal p data) i = Some buy /\
    iloc (V3.sell_signal p data) i = Some sell /\
    ((V3.risk p b (V3.bk st) = V3.Skip (V3.bk st') /\
      V3.history st' = V3.history st)
     \/
     (exists k1, V3.risk p b (V3.bk st) = V3.Go k1 /\
        V3.trade p data b buy sell k1 = Some (V3.bk st') /\
        V3.history st' = V3.history st ++ [V3.emit b buy sell (V3.bk st')])).
Proof.
  unfold V3.step. intros H.
  destruct (iloc data i) as [b|]; [|discriminate].
  destruct (iloc (V3.buy_signal p data) i) as [buy|]; [|discriminate].
  destruct (iloc (V3.sell_signal p data) i) as [sell|]; [|discriminate].
  exists b, buy, sell. repeat split; try reflexivity.
  destruct (V3.risk p b (V3.bk st)) as [k|k1].
  - injection H as <-. left. split; reflexivity.
  - destruct (V3.trade p data b buy sell k1) as [k2|] eqn:E; [|discriminate].
    injection H as <-. right. exists k1. simpl. rewrite E.
    repeat split; reflexivity.
Qed.

Lemma iloc_last_Some {A : Type} (frame : list A) :
  frame <> [] -> exists x, iloc_last frame = Some x /\ In x frame.
Proof.
  intros H. destruct frame as [|a frame]; [congruence|].
  unfold iloc_last.
  destruct (iloc_Some (a :: frame) (length (a :: frame) - 1)) as (x & E & Hin).
  - simpl. lia.
  - exists x. split; [exact E | exact Hin].
Qed.

Lemma V3_size_total (p : V3.params) (data : list V3.bar) (cash price : Q)
    (vol : option Q) :
  data <> [] -> 0 < price ->
  exists n, V3.calculate_position_size p data cash price vol = Some n.
Proof.
  intros Hne Hp. unfold V3.calculate_position_size.
  destruct (iloc_last_Some data Hne) as (x & -> & _).
  rewrite floordiv_int_total by exact Hp. eauto.
Qed.

Lemma V3_trade_total (p : V3.params) (data : list V3.bar) (b : V3.bar)
    (buy sell : bool) (k : V3.book) :
  data <> [] -> 0 < V3.close b ->
  exists k', V3.trade p data b buy sell k = Some k'.
Proof.
  intros Hne Hc. unfold V3.trade.
  destruct (buy && (V3.position k =? 0)%Z).
  - destruct (V3_size_total p data (V3.cash k) (V3.close b) (V3.volatility b)
                Hne Hc) as (n & ->).
    destruct (0 <? n)%Z; [|eauto]. destruct (Qleb _ _); eauto.
  - destruct (sell && (0 <? V3.position k)%Z); eauto.
Qed.

(** With positive closing prices the loop of variant 3 raises nothing. *)
Lemma V3_run_total (p : V3.params) (data : list V3.bar) (idx : list nat)
    (st : V3.state) :
  (forall b, In b data -> 0 < V3.close b) ->
  Forall (fun i => (i < length data)%nat) idx ->
  exists st', run (V3.step p data) st idx = Some st'.
Proof.
  intros Hpos Hidx.
  destruct (run_total (V3.step p data) (fun _ => True)
              (fun i => (i < length data)%nat)) with (idx := idx) (st := st)
    as (st' & E & _); auto; [|eauto].
  intros s i Hi _. unfold V3.step.
  destruct (iloc_Some data i) as (b & Eb & Hin); [lia|]. rewrite Eb.
  destruct (iloc_Some (V3.buy_signal p data) i) as (buy & -> & _);
    [rewrite V3_buy_signal_length; lia|].
  destruct (iloc_Some (V3.sell_signal p data) i) as (sell & -> & _);
    [rewrite V3_sell_signal_length; lia|].
  destruct (V3.risk p b (V3.bk s)) as [k|k1]; [eauto|].
  destruct (V3_trade_total p data b buy sell k1) as (k2 & ->); eauto.
  intros ->. destruct i; discriminate.
Qed.

Lemma V3_bars_in_range (p : V3.params) (data : list V3.bar) :
  Forall (fun i => (i < length data)%nat) (V3.bars p data).
Proof.
  apply Forall_forall. intros i Hi. apply In_py_range in Hi. lia.
Qed.

(** Net proceeds of a sale are not negative when the cost rates sum to at
    most one. *)
Lemma V3_proceeds_nonneg (p : V3.params) (price : Q) (n : Z) :
  V3.commission p + V3.slippage p <= 1 -> 0 <= price -> (0 <= n)%Z ->
  0 <= inject_Z n * price - V3.calculate_transaction_costs p price n.
Proof.
  intros Hr Hp Hn. rewrite V3_costs_eq.
  pose proof (Qmult_le_0_compat _ _ (inject_Z_nonneg n Hn) Hp) as Hv.
  assert (Hm : 0 <= 1 - (V3.commission p + V3.slippage p)) by lra.
  pose proof (Qmult_le_0_compat _ _ Hv Hm) as Hprod.
  setoid_replace (inject_Z n * price
                  - price * inject_Z n * (V3.commission p + V3.slippage p))
    with (inject_Z n * price * (1 - (V3.commission p + V3.slippage p)))
    by ring.
  exact Hprod.
Qed.

Lemma V3_risk_sound (p : V3.params) (b : V3.bar) (k : V3.book) :
  V3.commission p + V3.slippage p <= 1 -> 0 <= V3.close b -> V3_sound k ->
  match V3.risk p b k with
  | V3.Skip k' => V3_sound k' /\ V3.position k' = 0%Z
  | V3.Go k' => V3_sound k'
  end.
Proof.
  intros Hr Hp [Hc Hn]. unfold V3.risk.
  destruct (0 <? V3.position k)%Z eqn:El; [|split; assumption].
  apply Z.ltb_lt in El.
  destruct (V3.should_stop_loss _ _ _ _ _).
  - split; [|reflexivity]. split; simpl; [|lia].
    pose proof (V3_proceeds_nonneg p (V3.close b) (V3.position k) Hr Hp Hn).
    lra.
  - destruct (Qleb _ _); [|split; assumption].
    set (n := V3.shares_to_sell p _ k).
    pose proof (V3_shares_to_sell_lt p
                  ((V3.close b - V3.avg_cost k) / V3.avg_cost k) k El) as Hlt.
    fold n in Hlt.
    destruct (0 <? n)%Z eqn:En; [|split; assumption].
    apply Z.ltb_lt in En. split; simpl; [|lia].
    pose proof (V3_proceeds_nonneg p (V3.close b) n Hr Hp). 
    assert (0 <= n)%Z by lia. intuition lra.
Qed.

Lemma V3_trade_sound (p : V3.params) (data : list V3.bar) (b : V3.bar)
    (buy sell : bool) (k k' : V3.book) :
  V3.commission p + V3.slippage p <= 1 -> 0 <= V3.close b -> V3_sound k ->
  V3.trade p data b buy sell k = Some k' -> V3_sound k'.
Proof.
  intros Hr Hp [Hc Hn]. unfold V3.trade.
  destruct (buy && (V3.position k =? 0)%Z).
  - destruct (V3.calculate_position_size _ _ _ _ _) as [n|]; [|discriminate].
    destruct (0 <? n)%Z eqn:En; [|intros H; injection H as <-; split; assumption].
    destruct (Qleb _ _) eqn:El; [|intros H; injection H as <-; split; assumption].
    intros H. injection H as <-. apply Qleb_true in El.
    split; simpl; [lra|]. apply Z.ltb_lt in En. lia.
  - destruct (sell && (0 <? V3.position k)%Z);
      intros H; injection H as <-; [|split; assumption].
    split; simpl; [|lia].
    pose proof (V3_proceeds_nonneg p (V3.close b) (V3.position k) Hr Hp Hn).
    lra.
Qed.

(** ** C9: the bars each variant processes *)



(** ** C2: one ledger row per processed bar *)

(** Variants 1 and 2 append one row on every bar they process. *)
Lemma V1_ledger_complete (data : list V1.bar) (c : Q) :
  (forall b, In b data -> 0 < V1.open b) ->
  exists h, V1.backtest data c = Some h /\ length h = length (V1.bars data).
Proof.
  intros Hpos.
  destruct (V1_run_total data (V1.bars data) (V1.init c) Hpos
              (V1_bars_in_range data)) as (st & E).
  destruct (V1_run_rows _ _ _ _ E) as (rows & Hh & Hr).
  exists (V1.history st). unfold V1.backtest, V1.backtest_from. rewrite E.
  split; [reflexivity|]. rewrite Hh. simpl.
  apply (Forall2_length Hr).
Qed.

Lemma V2_ledger_complete (data : list V2.bar) (c : Q) :
  (forall b, In b data -> 0 < V2.close b) ->
  exists h, V2.backtest data c = Some h /\ length h = length (V2.bars data).
Proof.
  intros Hpos.
  destruct (V2_run_total data (V2.bars data) (V2.init c) Hpos
              (V2_bars_in_range data)) as (st & E).
  destruct (V2_run_rows _ _ _ _ E) as (rows & Hh & Hr).
  exists (V2.history st). unfold V2.backtest, V2.backtest_from. rewrite E.
  split; [reflexivity|]. rewrite Hh. simpl.
  apply (Forall2_length Hr).
Qed.

(** In variant 3 a bar on which a stop trips leaves the ledger as it was:
    the [continue] of line 195 skips the [append] of line 230. *)
Lemma V3_stop_skips_row (p : V3.params) (data : list V3.bar) (st st' : V3.state)
    (i : nat) (b : V3.bar) (k : V3.book) :
  iloc data i = Some b -> V3.risk p b (V3.bk st) = V3.Skip k ->
  V3.step p data st i = Some st' ->
  V3.bk st' = k /\ V3.history st' = V3.history st.
Proof.
  intros Hb Hr. unfold V3.step. rewrite Hb, Hr.
  destruct (iloc (V3.buy_signal p data) i); [|discriminate].
  destruct (iloc (V3.sell_signal p data) i); [|discriminate].
  intros H. injection H as <-. split; reflexivity.
Qed.

(** C2, at the failing input.  On [v3_stop] variant 3 processes the bars 50
    and 51; it enters on bar 50, the fixed stop trips on bar 51 and the whole
    position is sold, and the ledger returned holds the row of bar 50 only:
    bar 51 was processed and has no row. *)
Theorem v3_stop_bar_has_no_ledger_row :
  V3.bars V3.default_params v3_stop = [50; 51]%nat /\
  exists st50 st51 r,
    run (V3.step V3.default_params v3_stop) (V3.init 100000) [50%nat]
      = Some st50 /\
    V3.position (V3.bk st50) = 746%Z /\
    V3.history st50 = [r] /\ V3.l_date r = 50%nat /\
    V3.step V3.default_params v3_stop st50 51 = Some st51 /\
    V3.position (V3.bk st51) = 0%Z /\
    V3.cash (V3.bk st51) == 92469.13 /\
    V3.history st51 = [r] /\
    V3.backtest V3.default_params v3_stop 100000 = Some [r].
Proof.
  split; [reflexivity|].
  eexists. eexists. eexists.
  split; [vm_compute; reflexivity|].
  split; [reflexivity|].
  split; [reflexivity|].
  split; [reflexivity|].
  split; [vm_compute; reflexivity|].
  split; [reflexivity|].
  split; [vm_compute; reflexivity|].
  split; [reflexivity|].
  vm_compute; reflexivity.
Qed.

(** ** C3: a stop and an entry on the same bar *)

(** In variant 3 a tripped stop ends the iteration flat: no entry follows on
    that bar. *)
Lemma V3_stop_ends_bar_flat (p : V3.params) (data : list V3.bar)
    (st st' : V3.state) (i : nat) (b : V3.bar) (k : V3.book) :
  iloc data i = Some b -> V3.risk p b (V3.bk st) = V3.Skip k ->
  V3.step p data st i = Some st' ->
  V3.position (V3.bk st') = 0%Z.
Proof.
  intros Hb Hr Hs.
  destruct (V3_stop_skips_row p data st st' i b k Hb Hr Hs) as [-> _].
  unfold V3.risk in Hr.
  destruct (0 <? V3.position (V3.bk st))%Z; [|discriminate].
  destruct (V3.should_stop_loss _ _ _ _ _).
  - injection Hr as <-. reflexivity.
  - destruct (Qleb _ _); [destruct (0 <? _)%Z|]; discriminate.
Qed.

(** C3, at the failing input.  On [v2_stop_and_buy] variant 2 holds 513
    shares after bar 20.  On bar 21 the stop trips and the 513 shares are
    sold; the buy signal of the same bar then opens a new position of 540
    shares, so bar 21 both closes and opens a position. *)
Theorem v2_stop_then_entry_on_same_bar :
  exists st20 b21 k1 k2 r20 r21,
    run (V2.step v2_stop_and_buy) (V2.init 100000) [20%nat] = Some st20 /\
    V2.position (V2.bk st20) = 513%Z /\
    iloc v2_stop_and_buy 21 = Some b21 /\
    V2.buy_signal b21 = true /\
    V2.risk v2_stop_and_buy 21 (V2.close b21) (V2.bk st20) = Some k1 /\
    k1 = V2.liquidate (V2.close b21) (V2.bk st20) /\
    V2.position k1 = 0%Z /\
    V2.trade b21
      (V2.cash (V2.bk st20)
       + inject_Z (V2.position (V2.bk st20)) * V2.close b21) k1 = Some k2 /\
    V2.position k2 = 540%Z /\
    V2.backtest v2_stop_and_buy 100000 = Some [r20; r21] /\
    V2.l_position r20 = 513%Z /\ V2.l_position r21 = 540%Z.
Proof.
  do 6 eexists.
  split; [vm_compute; reflexivity|].
  split; [reflexivity|].
  split; [reflexivity|].
  split; [reflexivity|].
  split; [vm_compute; reflexivity|].
  split; [vm_compute; reflexivity|].
  split; [reflexivity|].
  split; [vm_compute; reflexivity|].
  split; [reflexivity|].
  split; [vm_compute; reflexivity|].
  split; reflexivity.
Qed.

(** ** C1: the fixed stop-loss *)



Lemma iloc_lt {A : Type} (frame : list A) (i : nat) (x : A) :
  iloc frame i = Some x -> (i < length frame)%nat.
Proof. intros H. apply nth_error_Some. unfold iloc in H. congruence. Qed.



(** ** C5: replaying an all-Hold signal sequence *)

(** [run_total] with a count of the iterations done *)
Lemma run_total_count {S : Type} (body : S -> nat -> option S)
    (P : nat -> S -> Prop) (R : nat -> Prop) :
  (forall n st i, R i -> P n st ->
                  exists st', body st i = Some st' /\ P (Datatypes.S n) st') ->
  forall idx n st,
    Forall R idx -> P n st ->
    exists st', run body st idx = Some st' /\ P (n + length idx)%nat st'.
Proof.
  intros Hstep idx; induction idx as [|i idx IH]; intros n st HR HP; simpl.
  - exists st. rewrite Nat.add_0_r. auto.
  - inversion HR as [|? ? Hi Hrest]; subst.
    destruct (Hstep n st i Hi HP) as (st1 & E & HP1). rewrite E.
    destruct (IH (Datatypes.S n) st1 Hrest HP1) as (st' & E' & HP').
    exists st'. split; [exact E'|].
    replace (n + Datatypes.S (length idx))%nat
      with (Datatypes.S n + length idx)%nat by lia.
    exact HP'.
Qed.

Lemma Forall_snoc {A : Type} (P : A -> Prop) (l : list A) (x : A) :
  Forall P l -> P x -> Forall P (l ++ [x]).
Proof. intros Hl Hx. apply Forall_app. split; [exact Hl | constructor; auto]. Qed.

Lemma V1_hold_step (data : list V1.bar) (c0 : Q) (n : nat) (st : V1.state)
    (i : nat) :
  (forall b, In b data -> V1.buy_signal b = false /\ V1.sell_signal b = false) ->
  (i + 1 < length data)%nat -> V1_untouched c0 n st ->
  exists st', V1.step data st i = Some st' /\ V1_untouched c0 (S n) st'.
Proof.
  intros Hhold Hi (Hc & Hp & Hn & Hrows). unfold V1.step.
  destruct (iloc_Some data i) as (b & -> & Hin); [lia|].
  destruct (iloc_Some data (i + 1)) as (nb & -> & _); [lia|].
  destruct (Hhold b Hin) as [Hb Hs].
  rewrite (V1_trade_hold b _ _ _ Hb Hs).
  eexists. split; [reflexivity|]. unfold V1_untouched. simpl.
  rewrite Hc, Hp, length_app. simpl.
  repeat split; try lia.
  apply Forall_snoc; [exact Hrows|]. simpl.
  repeat split. ring.
Qed.

Lemma V2_hold_step (data : list V2.bar) (c0 : Q) (n : nat) (st : V2.state)
    (i : nat) :
  (forall b, In b data -> V2.buy_signal b = false /\ V2.sell_signal b = false) ->
  (i < length data)%nat -> V2_untouched c0 n st ->
  exists st', V2.step data st i = Some st' /\ V2_untouched c0 (S n) st'.
Proof.
  intros Hhold Hi (Hc & Hp & Hn & Hrows). unfold V2.step.
  destruct (iloc_Some data i) as (b & -> & Hin); [lia|].
  destruct (Hhold b Hin) as [Hb Hs].
  rewrite (V2_risk_flat data i (V2.close b) (V2.bk st) Hp).
  rewrite (V2_trade_hold b _ _ Hb Hs).
  eexists. split; [reflexivity|]. unfold V2_untouched. simpl.
  rewrite Hc, Hp, length_app. simpl.
  repeat split; try lia.
  apply Forall_snoc; [exact Hrows|]. simpl.
  rewrite Hc, Hp. repeat split. ring.
Qed.

Lemma V3_risk_flat (p : V3.params) (b : V3.bar) (k : V3.book) :
  V3.position k = 0%Z -> V3.risk p b k = V3.Go k.
Proof. intros H. unfold V3.risk. rewrite H. reflexivity. Qed.

Lemma V3_hold_step (p : V3.params) (data : list V3.bar) (c0 : Q) (n : nat)
    (st : V3.state) (i : nat) :
  Forall (fun s => s = false) (V3.buy_signal p data) ->
  Forall (fun s => s = false) (V3.sell_signal p data) ->
  (i < length data)%nat -> V3_untouched c0 n st ->
  exists st', V3.step p data st i = Some st' /\ V3_untouched c0 (S n) st'.
Proof.
  intros Hbuy Hsell Hi (Hc & Hp & Hn & Hrows). unfold V3.step.
  destruct (iloc_Some data i) as (b & -> & Hin); [lia|].
  destruct (iloc_Some (V3.buy_signal p data) i) as (buy & -> & Hinb);
    [rewrite V3_buy_signal_length; lia|].
  destruct (iloc_Some (V3.sell_signal p data) i) as (sell & -> & Hins);
    [rewrite V3_sell_signal_length; lia|].
  rewrite Forall_forall in Hbuy, Hsell.
  rewrite (Hbuy _ Hinb), (Hsell _ Hins).
  rewrite (V3_risk_flat p b (V3.bk st) Hp). simpl.
  eexists. split; [reflexivity|]. unfold V3_untouched. simpl.
  rewrite Hc, Hp, length_app. simpl.
  repeat split; try lia.
  apply Forall_snoc; [exact Hrows|]. simpl.
  rewrite Hc, Hp. repeat split. ring.
Qed.

(** C5.  When no bar carries a buy or a sell signal, each variant's loop runs
    without error over any price series and, after every processed bar (after
    the first [k] bars, for every [k]), cash is the initial cash, the position
    is 0, one row per processed bar has been emitted, and every emitted row
    shows cash = initial cash, position 0 and portfolio_value equal to
    initial cash. *)
Theorem all_hold_round_trip :
  (forall (data : list V1.bar) (c0 : Q) (k : nat),
      (forall b, In b data ->
                 V1.buy_signal b = false /\ V1.sell_signal b = false) ->
      exists st,
        run (V1.step data) (V1.init c0) (firstn k (V1.bars data)) = Some st /\
        V1_untouched c0 (length (firstn k (V1.bars data))) st)
  /\
  (forall (data : list V2.bar) (c0 : Q) (k : nat),
      (forall b, In b data ->
                 V2.buy_signal b = false /\ V2.sell_signal b = false) ->
      exists st,
        run (V2.step data) (V2.init c0) (firstn k (V2.bars data)) = Some st /\
        V2_untouched c0 (length (firstn k (V2.bars data))) st)
  /\
  (forall (p : V3.params) (data : list V3.bar) (c0 : Q) (k : nat),
      Forall (fun s => s = false) (V3.buy_signal p data) ->
      Forall (fun s => s = false) (V3.sell_signal p data) ->
      exists st,
        run (V3.step p data) (V3.init c0) (firstn k (V3.bars p data)) = Some st /\
        V3_untouched c0 (length (firstn k (V3.bars p data))) st).
Proof.
  split; [|split].
  - intros data c0 k Hhold.
    apply (run_total_count (V1.step data) (V1_untouched c0)
             (fun i => (i + 1 < length data)%nat)) with (n := 0%nat).
    + intros n st i Hi HP. apply V1_hold_step; assumption.
    + apply Forall_firstn, V1_bars_in_range.
    + repeat split. constructor.
  - intros data c0 k Hhold.
    apply (run_total_count (V2.step data) (V2_untouched c0)
             (fun i => (0 < i < length data)%nat)) with (n := 0%nat).
    + intros n st i Hi HP. apply V2_hold_step; [assumption|lia|assumption].
    + apply Forall_firstn, V2_bars_in_range.
    + repeat split. constructor.
  - intros p data c0 k Hbuy Hsell.
    apply (run_total_count (V3.step p data) (V3_untouched c0)
             (fun i => (i < length data)%nat)) with (n := 0%nat).
    + intros n st i Hi HP. apply V3_hold_step; assumption.
    + apply Forall_firstn, V3_bars_in_range.
    + repeat split. constructor.
Qed.

Lemma all_hold_round_trip_witness :
  (exists st,
      run (V1.step (map (v1_bar false false 100 101) (seq 0 12)))
          (V1.init 100000)
          (firstn 2 (V1.bars (map (v1_bar false false 100 101) (seq 0 12))))
      = Some st /\
      V1_untouched 100000 2 st)
  /\
  (exists st,
      run (V2.step (map (v2_bar false false 100) (seq 0 23)))
          (V2.init 100000)
          (firstn 2 (V2.bars (map (v2_bar false false 100) (seq 0 23))))
      = Some st /\
      V2_untouched 100000 2 st)
  /\
  (exists st,
      run (V3.step V3.default_params (map (v3_bar 100 (Some 80) 0 0) (seq 0 53)))
          (V3.init 100000)
          (firstn 2 (V3.bars V3.default_params
                       (map (v3_bar 100 (Some 80) 0 0) (seq 0 53))))
      = Some st /\
      V3_untouched 100000 2 st).
Proof.
  destruct all_hold_round_trip as (H1 & H2 & H3).
  split; [|split].
  - apply (H1 (map (v1_bar false false 100 101) (seq 0 12)) 100000 2%nat).
    intros b Hin. apply in_map_iff in Hin. destruct Hin as (d & <- & _).
    split; reflexivity.
  - apply (H2 (map (v2_bar false false 100) (seq 0 23)) 100000 2%nat).
    intros b Hin. apply in_map_iff in Hin. destruct Hin as (d & <- & _).
    split; reflexivity.
  - apply (H3 V3.default_params (map (v3_bar 100 (Some 80) 0 0) (seq 0 53))
             100000 2%nat).
    + vm_compute. repeat constructor.
    + vm_compute. repeat constructor.
Defined.

(** ** C4: cash and position never negative *)

Lemma V1_step_sound (data : list V1.bar) (st : V1.state) (i : nat) :
  (forall b, In b data -> 0 < V1.open b) ->
  (i + 1 < length data)%nat -> V1_state_sound st ->
  exists st', V1.step data st i = Some st' /\ V1_state_sound st'.
Proof.
  intros Hpos Hi [[Hc Hp] Hrows].
  destruct (V1_run_total data [i] st Hpos) as (st' & E).
  { constructor; [exact Hi | constructor]. }
  simpl in E. destruct (V1.step data st i) as [st1|] eqn:Es; [|discriminate].
  injection E as ->. exists st'. split; [reflexivity|].
  destruct (V1_step_inv _ _ _ _ Es) as (b & nb & Hb & Hnb & Ht & Hh).
  assert (Hs : 0 <= V1.cash st' /\ (0 <= V1.position st')%Z).
  { apply (V1_trade_nonneg b (V1.open nb) (V1.cash st) (V1.cash st')
             (V1.position st) (V1.position st')); auto.
    apply Hpos. eapply iloc_In; eauto. }
  split; [exact Hs|]. rewrite Hh. apply Forall_snoc; [exact Hrows|].
  exact Hs.
Qed.

Lemma V2_step_sound (data : list V2.bar) (st : V2.state) (i : nat) :
  (forall b, In b data -> 0 < V2.close b) ->
  (0 < i < length data)%nat -> V2_state_sound st ->
  exists st', V2.step data st i = Some st' /\ V2_state_sound st'.
Proof.
  intros Hpos Hi [Hk Hrows].
  destruct (V2_run_total data [i] st Hpos) as (st' & E).
  { constructor; [exact Hi | constructor]. }
  simpl in E. destruct (V2.step data st i) as [st1|] eqn:Es; [|discriminate].
  injection E as ->. exists st'. split; [reflexivity|].
  destruct (V2_step_inv _ _ _ _ Es) as (b & k1 & Hb & Hr & Ht & Hh).
  assert (Hcl : 0 <= V2.close b).
  { apply Qlt_le_weak, Hpos. eapply iloc_In; eauto. }
  assert (Hs : V2_sound (V2.bk st')).
  { eapply V2_trade_sound; [exact Hcl| |exact Ht].
    eapply V2_risk_sound; [exact Hcl|exact Hk|exact Hr]. }
  split; [exact Hs|]. rewrite Hh. apply Forall_snoc; [exact Hrows|].
  exact Hs.
Qed.

Lemma V3_step_sound (p : V3.params) (data : list V3.bar) (st : V3.state)
    (i : nat) :
  V3.commission p + V3.slippage p <= 1 ->
  (forall b, In b data -> 0 < V3.close b) ->
  (i < length data)%nat -> V3_state_sound st ->
  exists st', V3.step p data st i = Some st' /\ V3_state_sound st'.
Proof.
  intros Hrate Hpos Hi [Hk Hrows].
  destruct (V3_run_total p data [i] st Hpos) as (st' & E).
  { constructor; [exact Hi | constructor]. }
  simpl in E. destruct (V3.step p data st i) as [st1|] eqn:Es; [|discriminate].
  injection E as ->. exists st'. split; [reflexivity|].
  destruct (V3_step_inv _ _ _ _ _ Es)
    as (b & buy & sell & Hb & _ & _ & Hcase).
  assert (Hcl : 0 <= V3.close b).
  { apply Qlt_le_weak, Hpos. eapply iloc_In; eauto. }
  pose proof (V3_risk_sound p b (V3.bk st) Hrate Hcl Hk) as Hrisk.
  destruct Hcase as [[Hr Hh] | (k1 & Hr & Ht & Hh)]; rewrite Hr in Hrisk.
  - split; [apply Hrisk|]. rewrite Hh. exact Hrows.
  - assert (Hs : V3_sound (V3.bk st')).
    { eapply V3_trade_sound; eauto. }
    split; [exact Hs|]. rewrite Hh. apply Forall_snoc; [exact Hrows|].
    exact Hs.
Qed.

Lemma V3_trade_no_op (p : V3.params) (data : list V3.bar) (b : V3.bar)
    (sell : bool) (k : V3.book) (n : Z) :
  V3.position k = 0%Z ->
  V3.calculate_position_size p data (V3.cash k) (V3.close b) (V3.volatility b)
  = Some n ->
  (n <= 0)%Z \/
  V3.cash k < inject_Z n * V3.close b
              + V3.calculate_transaction_costs p (V3.close b) n ->
  V3.trade p data b true sell k = Some k.
Proof.
  intros Hflat Hn Hor. unfold V3.trade. rewrite Hflat. simpl.
  rewrite Hn. destruct (0 <? n)%Z eqn:En; [|reflexivity].
  apply Z.ltb_lt in En. destruct Hor as [H|H]; [lia|].
  apply Qleb_false in H. rewrite H. reflexivity.
Qed.

(** A buy of zero shares in variant 1 leaves the position at 0 and the cash
    at its amount. *)
Lemma V1_trade_zero_shares (b : V1.bar) (next_open c : Q) :
  V1.buy_signal b = true ->
  floordiv_int ((c + inject_Z 0 * V1.close b) * 0.97) next_open = Some 0%Z ->
  exists c', V1.trade b next_open c 0 = Some (c', 0%Z) /\ c' == c.
Proof.
  intros Hb Hn. unfold V1.trade. rewrite Hb. simpl. rewrite Hn.
  eexists. split; [reflexivity|]. ring.
Qed.

(** C4.  With a non-negative initial cash and positive prices (and, for
    variant 3, cost rates that sum to at most one), each variant's loop runs
    to its end and after every processed bar (after the first [k] bars, for
    every [k]) the cash is not negative and the position is a non-negative
    integer; so are the cash and the position of every ledger row.  A buy
    whose share count is zero (all variants) or whose cost exceeds the cash
    (variants 2 and 3) leaves cash and position as they were. *)
Theorem cash_and_position_never_negative :
  (forall (data : list V1.bar) (c0 : Q) (k : nat),
      0 <= c0 -> (forall b, In b data -> 0 < V1.open b) ->
      exists st,
        run (V1.step data) (V1.init c0) (firstn k (V1.bars data)) = Some st /\
        V1_state_sound st)
  /\
  (forall (data : list V2.bar) (c0 : Q) (k : nat),
      0 <= c0 -> (forall b, In b data -> 0 < V2.close b) ->
      exists st,
        run (V2.step data) (V2.init c0) (firstn k (V2.bars data)) = Some st /\
        V2_state_sound st)
  /\
  (forall (p : V3.params) (data : list V3.bar) (c0 : Q) (k : nat),
      0 <= c0 -> V3.commission p + V3.slippage p <= 1 ->
      (forall b, In b data -> 0 < V3.close b) ->
      exists st,
        run (V3.step p data) (V3.init c0) (firstn k (V3.bars p data)) = Some st /\
        V3_state_sound st)
  /\
  (forall (b : V1.bar) (next_open c : Q),
      V1.buy_signal b = true ->
      floordiv_int ((c + inject_Z 0 * V1.close b) * 0.97) next_open = Some 0%Z ->
      exists c', V1.trade b next_open c 0 = Some (c', 0%Z) /\ c' == c)
  /\
  (forall (b : V2.bar) (total_value : Q) (k : V2.book) (n : Z),
      V2.buy_signal b = true -> V2.position k = 0%Z ->
      floordiv_int
        (total_value
         * V2.calculate_position_size (V2.cash k) (V2.close b) (V2.volatility b))
        (V2.close b) = Some n ->
      (n <= 0)%Z \/
      V2.cash k < inject_Z n * V2.close b
                  + V2.calculate_transaction_costs (V2.close b) n ->
      V2.trade b total_value k = Some k)
  /\
  (forall (p : V3.params) (data : list V3.bar) (b : V3.bar) (sell : bool)
          (k : V3.book) (n : Z),
      V3.position k = 0%Z ->
      V3.calculate_position_size p data (V3.cash k) (V3.close b)
        (V3.volatility b) = Some n ->
      (n <= 0)%Z \/
      V3.cash k < inject_Z n * V3.close b
                  + V3.calculate_transaction_costs p (V3.close b) n ->
      V3.trade p data b true sell k = Some k).
Proof.
  split; [|split; [|split; [|split; [|split]]]].
  - intros data c0 k Hc Hpos.
    apply (run_total (V1.step data) V1_state_sound
             (fun i => (i + 1 < length data)%nat)).
    + intros st i Hi HP. apply V1_step_sound; assumption.
    + apply Forall_firstn, V1_bars_in_range.
    + split; [split; [exact Hc | simpl; lia] | constructor].
  - intros data c0 k Hc Hpos.
    apply (run_total (V2.step data) V2_state_sound
             (fun i => (0 < i < length data)%nat)).
    + intros st i Hi HP. apply V2_step_sound; assumption.
    + apply Forall_firstn, V2_bars_in_range.
    + split; [split; [exact Hc | simpl; lia] | constructor].
  - intros p data c0 k Hc Hrate Hpos.
    apply (run_total (V3.step p data) V3_state_sound
             (fun i => (i < length data)%nat)).
    + intros st i Hi HP. apply V3_step_sound; assumption.
    + apply Forall_firstn, V3_bars_in_range.
    + split; [split; [exact Hc | simpl; lia] | constructor].
  - exact V1_trade_zero_shares.
  - exact V2_trade_no_op.
  - exact V3_trade_no_op.
Qed.

Lemma cash_and_position_never_negative_witness :
  (exists st,
      run (V1.step v1_sample) (V1.init 100000) (firstn 2 (V1.bars v1_sample))
      = Some st /\ V1_state_sound st)
  /\
  (exists st,
      run (V2.step v2_stop_and_buy) (V2.init 100000)
          (firstn 2 (V2.bars v2_stop_and_buy))
      = Some st /\ V2_state_sound st)
  /\
  (exists st,
      run (V3.step V3.default_params v3_stop) (V3.init 100000)
          (firstn 2 (V3.bars V3.default_params v3_stop))
      = Some st /\ V3_state_sound st)
  /\
  (exists c', V1.trade (v1_bar true false 100 100 7) 101 100 0
              = Some (c', 0%Z) /\ c' == 100)
  /\
  V2.trade (v2_bar true false 100 20) 150 v2_poor = Some v2_poor
  /\
  V2.trade (v2_bar true false 100 20) 100000 v2_poor = Some v2_poor
  /\
  V3.trade V3.default_params v3_stop (v3_bar 100 (Some 50) 1 1 50) true false
    v3_poor = Some v3_poor.
Proof.
  destruct cash_and_position_never_negative
    as (H1 & H2 & H3 & H4 & H5 & H6).
  split; [|split; [|split; [|split; [|split; [|split]]]]].
  - apply (H1 v1_sample 100000 2%nat); [discriminate|].
    apply Forall_forall. repeat constructor.
  - apply (H2 v2_stop_and_buy 100000 2%nat); [discriminate|].
    apply Forall_forall. repeat constructor.
  - apply (H3 V3.default_params v3_stop 100000 2%nat);
      [discriminate | discriminate |].
    apply Forall_forall. repeat constructor.
  - apply (H4 (v1_bar true false 100 100 7) 101 100); reflexivity.
  - apply (H5 (v2_bar true false 100 20) 150 v2_poor 0%Z);
      [reflexivity | reflexivity | reflexivity | left; lia].
  - apply (H5 (v2_bar true false 100 20) 100000 v2_poor 513%Z);
      [reflexivity | reflexivity | reflexivity | right; reflexivity].
  - apply (H6 V3.default_params v3_stop (v3_bar 100 (Some 50) 1 1 50) false
             v3_poor 0%Z);
      [reflexivity | reflexivity | left; lia].
Defined.

(** ** C6: the buy score of variant 3 *)

Lemma zip_with_iloc {A B C : Type} (f : A -> B -> C) :
  forall l m i a b,
    iloc l i = Some a -> iloc m i = Some b ->
    iloc (zip_with f l m) i = Some (f a b).
Proof.
  induction l as [|x l IH]; intros [|y m] [|i] a b Ha Hb;
    simpl in *; try discriminate.
  - congruence.
  - apply IH; assumption.
Qed.




Lemma nan_lt_Some_r (c : option Q) (x : Q) :
  nan_lt c (Some x) = true <-> exists v, c = Some v /\ v < x.
Proof.
  destruct c as [v|]; simpl.
  - rewrite Qltb_true. split.
    + intros H. exists v. auto.
    + intros (v' & E & H). injection E as <-. exact H.
  - split; [discriminate|]. intros (v & E & _). discriminate.
Qed.



(** ** C7: the partial take-profit of variant 3 *)


(** After a partial exit the position is still positive, so the signal
    handling cannot enter; it may only sell. *)
Lemma V3_trade_long (p : V3.params) (data : list V3.bar) (b : V3.bar)
    (buy sell : bool) (k k2 : V3.book) :
  (0 < V3.position k)%Z ->
  V3.trade p data b buy sell k = Some k2 ->
  V3.avg_cost k2 = V3.avg_cost k /\ (sell = false -> k2 = k).
Proof.
  intros Hpos. unfold V3.trade.
  assert (E : (V3.position k =? 0)%Z = false) by (apply Z.eqb_neq; lia).
  rewrite E, andb_false_r.
  destruct sell; simpl.
  - apply Z.ltb_lt in Hpos. rewrite Hpos. intros H. injection H as <-.
    split; [reflexivity | discriminate].
  - intros H. injection H as <-. split; reflexivity.
Qed.



(** ** C8: the divisors of the RSI *)

Lemma diff_from_length (series : list Q) :
  forall prev, length (diff_from prev series) = length series.
Proof.
  induction series as [|x rest IH]; intros prev; simpl; [reflexivity|].
  rewrite IH. reflexivity.
Qed.

Lemma diff_length (series : list Q) : length (diff series) = length series.
Proof.
  destruct series as [|x rest]; simpl; [reflexivity|].
  rewrite diff_from_length. reflexivity.
Qed.

Lemma rolling_mean_length (window : nat) (col : list Q) :
  length (rolling_mean window col) = length col.
Proof. unfold rolling_mean. rewrite length_map, length_seq. reflexivity. Qed.

Lemma rolling_mean_iloc (window : nat) (col : list Q) (i : nat) :
  (i < length col)%nat ->
  iloc (rolling_mean window col) i = Some (rolling_mean_at window col i).
Proof.
  intros Hi. unfold rolling_mean, iloc.
  rewrite nth_error_map.
  assert (E : nth_error (seq 0 (length col)) i = Some i).
  { rewrite nth_error_nth' with (d := 0%nat) by (rewrite length_seq; exact Hi).
    rewrite seq_nth by exact Hi. reflexivity. }
  rewrite E. reflexivity.
Qed.

Lemma Qsum_nonneg (l : list Q) : Forall (fun x => 0 <= x) l -> 0 <= Qsum l.
Proof.
  induction 1 as [|x l Hx Hl IH]; cbn [Qsum fold_right]; [lra|].
  change (fold_right Qplus 0 l) with (Qsum l). lra.
Qed.

Lemma Forall_skipn {A : Type} (P : A -> Prop) (k : nat) :
  forall l, Forall P l -> Forall P (skipn k l).
Proof.
  induction k as [|k IH]; intros l H; simpl; [exact H|].
  destruct H; [constructor | auto].
Qed.

(** A rolling mean is undefined while it warms up and a number afterwards;
    on a non-negative column it is not negative. *)
Lemma rolling_mean_at_warm (window : nat) (col : list Q) (i : nat) :
  (0 < window <= i + 1)%nat -> Forall (fun x => 0 <= x) col ->
  exists m, rolling_mean_at window col i = Some m /\ 0 <= m.
Proof.
  intros Hw Hcol. unfold rolling_mean_at.
  destruct window as [|w]; [lia|].
  assert (E : (S w <=? i + 1)%nat = true) by (apply Nat.leb_le; lia).
  rewrite E. eexists. split; [reflexivity|].
  apply Qle_shift_div_l.
  - apply inject_Z_pos. lia.
  - rewrite Qmult_0_l. apply Qsum_nonneg, Forall_firstn, Forall_skipn, Hcol.
Qed.

Lemma rolling_mean_at_cold (window : nat) (col : list Q) (i : nat) :
  (window = 0 \/ i + 1 < window)%nat -> rolling_mean_at window col i = None.
Proof.
  intros Hw. unfold rolling_mean_at.
  destruct window as [|w]; [reflexivity|].
  assert (E : (S w <=? i + 1)%nat = false) by (apply Nat.leb_gt; lia).
  rewrite E. reflexivity.
Qed.

Lemma gain_cells_nonneg (l : list (option Q)) :
  Forall (fun x => 0 <= x) (map RSI.gain_cell l).
Proof.
  apply Forall_forall. intros x Hin. apply in_map_iff in Hin.
  destruct Hin as ([v|] & <- & _); simpl; [|lra].
  destruct (Qlt_le_dec 0 v); lra.
Qed.

Lemma loss_cells_nonneg (l : list (option Q)) :
  Forall (fun x => 0 <= x) (map RSI.loss_cell l).
Proof.
  apply Forall_forall. intros x Hin. apply in_map_iff in Hin.
  destruct Hin as ([v|] & <- & _); unfold RSI.loss_cell; [|lra].
  destruct (Qlt_le_dec v 0); lra.
Qed.

(** C8.  [calculate_rsi] returns one cell per input value.  While the window
    warms up the cell is NaN.  From the bar at which [period] values are
    available, the average gain [g] and the average loss [l] are numbers that
    are not negative; the divisor is 1e-10 when [l] is zero and [l]
    otherwise, hence positive; the relative strength is [g] divided by that
    divisor; [1 + RS] is positive; and the cell is [100 - 100 / (1 + RS)].
    No division of the computation has a zero divisor. *)
Theorem rsi_divisors_positive :
  forall (series : list Q) (period i : nat),
    length (RSI.calculate_rsi series period) = length series /\
    ((i < length series)%nat ->
     (i + 1 < period)%nat ->
     iloc (RSI.calculate_rsi series period) i = Some None) /\
    ((i < length series)%nat ->
     (0 < period <= i + 1)%nat ->
     exists g l d,
       iloc (RSI.gain series period) i = Some (Some g) /\
       iloc (RSI.loss series period) i = Some (Some l) /\
       iloc (RSI.divisor series period) i = Some (Some d) /\
       0 <= g /\ 0 <= l /\
       (l == 0 -> d = RSI.epsilon) /\
       (~ l == 0 -> d = l) /\
       0 < d /\
       iloc (RSI.rs series period) i = Some (Some (g / d)) /\
       0 < 1 + g / d /\
       iloc (RSI.calculate_rsi series period) i
       = Some (Some (100 - 100 / (1 + g / d)))).
Proof.
  intros series period i.
  assert (Hlen_g : length (RSI.gain series period) = length series).
  { unfold RSI.gain. rewrite rolling_mean_length, length_map, diff_length.
    reflexivity. }
  assert (Hlen_l : length (RSI.loss series period) = length series).
  { unfold RSI.loss. rewrite rolling_mean_length, length_map, diff_length.
    reflexivity. }
  assert (Hlen_d : length (RSI.divisor series period) = length series).
  { unfold RSI.divisor. rewrite length_map. exact Hlen_l. }
  assert (Hg : (i < length series)%nat ->
               iloc (RSI.gain series period) i
               = Some (rolling_mean_at period
                         (map RSI.gain_cell (diff series)) i)).
  { intros Hi. unfold RSI.gain. apply rolling_mean_iloc.
    rewrite length_map, diff_length. exact Hi. }
  assert (Hl : (i < length series)%nat ->
               iloc (RSI.loss series period) i
               = Some (rolling_mean_at period
                         (map RSI.loss_cell (diff series)) i)).
  { intros Hi. unfold RSI.loss. apply rolling_mean_iloc.
    rewrite length_map, diff_length. exact Hi. }
  assert (Hd : forall c, iloc (RSI.loss series period) i = Some c ->
               iloc (RSI.divisor series period) i = Some (RSI.replace_zero c)).
  { intros c Hc. unfold RSI.divisor, iloc. rewrite nth_error_map.
    unfold iloc in Hc. rewrite Hc. reflexivity. }
  assert (Hrsi : forall c, iloc (RSI.rs series period) i = Some c ->
               iloc (RSI.calculate_rsi series period) i
               = Some (option_map (fun r => 100 - 100 / (1 + r)) c)).
  { intros c Hc. unfold RSI.calculate_rsi, iloc. rewrite nth_error_map.
    unfold iloc in Hc. rewrite Hc. reflexivity. }
  split; [|split].
  - unfold RSI.calculate_rsi, RSI.rs.
    rewrite length_map, zip_with_length; congruence.
  - intros Hi Hlt.
    assert (Hcold : (period = 0 \/ i + 1 < period)%nat) by (right; exact Hlt).
    apply (Hrsi None). unfold RSI.rs.
    rewrite (zip_with_iloc RSI.div_cell _ _ i None (RSI.replace_zero None)).
    + reflexivity.
    + rewrite (Hg Hi), rolling_mean_at_cold by exact Hcold. reflexivity.
    + apply Hd. rewrite (Hl Hi), rolling_mean_at_cold by exact Hcold.
      reflexivity.
  - intros Hi Hwarm.
    destruct (rolling_mean_at_warm period (map RSI.gain_cell (diff series)) i
                Hwarm (gain_cells_nonneg _)) as (g & Eg & Hg0).
    destruct (rolling_mean_at_warm period (map RSI.loss_cell (diff series)) i
                Hwarm (loss_cells_nonneg _)) as (l & El & Hl0).
    set (d := if Qeq_bool l 0 then RSI.epsilon else l).
    assert (Hgi : iloc (RSI.gain series period) i = Some (Some g))
      by (rewrite (Hg Hi), Eg; reflexivity).
    assert (Hli : iloc (RSI.loss series period) i = Some (Some l))
      by (rewrite (Hl Hi), El; reflexivity).
    assert (Hdi : iloc (RSI.divisor series period) i = Some (Some d))
      by (rewrite (Hd _ Hli); reflexivity).
    assert (Hdpos : 0 < d).
    { unfold d. destruct (Qeq_bool l 0) eqn:E.
      - reflexivity.
      - apply Qeq_bool_neq in E. lra. }
    assert (Hrs : iloc (RSI.rs series period) i = Some (Some (g / d))).
    { unfold RSI.rs.
      rewrite (zip_with_iloc RSI.div_cell _ _ i (Some g) (Some d) Hgi Hdi).
      reflexivity. }
    assert (Hq : 0 <= g / d).
    { apply Qle_shift_div_l; [exact Hdpos | lra]. }
    exists g, l, d.
    split; [exact Hgi|]. split; [exact Hli|]. split; [exact Hdi|].
    split; [exact Hg0|]. split; [exact Hl0|].
    split.
    { intros Hz. unfold d. apply Qeq_bool_iff in Hz. rewrite Hz. reflexivity. }
    split.
    { intros Hnz. unfold d. destruct (Qeq_bool l 0) eqn:E; [|reflexivity].
      apply Qeq_bool_iff in E. contradiction. }
    split; [exact Hdpos|]. split; [exact Hrs|]. split; [lra|].
    rewrite (Hrsi _ Hrs). reflexivity.
Qed.

Lemma rsi_divisors_positive_witness :
  iloc (RSI.calculate_rsi rising 14) 3 = Some None /\
  exists g l d,
    iloc (RSI.gain rising 14) 14 = Some (Some g) /\
    iloc (RSI.loss rising 14) 14 = Some (Some l) /\
    iloc (RSI.divisor rising 14) 14 = Some (Some d) /\
    (l == 0 -> d = RSI.epsilon) /\
    0 < d /\
    iloc (RSI.calculate_rsi rising 14) 14
    = Some (Some (100 - 100 / (1 + g / d))).
Proof.
  split.
  - apply (proj1 (proj2 (rsi_divisors_positive rising 14 3))).
    + vm_compute. lia.
    + lia.
  - destruct (proj2 (proj2 (rsi_divisors_positive rising 14 14)))
      as (g & l & d & H1 & H2 & H3 & _ & _ & H4 & _ & H5 & _ & _ & H6).
    + vm_compute. lia.
    + lia.
    + exists g, l, d. repeat split; assumption.
Defined.

(** ** C10: the sizing of variant 3 reads the last bar *)

Lemma update_at_length {A : Type} (f : A -> A) :
  forall i l, length (update_at f i l) = length l.
Proof.
  induction i as [|i IH]; intros [|x l]; simpl; auto.
Qed.

Lemma update_at_other {A : Type} (f : A -> A) :
  forall i l j, i <> j -> nth_error (update_at f i l) j = nth_error l j.
Proof.
  induction i as [|i IH]; intros [|x l] [|j] H; simpl; auto; try congruence.
Qed.

Lemma update_at_last {A : Type} (f : A -> A) (i : nat) (l : list A) :
  (i + 1 < length l)%nat -> iloc_last (update_at f i l) = iloc_last l.
Proof.
  intros H. unfold iloc_last.
  destruct l as [|x l]; [simpl in H; lia|].
  destruct (update_at f i (x :: l)) as [|y m] eqn:E.
  - apply (f_equal (@length A)) in E. rewrite update_at_length in E.
    discriminate.
  - rewrite <- E, update_at_length. apply update_at_other. lia.
Qed.

Lemma V3_size_of_last (p : V3.params) (data1 data2 : list V3.bar)
    (l1 l2 : V3.bar) (cash price : Q) (vol : option Q) :
  iloc_last data1 = Some l1 -> iloc_last data2 = Some l2 ->
  V3.rsi l1 = V3.rsi l2 -> V3.ma_trend l1 = V3.ma_trend l2 ->
  V3.ma_long_trend l1 = V3.ma_long_trend l2 ->
  V3.calculate_position_size p data1 cash price vol
  = V3.calculate_position_size p data2 cash price vol.
Proof.
  intros E1 E2 Hr Ht Hl. unfold V3.calculate_position_size.
  rewrite E1, E2. unfold V3.trend_adj. rewrite Hr, Ht, Hl. reflexivity.
Qed.

(** C10.  The share count of [calculate_position_size] is a function of the
    cash, the price, the volatility and the RSI and trend columns of the last
    row of the frame.  Two frames whose last rows agree on these columns give
    the same count; in particular, overwriting the RSI and trend columns of a
    bar that is not the last changes no share count.  Changing the RSI of the
    last bar changes it: on [v3_stop] every bar before the last is sized at
    746 shares, and at 597 shares once the last RSI is 40 instead of 50, and
    the entry that [backtest] makes on bar 50 changes in the same way. *)
Theorem position_size_reads_last_bar :
  (forall (p : V3.params) (data1 data2 : list V3.bar) (l1 l2 : V3.bar)
          (cash price : Q) (vol : option Q),
      iloc_last data1 = Some l1 -> iloc_last data2 = Some l2 ->
      V3.rsi l1 = V3.rsi l2 -> V3.ma_trend l1 = V3.ma_trend l2 ->
      V3.ma_long_trend l1 = V3.ma_long_trend l2 ->
      V3.calculate_position_size p data1 cash price vol
      = V3.calculate_position_size p data2 cash price vol)
  /\
  (forall (p : V3.params) (data : list V3.bar) (i : nat)
          (r : option Q) (trend long_trend : Z)
          (cash price : Q) (vol : option Q),
      (i + 1 < length data)%nat ->
      V3.calculate_position_size p
        (update_at (with_indicators r trend long_trend) i data) cash price vol
      = V3.calculate_position_size p data cash price vol)
  /\
  (forall i b,
      (i < 51)%nat -> iloc v3_stop i = Some b ->
      iloc v3_stop_cool i = Some b /\
      V3.calculate_position_size V3.default_params v3_stop 100000
        (V3.close b) (V3.volatility b) = Some 746%Z /\
      V3.calculate_position_size V3.default_params v3_stop_cool 100000
        (V3.close b) (V3.volatility b) = Some 597%Z)
  /\
  (exists r r',
      V3.backtest V3.default_params v3_stop 100000 = Some [r] /\
      V3.backtest V3.default_params v3_stop_cool 100000 = Some [r'] /\
      V3.l_date r = 50%nat /\ V3.l_date r' = 50%nat /\
      V3.l_position r = 746%Z /\ V3.l_position r' = 597%Z).
Proof.
  split; [exact V3_size_of_last|]. split; [|split].
  - intros p data i r trend long_trend cash price vol Hi.
    unfold V3.calculate_position_size.
    rewrite update_at_last by exact Hi. reflexivity.
  - intros i b Hi Hb.
    assert (Hin : In b (firstn 51 v3_stop)).
    { apply nth_error_In with (n := i). rewrite nth_error_firstn.
      assert (E : (i <? 51)%nat = true) by (apply Nat.ltb_lt; exact Hi).
      rewrite E. exact Hb. }
    split.
    + unfold v3_stop_cool, iloc. rewrite update_at_other by lia. exact Hb.
    + assert (Hall : Forall (fun x => V3.close x = 100 /\
                                      V3.volatility x = Some 0.01)
                            (firstn 51 v3_stop)) by repeat constructor.
      rewrite Forall_forall in Hall. destruct (Hall b Hin) as [-> ->].
      split; vm_compute; reflexivity.
  - do 2 eexists.
    split; [vm_compute; reflexivity|].
    split; [vm_compute; reflexivity|].
    repeat split.
Qed.

Lemma position_size_reads_last_bar_witness :
  V3.calculate_position_size V3.default_params v3_stop 100000 100 (Some 0.01)
  = V3.calculate_position_size V3.default_params
      (v3_stop ++ [v3_bar 95 (Some 50) 1 1 52]) 100000 100 (Some 0.01)
  /\
  V3.calculate_position_size V3.default_params
    (update_at (with_indicators (Some 20) 0 0) 50 v3_stop) 100000 100
    (Some 0.01)
  = V3.calculate_position_size V3.default_params v3_stop 100000 100
      (Some 0.01)
  /\
  (iloc v3_stop_cool 50 = Some (v3_bar 100 (Some 50) 1 1 50) /\
   V3.calculate_position_size V3.default_params v3_stop 100000 100 (Some 0.01)
   = Some 746%Z /\
   V3.calculate_position_size V3.default_params v3_stop_cool 100000 100
     (Some 0.01) = Some 597%Z).
Proof.
  destruct position_size_reads_last_bar as (H1 & H2 & H3 & _).
  split; [|split].
  - apply (H1 V3.default_params v3_stop
             (v3_stop ++ [v3_bar 95 (Some 50) 1 1 52])
             (v3_bar 90 (Some 50) 1 1 51) (v3_bar 95 (Some 50) 1 1 52));
      reflexivity.
  - apply (H2 V3.default_params v3_stop 50%nat). vm_compute. lia.
  - apply (H3 50%nat (v3_bar 100 (Some 50) 1 1 50)); [lia | reflexivity].
Defined.

(** ** Variant 3 never opens on a bar it entered with a position *)

Lemma V3_risk_long (p : V3.params) (b : V3.bar) (k : V3.book) :
  (0 < V3.position k)%Z ->
  match V3.risk p b k with
  | V3.Skip k' => V3.position k' = 0%Z
  | V3.Go k' => (0 < V3.position k' <= V3.position k)%Z
  end.
Proof.
  intros Hpos. unfold V3.risk.
  pose proof (V3_shares_to_sell_lt p
                ((V3.close b - V3.avg_cost k) / V3.avg_cost k) k Hpos) as Hlt.
  apply Z.ltb_lt in Hpos. rewrite Hpos. apply Z.ltb_lt in Hpos.
  destruct (V3.should_stop_loss _ _ _ _ _); [reflexivity|].
  destruct (Qleb _ _); [|simpl; lia].
  destruct (0 <? _)%Z eqn:E; [|simpl; lia].
  apply Z.ltb_lt in E. simpl. lia.
Qed.

(** A bar entered with a position only sells: the position does not grow
    and the average cost stays. *)
Lemma V3_long_bar_never_opens (p : V3.params) (data : list V3.bar)
    (st st' : V3.state) (i : nat) :
  (0 < V3.position (V3.bk st))%Z ->
  V3.step p data st i = Some st' ->
  (0 <= V3.position (V3.bk st') <= V3.position (V3.bk st))%Z /\
  V3.avg_cost (V3.bk st') = V3.avg_cost (V3.bk st).
Proof.
  intros Hpos Hs.
  destruct (V3_step_inv _ _ _ _ _ Hs)
    as (b & buy & sell & Hb & _ & _ & Hcase).
  pose proof (V3_risk_long p b (V3.bk st) Hpos) as Hr.
  destruct Hcase as [[E Hh] | (k1 & E & Ht & Hh)]; rewrite E in Hr.
  - split; [lia|].
    unfold V3.risk in E. apply Z.ltb_lt in Hpos. rewrite Hpos in E.
    destruct (V3.should_stop_loss _ _ _ _ _).
    + injection E as E. rewrite <- E. reflexivity.
    + destruct (Qleb _ _);
        [destruct (0 <? V3.shares_to_sell _ _ _)%Z|]; discriminate.
  - assert (Ha : V3.avg_cost k1 = V3.avg_cost (V3.bk st)).
    { unfold V3.risk in E. apply Z.ltb_lt in Hpos. rewrite Hpos in E.
      destruct (V3.should_stop_loss _ _ _ _ _); [discriminate|].
      destruct (Qleb _ _); [destruct (0 <? V3.shares_to_sell _ _ _)%Z|];
        injection E as <-; reflexivity. }
    destruct (V3_trade_long p data b buy sell k1 (V3.bk st') (proj1 Hr) Ht)
      as [Hc Hsell].
    split; [|congruence].
    unfold V3.trade in Ht.
    assert (E0 : (V3.position k1 =? 0)%Z = false) by (apply Z.eqb_neq; lia).
    rewrite E0, andb_false_r in Ht.
    destruct (sell && (0 <? V3.position k1)%Z);
      injection Ht as <-; simpl; lia.
Qed.
(** * The code around the claims *)

(** ** Cells of shifted and rolling columns *)

Lemma cell_nth_error (col : list (option Q)) (i : nat) :
  cell col i = match nth_error col i with Some c => c | None => None end.
Proof.
  unfold cell. destruct (nth_error col i) as [c|] eqn:E.
  - apply nth_error_nth. exact E.
  - apply nth_overflow. apply nth_error_None. exact E.
Qed.

Lemma cell_overflow (col : list (option Q)) (i : nat) :
  (length col <= i)%nat -> cell col i = None.
Proof. intros H. apply nth_overflow. exact H. Qed.

Lemma cell_shift_back (k : nat) (col : list (option Q)) (i : nat) :
  cell (shift_back k col) i = cell col (i + k).
Proof.
  unfold cell, shift_back.
  destruct (Nat.lt_ge_cases i (length (skipn k col))) as [H|H].
  - rewrite app_nth1 by exact H. rewrite nth_skipn. f_equal. lia.
  - rewrite app_nth2 by exact H. rewrite nth_repeat.
    rewrite length_skipn in H. symmetry. apply nth_overflow. lia.
Qed.

Lemma cell_map_Some (col : list Q) (i : nat) :
  cell (map Some col) i = nth_error col i.
Proof.
  rewrite cell_nth_error, nth_error_map.
  destruct (nth_error col i); reflexivity.
Qed.

Lemma cell_rolling_mean (window : nat) (col : list Q) (i : nat) :
  cell (rolling_mean window col) i
  = if (i <? length col)%nat then rolling_mean_at window col i else None.
Proof.
  destruct (i <? length col)%nat eqn:E.
  - apply Nat.ltb_lt in E. rewrite cell_nth_error.
    pose proof (rolling_mean_iloc window col i E) as H. unfold iloc in H.
    rewrite H. reflexivity.
  - apply Nat.ltb_ge in E. apply cell_overflow.
    rewrite rolling_mean_length. exact E.
Qed.

Lemma rolling_mean_at_Some (window : nat) (col : list Q) (i : nat) :
  (0 < window <= i + 1)%nat ->
  rolling_mean_at window col i
  = Some (Qsum (firstn window (skipn (i + 1 - window) col))
          / inject_Z (Z.of_nat window)).
Proof.
  intros Hw. unfold rolling_mean_at. destruct window as [|w]; [lia|].
  assert (E : (S w <=? i + 1)%nat = true) by (apply Nat.leb_le; lia).
  rewrite E. reflexivity.
Qed.

(** A rolling mean reads its window only. *)
Lemma rolling_mean_at_local (window : nat) (c1 c2 : list Q) (i : nat) :
  (forall j, (i + 1 - window <= j <= i)%nat -> nth_error c1 j = nth_error c2 j) ->
  rolling_mean_at window c1 i = rolling_mean_at window c2 i.
Proof.
  intros H. unfold rolling_mean_at. destruct window as [|w]; [reflexivity|].
  destruct (S w <=? i + 1)%nat eqn:E; [|reflexivity].
  apply Nat.leb_le in E. do 3 f_equal.
  apply nth_error_ext. intros j.
  rewrite !nth_error_firstn.
  destruct (j <? S w)%nat eqn:Ej; [|reflexivity].
  apply Nat.ltb_lt in Ej. rewrite !nth_error_skipn. apply H. lia.
Qed.

(** ** Variant 1: the trade of a bar *)

(** Variant 1 charges nothing: valued at the next open, at which it trades,
    the account is worth the same before and after every bar. *)
Theorem v1_step_conserves_value_at_next_open :
  forall (data : list V1.bar) (st st' : V1.state) (i : nat) (nb : V1.bar),
    iloc data (i + 1) = Some nb ->
    V1.step data st i = Some st' ->
    V1.cash st' + inject_Z (V1.position st') * V1.open nb
    == V1.cash st + inject_Z (V1.position st) * V1.open nb.
Proof.
  intros data st st' i nb Hnb Hs.
  destruct (V1_step_inv _ _ _ _ Hs) as (b & nb' & _ & Hnb' & Ht & _).
  rewrite Hnb in Hnb'. injection Hnb' as <-.
  revert Ht. unfold V1.trade.
  destruct (V1.buy_signal b && (V1.position st =? 0)%Z) eqn:Eb.
  - destruct (floordiv_int _ _) as [n|]; [|discriminate].
    intros H.
    assert (E1 : V1.cash st' = V1.cash st - inject_Z n * V1.open nb)
      by congruence.
    assert (E2 : V1.position st' = n) by congruence.
    apply andb_prop in Eb as [_ Ep]. apply Z.eqb_eq in Ep.
    rewrite E1, E2, Ep. ring.
  - destruct (V1.sell_signal b && (0 <? V1.position st)%Z); intros H.
    + assert (E1 : V1.cash st'
                   = V1.cash st + inject_Z (V1.position st) * V1.open nb)
        by congruence.
      assert (E2 : V1.position st' = 0%Z) by congruence.
      rewrite E1, E2. ring.
    + assert (E1 : V1.cash st' = V1.cash st) by congruence.
      assert (E2 : V1.position st' = V1.position st) by congruence.
      rewrite E1, E2. reflexivity.
Qed.

Lemma v1_step_conserves_value_at_next_open_witness :
  exists st',
    V1.step v1_sample (V1.init 100000) 7 = Some st' /\
    V1.cash st' + inject_Z (V1.position st') * 101 == 100000 + inject_Z 0 * 101.
Proof.
  eexists. split; [vm_compute; reflexivity|].
  apply (v1_step_conserves_value_at_next_open v1_sample (V1.init 100000) _ 7%nat
           (v1_bar false true 101 102 8)); vm_compute; reflexivity.
Defined.




(** ** Variant 1: [generate_signals] *)

Lemma v1_cell_avg_0 (data : list TQQQStrategy.row) (i : nat) :
  cell (TQQQStrategy.avg_0 data) i
  = option_map TQQQStrategy.avg (nth_error data i).
Proof.
  unfold TQQQStrategy.avg_0. rewrite cell_nth_error, nth_error_map.
  destruct (nth_error data i); reflexivity.
Qed.

Lemma v1_nth_avg (data : list TQQQStrategy.row) (i : nat) :
  nth_error (map TQQQStrategy.avg data) i
  = option_map TQQQStrategy.avg (nth_error data i).
Proof. apply nth_error_map. Qed.

Lemma v1_generate_signals_length (data : list TQQQStrategy.row) :
  length (TQQQStrategy.generate_signals data) = length data.
Proof.
  unfold TQQQStrategy.generate_signals.
  apply zip_with_length. apply length_seq.
Qed.

Lemma iloc_seq (n i : nat) : (i < n)%nat -> iloc (seq 0 n) i = Some i.
Proof.
  intros H. unfold iloc.
  rewrite nth_error_nth' with (d := 0%nat) by (rewrite length_seq; exact H).
  rewrite seq_nth by exact H. reflexivity.
Qed.

Lemma v1_generate_signals_iloc (data : list TQQQStrategy.row) (i : nat)
    (r : TQQQStrategy.row) :
  nth_error data i = Some r ->
  iloc (TQQQStrategy.generate_signals data) i
  = Some {| V1.date := TQQQStrategy.date r; V1.open := TQQQStrategy.open r;
            V1.close := TQQQStrategy.close r;
            V1.buy_signal := TQQQStrategy.buy_signal data i;
            V1.sell_signal := TQQQStrategy.sell_signal data i |}.
Proof.
  intros H. unfold TQQQStrategy.generate_signals.
  erewrite zip_with_iloc; [reflexivity | | exact H].
  apply iloc_seq. apply nth_error_Some. congruence.
Qed.

(** The signals of variant 1 on the bars that [backtest] processes are
    computed from numbers: tomorrow's and the day after's average and the
    moving averages are all defined on the bars 7 .. len-3.  Where a shifted
    column has run off the end of the frame or a moving average is still
    warming up, the comparison with NaN is false: no signal on the last bar,
    no buy on the last two bars, no sell before bar 6 and no buy before bar
    5. *)
Theorem v1_signals_defined_on_processed_bars :
  forall (data : list TQQQStrategy.row) (i : nat),
    length (TQQQStrategy.generate_signals data) = length data /\
    (In i (V1.bars (TQQQStrategy.generate_signals data)) ->
     exists a1 a2 m2 m7 m71 b,
       cell (TQQQStrategy.avg_1 data) i = Some a1 /\
       cell (TQQQStrategy.avg_2 data) i = Some a2 /\
       cell (TQQQStrategy.ma_2 data) i = Some m2 /\
       cell (TQQQStrategy.ma_7 data) i = Some m7 /\
       cell (TQQQStrategy.ma_7_1 data) i = Some m71 /\
       iloc (TQQQStrategy.generate_signals data) i = Some b /\
       V1.buy_signal b
       = Qltb TQQQStrategy.buy_threshold (a1 - m2)
         && Qleb TQQQStrategy.sell_threshold (a2 / m71 - 1) /\
       V1.sell_signal b = Qltb (a1 / m7 - 1) TQQQStrategy.sell_threshold) /\
    ((length data <= i + 1)%nat ->
     TQQQStrategy.buy_signal data i = false /\
     TQQQStrategy.sell_signal data i = false) /\
    ((length data <= i + 2)%nat -> TQQQStrategy.buy_signal data i = false) /\
    ((i < 6)%nat -> TQQQStrategy.sell_signal data i = false) /\
    ((i < 5)%nat -> TQQQStrategy.buy_signal data i = false).
Proof.
  intros data i.
  assert (Ha1 : cell (TQQQStrategy.avg_1 data) i
                = option_map TQQQStrategy.avg (nth_error data (i + 1))).
  { unfold TQQQStrategy.avg_1. rewrite cell_shift_back. apply v1_cell_avg_0. }
  assert (Ha2 : cell (TQQQStrategy.avg_2 data) i
                = option_map TQQQStrategy.avg (nth_error data (i + 2))).
  { unfold TQQQStrategy.avg_2. rewrite cell_shift_back. apply v1_cell_avg_0. }
  assert (Hm71 : cell (TQQQStrategy.ma_7_1 data) i
                 = cell (TQQQStrategy.ma_7 data) (i + 1)).
  { unfold TQQQStrategy.ma_7_1. apply cell_shift_back. }
  assert (Hm : forall w j, cell (rolling_mean w (map TQQQStrategy.avg data)) j
               = if (j <? length data)%nat
                 then rolling_mean_at w (map TQQQStrategy.avg data) j
                 else None).
  { intros w j. rewrite cell_rolling_mean, length_map. reflexivity. }
  split; [apply v1_generate_signals_length|]. split; [|split; [|split; [|split]]].
  - intros Hin. unfold V1.bars in Hin. apply In_py_range in Hin.
    rewrite v1_generate_signals_length in Hin.
    destruct (nth_error data i) as [r|] eqn:Er;
      [|apply nth_error_None in Er; lia].
    destruct (nth_error data (i + 1)) as [r1|] eqn:Er1;
      [|apply nth_error_None in Er1; lia].
    destruct (nth_error data (i + 2)) as [r2|] eqn:Er2;
      [|apply nth_error_None in Er2; lia].
    assert (L0 : (i <? length data)%nat = true) by (apply Nat.ltb_lt; lia).
    assert (L1 : (i + 1 <? length data)%nat = true) by (apply Nat.ltb_lt; lia).
    assert (E2 : cell (TQQQStrategy.ma_2 data) i
                 = Some (Qsum (firstn 2 (skipn (i + 1 - 2)
                                           (map TQQQStrategy.avg data)))
                         / inject_Z (Z.of_nat 2))).
    { unfold TQQQStrategy.ma_2. rewrite Hm, L0.
      apply rolling_mean_at_Some. lia. }
    assert (E7 : cell (TQQQStrategy.ma_7 data) i
                 = Some (Qsum (firstn 7 (skipn (i + 1 - 7)
                                           (map TQQQStrategy.avg data)))
                         / inject_Z (Z.of_nat 7))).
    { unfold TQQQStrategy.ma_7. rewrite Hm, L0.
      apply rolling_mean_at_Some. lia. }
    assert (E71 : cell (TQQQStrategy.ma_7_1 data) i
                  = Some (Qsum (firstn 7 (skipn (i + 1 + 1 - 7)
                                            (map TQQQStrategy.avg data)))
                          / inject_Z (Z.of_nat 7))).
    { rewrite Hm71. unfold TQQQStrategy.ma_7. rewrite Hm, L1.
      apply rolling_mean_at_Some. lia. }
    do 5 eexists. eexists.
    split; [rewrite Ha1; reflexivity|].
    split; [rewrite Ha2; reflexivity|].
    split; [exact E2|]. split; [exact E7|]. split; [exact E71|].
    split; [apply v1_generate_signals_iloc; exact Er|].
    cbn [V1.buy_signal V1.sell_signal].
    unfold TQQQStrategy.buy_signal, TQQQStrategy.sell_signal.
    rewrite Ha1, Ha2, E2, E7, E71. split; reflexivity.
  - intros Hlast.
    assert (E : cell (TQQQStrategy.avg_1 data) i = None).
    { rewrite Ha1.
      assert (N : nth_error data (i + 1) = None)
        by (apply nth_error_None; lia).
      rewrite N. reflexivity. }
    unfold TQQQStrategy.buy_signal, TQQQStrategy.sell_signal.
    rewrite E. split; reflexivity.
  - intros Hlast.
    assert (E : cell (TQQQStrategy.avg_2 data) i = None).
    { rewrite Ha2.
      assert (N : nth_error data (i + 2) = None)
        by (apply nth_error_None; lia).
      rewrite N. reflexivity. }
    unfold TQQQStrategy.buy_signal. rewrite E. simpl.
    apply andb_false_r.
  - intros Hi.
    assert (E : cell (TQQQStrategy.ma_7 data) i = None).
    { unfold TQQQStrategy.ma_7. rewrite Hm.
      destruct (i <? length data)%nat; [|reflexivity].
      apply rolling_mean_at_cold. lia. }
    unfold TQQQStrategy.sell_signal. rewrite E.
    destruct (cell (TQQQStrategy.avg_1 data) i); reflexivity.
  - intros Hi.
    assert (E : cell (TQQQStrategy.ma_7_1 data) i = None).
    { rewrite Hm71. unfold TQQQStrategy.ma_7. rewrite Hm.
      destruct (i + 1 <? length data)%nat; [|reflexivity].
      apply rolling_mean_at_cold. lia. }
    unfold TQQQStrategy.buy_signal. rewrite E.
    destruct (cell (TQQQStrategy.avg_2 data) i); simpl; apply andb_false_r.
Qed.

Lemma v1_signals_defined_on_processed_bars_witness :
  (exists b,
      iloc (TQQQStrategy.generate_signals (v1_rows 101 102)) 7 = Some b /\
      V1.buy_signal b = true /\ V1.sell_signal b = false) /\
  TQQQStrategy.buy_signal (v1_rows 101 102) 10 = false /\
  TQQQStrategy.sell_signal (v1_rows 101 102) 11 = false /\
  TQQQStrategy.sell_signal (v1_rows 101 102) 5 = false /\
  TQQQStrategy.buy_signal (v1_rows 101 102) 4 = false.
Proof.
  split; [|split; [|split; [|split]]].
  - destruct (proj1 (proj2 (v1_signals_defined_on_processed_bars
                              (v1_rows 101 102) 7)))
      as (a1 & a2 & m2 & m7 & m71 & b & H1 & H2 & H3 & H4 & H5 & Hb & Hbuy
          & Hsell).
    + vm_compute. left. reflexivity.
    + exists b. split; [exact Hb|].
      vm_compute in H1, H2, H3, H4, H5.
      injection H1 as <-. injection H2 as <-. injection H3 as <-.
      injection H4 as <-. injection H5 as <-.
      split; [rewrite Hbuy | rewrite Hsell]; reflexivity.
  - apply (proj1 (proj2 (proj2 (proj2 (v1_signals_defined_on_processed_bars
                                         (v1_rows 101 102) 10))))).
    vm_compute. lia.
  - apply (proj1 (proj2 (proj2 (v1_signals_defined_on_processed_bars
                                  (v1_rows 101 102) 11)))).
    vm_compute. lia.
  - apply (proj1 (proj2 (proj2 (proj2 (proj2
             (v1_signals_defined_on_processed_bars (v1_rows 101 102) 5)))))).
    lia.
  - apply (proj2 (proj2 (proj2 (proj2 (proj2
             (v1_signals_defined_on_processed_bars (v1_rows 101 102) 4)))))).
    lia.
Defined.

(** The signals of bar [i] in variant 1 are decided by the average prices of
    the bars i-6 .. i+2: two frames of equal length that agree there give the
    same buy and sell signal on bar [i].  The two future bars do count: on
    [v1_rows] the buy signal of bar 7 changes with the average of bar 9, and
    the sell signal of bar 7 with the average of bar 8. *)
Theorem v1_signal_reads_nine_bar_window :
  (forall (data data' : list TQQQStrategy.row) (i : nat),
      length data = length data' ->
      (forall j, (i - 6 <= j <= i + 2)%nat ->
                 option_map TQQQStrategy.avg (nth_error data j)
                 = option_map TQQQStrategy.avg (nth_error data' j)) ->
      TQQQStrategy.buy_signal data i = TQQQStrategy.buy_signal data' i /\
      TQQQStrategy.sell_signal data i = TQQQStrategy.sell_signal data' i)
  /\
  (TQQQStrategy.buy_signal (v1_rows 101 102) 7 = true /\
   TQQQStrategy.buy_signal (v1_rows 101 90) 7 = false /\
   TQQQStrategy.sell_signal (v1_rows 101 102) 7 = false /\
   TQQQStrategy.sell_signal (v1_rows 99 102) 7 = true).
Proof.
  split; [|repeat split; vm_compute; reflexivity].
  intros data data' i Hlen Hwin.
  assert (Hm : forall w j, cell (rolling_mean w (map TQQQStrategy.avg data)) j
               = if (j <? length data)%nat
                 then rolling_mean_at w (map TQQQStrategy.avg data) j
                 else None).
  { intros w j. rewrite cell_rolling_mean, length_map. reflexivity. }
  assert (Hm' : forall w j,
               cell (rolling_mean w (map TQQQStrategy.avg data')) j
               = if (j <? length data)%nat
                 then rolling_mean_at w (map TQQQStrategy.avg data') j
                 else None).
  { intros w j. rewrite cell_rolling_mean, length_map, Hlen. reflexivity. }
  assert (Ha1 : cell (TQQQStrategy.avg_1 data) i
                = cell (TQQQStrategy.avg_1 data') i).
  { unfold TQQQStrategy.avg_1. rewrite !cell_shift_back, !v1_cell_avg_0.
    apply Hwin. lia. }
  assert (Ha2 : cell (TQQQStrategy.avg_2 data) i
                = cell (TQQQStrategy.avg_2 data') i).
  { unfold TQQQStrategy.avg_2. rewrite !cell_shift_back, !v1_cell_avg_0.
    apply Hwin. lia. }
  assert (E2 : cell (TQQQStrategy.ma_2 data) i
               = cell (TQQQStrategy.ma_2 data') i).
  { unfold TQQQStrategy.ma_2. rewrite Hm, Hm'.
    destruct (i <? length data)%nat; [|reflexivity].
    apply rolling_mean_at_local. intros j Hj. rewrite !v1_nth_avg.
    apply Hwin. lia. }
  assert (E7 : cell (TQQQStrategy.ma_7 data) i
               = cell (TQQQStrategy.ma_7 data') i).
  { unfold TQQQStrategy.ma_7. rewrite Hm, Hm'.
    destruct (i <? length data)%nat; [|reflexivity].
    apply rolling_mean_at_local. intros j Hj. rewrite !v1_nth_avg.
    apply Hwin. lia. }
  assert (E71 : cell (TQQQStrategy.ma_7_1 data) i
                = cell (TQQQStrategy.ma_7_1 data') i).
  { unfold TQQQStrategy.ma_7_1. rewrite !cell_shift_back.
    unfold TQQQStrategy.ma_7. rewrite Hm, Hm'.
    destruct (i + 1 <? length data)%nat; [|reflexivity].
    apply rolling_mean_at_local. intros j Hj. rewrite !v1_nth_avg.
    apply Hwin. lia. }
  unfold TQQQStrategy.buy_signal, TQQQStrategy.sell_signal.
  rewrite Ha1, Ha2, E2, E7, E71. split; reflexivity.
Qed.

Lemma v1_signal_reads_nine_bar_window_witness :
  TQQQStrategy.buy_signal (v1_rows 101 102) 7
  = TQQQStrategy.buy_signal
      (map (v1_row 100) (seq 0 8)
       ++ [v1_row 101 8; v1_row 102 9; v1_row 55 10; v1_row 66 11]) 7
  /\
  TQQQStrategy.sell_signal (v1_rows 101 102) 7
  = TQQQStrategy.sell_signal
      (map (v1_row 100) (seq 0 8)
       ++ [v1_row 101 8; v1_row 102 9; v1_row 55 10; v1_row 66 11]) 7.
Proof.
  apply (proj1 v1_signal_reads_nine_bar_window).
  - reflexivity.
  - intros j Hj.
    do 10 (destruct j as [|j]; [reflexivity|]). lia.
Defined.


(** ** Variant 2: [generate_signals] *)

Lemma nth_map_Some {A : Type} (l : list A) (i : nat) :
  nth i (map Some l) None = nth_error l i.
Proof.
  revert i. induction l as [|x l IH]; intros [|i]; simpl; auto.
Qed.

Lemma shifted_cell_Some (col : list Z) (i : nat) (q : Z) :
  shifted_cell col i = Some q ->
  exists j, i = S j /\ nth_error col j = Some q.
Proof.
  unfold shifted_cell, shift1. destruct col as [|z col].
  - destruct i; discriminate.
  - destruct i as [|j]; [discriminate|]. cbn [nth].
    rewrite nth_map_Some, removelast_firstn_len, nth_error_firstn.
    destruct (j <? _)%nat; [|discriminate]. intros H. exists j. auto.
Qed.

Lemma int_cell_nth_error (col : list Z) (i : nat) (q : Z) :
  nth_error col i = Some q -> int_cell col i = q.
Proof. intros H. apply nth_error_nth. exact H. Qed.

Lemma v2_ma_cross_nth (data : list TQQQStrategyV2.row) (i : nat) (q : Z) :
  nth_error (TQQQStrategyV2.ma_cross data) i = Some q ->
  (i < length data)%nat /\
  q = astype_int (nan_lt (cell (TQQQStrategyV2.ma_7 data) i)
                         (cell (TQQQStrategyV2.ma_2 data) i)).
Proof.
  unfold TQQQStrategyV2.ma_cross. rewrite nth_error_map. intros H.
  destruct (nth_error (seq 0 (length data)) i) as [j|] eqn:E; [|discriminate].
  assert (Hi : (i < length data)%nat).
  { assert (Hs : (i < length (seq 0 (length data)))%nat)
      by (apply nth_error_Some; congruence).
    rewrite length_seq in Hs. exact Hs. }
  pose proof (iloc_seq (length data) i Hi) as E'. unfold iloc in E'.
  rewrite E' in E. injection E as <-. injection H as <-. auto.
Qed.

Lemma v2_ma_cross_cell (data : list TQQQStrategyV2.row) (i : nat) :
  int_cell (TQQQStrategyV2.ma_cross data) i = 0%Z \/
  (int_cell (TQQQStrategyV2.ma_cross data) i = 1%Z /\
   (i < length data)%nat /\
   nan_lt (cell (TQQQStrategyV2.ma_7 data) i)
          (cell (TQQQStrategyV2.ma_2 data) i) = true).
Proof.
  destruct (nth_error (TQQQStrategyV2.ma_cross data) i) as [q|] eqn:E.
  - rewrite (int_cell_nth_error _ _ _ E).
    destruct (v2_ma_cross_nth _ _ _ E) as [Hi ->].
    destruct (nan_lt _ _); simpl; auto.
  - left. apply nth_overflow. apply nth_error_None. exact E.
Qed.

(** A crossed cell needs a defined 7-bar average: no cross before bar 6. *)
Lemma v2_ma_cross_one (data : list TQQQStrategyV2.row) (i : nat) :
  int_cell (TQQQStrategyV2.ma_cross data) i = 1%Z ->
  (6 <= i < length data)%nat /\
  exists m2 m7,
    cell (TQQQStrategyV2.ma_2 data) i = Some m2 /\
    cell (TQQQStrategyV2.ma_7 data) i = Some m7 /\ m7 < m2.
Proof.
  intros H. destruct (v2_ma_cross_cell data i) as [E|(_ & Hi & Hlt)];
    [rewrite E in H; discriminate|].
  destruct (cell (TQQQStrategyV2.ma_7 data) i) as [m7|] eqn:E7;
    [|discriminate].
  destruct (cell (TQQQStrategyV2.ma_2 data) i) as [m2|] eqn:E2;
    [|discriminate].
  simpl in Hlt. apply Qltb_true in Hlt.
  split; [|exists m2, m7; auto].
  split; [|exact Hi].
  destruct (Nat.lt_ge_cases i 6) as [Hc|Hc]; [|exact Hc].
  unfold TQQQStrategyV2.ma_7 in E7. rewrite cell_rolling_mean in E7.
  destruct (i <? _)%nat; [|discriminate].
  rewrite rolling_mean_at_cold in E7 by lia. discriminate.
Qed.

(** In variant 2 the buy and the sell signal exclude each other.  A buy
    signal sits on a bar from index 6 on, where the 2-bar average is above
    the 7-bar average and was not on the bar before, and where the volatility
    is a number below 1.2 times the threshold; a sell signal sits on a bar
    from index 7 on, where the averages were crossed on the bar before and
    are not any more. *)
Theorem v2_buy_and_sell_exclude_each_other :
  forall (data : list TQQQStrategyV2.row) (i : nat),
    (TQQQStrategyV2.buy_signal data i = true ->
     TQQQStrategyV2.sell_signal data i = false) /\
    (TQQQStrategyV2.buy_signal data i = true ->
     (6 <= i < length data)%nat /\
     int_cell (TQQQStrategyV2.ma_cross data) (i - 1) = 0%Z /\
     exists m2 m7 v,
       cell (TQQQStrategyV2.ma_2 data) i = Some m2 /\
       cell (TQQQStrategyV2.ma_7 data) i = Some m7 /\ m7 < m2 /\
       TQQQStrategyV2.volatility_cell data i = Some v /\
       v < V2.vol_threshold * 1.2) /\
    (TQQQStrategyV2.sell_signal data i = true ->
     (7 <= i)%nat /\
     int_cell (TQQQStrategyV2.ma_cross data) (i - 1) = 1%Z /\
     int_cell (TQQQStrategyV2.ma_cross data) i = 0%Z).
Proof.
  intros data i.
  assert (Hbuy : TQQQStrategyV2.buy_signal data i = true ->
    (6 <= i < length data)%nat /\
    int_cell (TQQQStrategyV2.ma_cross data) (i - 1) = 0%Z /\
    int_cell (TQQQStrategyV2.ma_cross data) i = 1%Z /\
    exists m2 m7 v,
      cell (TQQQStrategyV2.ma_2 data) i = Some m2 /\
      cell (TQQQStrategyV2.ma_7 data) i = Some m7 /\ m7 < m2 /\
      TQQQStrategyV2.volatility_cell data i = Some v /\
      v < V2.vol_threshold * 1.2).
  { unfold TQQQStrategyV2.buy_signal. intros H.
    apply andb_prop in H as [H Hvol]. apply andb_prop in H as [Hx _].
    unfold gt_shifted in Hx.
    destruct (shifted_cell _ i) as [q|] eqn:Eq; [|discriminate].
    apply Z.ltb_lt in Hx.
    destruct (shifted_cell_Some _ _ _ Eq) as (j & -> & Ej).
    pose proof (int_cell_nth_error _ _ _ Ej) as Hq.
    assert (Hcur : int_cell (TQQQStrategyV2.ma_cross data) (S j)
                   = 1%Z).
    { destruct (v2_ma_cross_cell data (S j)) as [E|(E & _)]; [|exact E].
      destruct (v2_ma_cross_cell data j) as [E'|(E' & _)]; lia. }
    assert (Hprev : q = 0%Z).
    { destruct (v2_ma_cross_cell data j) as [E'|(E' & _)]; lia. }
    destruct (v2_ma_cross_one data (S j) Hcur)
      as (Hi & m2 & m7 & E2 & E7 & Hlt).
    apply nan_lt_Some_r in Hvol. destruct Hvol as (v & Ev & Hv).
    split; [exact Hi|]. split.
    { replace (S j - 1)%nat with j by lia. lia. }
    split; [exact Hcur|]. exists m2, m7, v. auto. }
  assert (Hsell : TQQQStrategyV2.sell_signal data i = true ->
    (7 <= i)%nat /\
    int_cell (TQQQStrategyV2.ma_cross data) (i - 1) = 1%Z /\
    int_cell (TQQQStrategyV2.ma_cross data) i = 0%Z).
  { unfold TQQQStrategyV2.sell_signal. intros H.
    apply andb_prop in H as [Hx _]. unfold lt_shifted in Hx.
    destruct (shifted_cell _ i) as [q|] eqn:Eq; [|discriminate].
    apply Z.ltb_lt in Hx.
    destruct (shifted_cell_Some _ _ _ Eq) as (j & -> & Ej).
    pose proof (int_cell_nth_error _ _ _ Ej) as Hq.
    assert (Hprev : int_cell (TQQQStrategyV2.ma_cross data) j
                    = 1%Z).
    { destruct (v2_ma_cross_cell data j) as [E'|(E' & _)]; [|exact E'].
      destruct (v2_ma_cross_cell data (S j)) as [E|(E & _)]; lia. }
    assert (Hcur : int_cell (TQQQStrategyV2.ma_cross data) (S j)
                   = 0%Z).
    { destruct (v2_ma_cross_cell data (S j)) as [E|(E & _)]; [exact E|lia]. }
    destruct (v2_ma_cross_one data j Hprev) as (Hj & _).
    replace (S j - 1)%nat with j by lia.
    split; [lia|]. split; assumption. }
  split; [|split].
  - intros Hb. destruct (Hbuy Hb) as (_ & _ & Hcur & _).
    destruct (TQQQStrategyV2.sell_signal data i) eqn:Es; [|reflexivity].
    destruct (Hsell eq_refl) as (_ & _ & Hcur'). lia.
  - intros Hb. destruct (Hbuy Hb) as (H1 & H2 & _ & H3). auto.
  - exact Hsell.
Qed.

Lemma v2_buy_and_sell_exclude_each_other_witness :
  TQQQStrategyV2.buy_signal v2_rows 21 = true /\
  TQQQStrategyV2.sell_signal v2_rows 21 = false /\
  (6 <= 21 < length v2_rows)%nat.
Proof.
  assert (Hb : TQQQStrategyV2.buy_signal v2_rows 21 = true)
    by (vm_compute; reflexivity).
  destruct (v2_buy_and_sell_exclude_each_other v2_rows 21) as (H1 & H2 & _).
  split; [exact Hb|]. split; [exact (H1 Hb)|]. exact (proj1 (H2 Hb)).
Defined.

(** ** Variant 2: sizing and accounting of the loop *)

Lemma py_max_nan_bounds (v : option Q) (c : Q) :
  0 < c -> vol_ok v ->
  0.3 <= py_max_nan 0.3 (option_map (fun x => 1 - x / c) v) <= 1.
Proof.
  intros Hc Hv. destruct v as [x|]; simpl; [|split; lra].
  simpl in Hv. unfold py_max.
  assert (Hq : 0 <= x / c) by (apply Qle_shift_div_l; lra).
  destruct (Qlt_le_dec 0.3 (1 - x / c)); split; lra.
Qed.

Lemma V2_size_bounds (cash price : Q) (v : option Q) :
  vol_ok v ->
  0.21 <= V2.calculate_position_size cash price v <= 0.7.
Proof.
  intros Hv. unfold V2.calculate_position_size, V2.max_position.
  pose proof (py_max_nan_bounds v (V2.vol_threshold * 1.5)) as H.
  destruct H as [H1 H2]; [reflexivity | exact Hv |].
  split; lra.
Qed.

(** What the stop-loss block leaves when it leaves no position: the cash
    covers 99.95% of the value that line 85 computed. *)
Lemma V2_risk_flat_cash (data : list V2.bar) (i : nat) (price : Q)
    (k k1 : V2.book) :
  0 <= price -> V2_sound k ->
  V2.risk data i price k = Some k1 -> V2.position k1 = 0%Z ->
  0 <= V2_value price k /\ V2_value price k * 0.9995 <= V2.cash k1.
Proof.
  intros Hp [Hc Hn] Hr Hflat. unfold V2_value.
  pose proof (Qmult_le_0_compat _ _ (inject_Z_nonneg _ Hn) Hp) as Hv.
  split; [lra|].
  unfold V2.risk in Hr. destruct (0 <? V2.position k)%Z eqn:El.
  - destruct (iloc_prev data i); [|discriminate].
    destruct (V2.stop_triggered _ _ _); injection Hr as <-.
    + rewrite V2_liquidate_cash. lra.
    + simpl in Hflat. apply Z.ltb_lt in El. lia.
  - injection Hr as <-. rewrite Hflat. change (inject_Z 0) with 0. lra.
Qed.

(** The allocation of variant 2 lies between 21% and 70% of the account,
    whatever the volatility.  A buy therefore always fits the cash: from a
    state with non-negative cash, on a bar with a positive close, the test
    [total_cost <= cash] of line 114 never fails, also when the position was
    stopped out on the same bar; a buy signal on a flat book goes through
    whenever the share count is positive. *)
Theorem v2_buy_always_fits_the_cash :
  (forall (cash price : Q) (v : option Q),
      vol_ok v ->
      0.21 <= V2.calculate_position_size cash price v <= 0.7)
  /\
  (forall (data : list V2.bar) (i : nat) (b : V2.bar) (k k1 : V2.book),
      0 < V2.close b -> vol_ok (V2.volatility b) -> V2_sound k ->
      V2.buy_signal b = true ->
      V2.risk data i (V2.close b) k = Some k1 -> V2.position k1 = 0%Z ->
      exists n,
        floordiv_int
          (V2_value (V2.close b) k
           * V2.calculate_position_size (V2.cash k1) (V2.close b)
               (V2.volatility b))
          (V2.close b) = Some n /\
        (0 <= n)%Z /\
        inject_Z n * V2.close b
        + V2.calculate_transaction_costs (V2.close b) n <= V2.cash k1 /\
        V2.trade b (V2_value (V2.close b) k) k1
        = Some (if (0 <? n)%Z
                then {| V2.cash :=
                          V2.cash k1
                          - (inject_Z n * V2.close b
                             + V2.calculate_transaction_costs (V2.close b) n);
                        V2.position := n;
                        V2.highest_price := V2.close b |}
                else k1)).
Proof.
  split; [exact V2_size_bounds|].
  intros data i b k k1 Hp Hv Hk Hb Hr Hflat.
  destruct (V2_risk_flat_cash data i (V2.close b) k k1) as [Hv0 Hcash];
    try assumption; [lra|].
  set (tv := V2_value (V2.close b) k) in *.
  set (size := V2.calculate_position_size (V2.cash k1) (V2.close b)
                 (V2.volatility b)).
  pose proof (V2_size_bounds (V2.cash k1) (V2.close b) (V2.volatility b) Hv)
    as [Hs1 Hs2]. fold size in Hs1, Hs2.
  exists (Qfloor (tv * size / V2.close b)).
  set (n := Qfloor (tv * size / V2.close b)).
  assert (Hx : 0 <= tv * size) by (apply Qmult_le_0_compat; lra).
  assert (Hn : (0 <= n)%Z).
  { apply Qfloor_nonneg. apply Qle_shift_div_l; lra. }
  pose proof (floordiv_mul_le (tv * size) (V2.close b) Hp) as Hle.
  fold n in Hle.
  assert (Hts : tv * size <= tv * 0.7).
  { rewrite (Qmult_comm tv size), (Qmult_comm tv 0.7).
    apply Qmult_le_compat_r; lra. }
  assert (Hcost : inject_Z n * V2.close b
                  + V2.calculate_transaction_costs (V2.close b) n
                  <= V2.cash k1).
  { rewrite V2_costs_eq. lra. }
  split; [apply floordiv_int_total; exact Hp|]. split; [exact Hn|].
  split; [exact Hcost|].
  unfold V2.trade. rewrite Hb, Hflat. simpl.
  fold size. rewrite floordiv_int_total by exact Hp. fold n.
  destruct (0 <? n)%Z; [|reflexivity].
  apply Qleb_true in Hcost. rewrite Hcost. reflexivity.
Qed.

Lemma v2_buy_always_fits_the_cash_witness :
  exists n,
    floordiv_int
      (V2_value 90 (V2.bk v2_long)
       * V2.calculate_position_size
           (V2.cash (V2.liquidate 90 (V2.bk v2_long))) 90 (Some 0.01)) 90
    = Some n /\
    (0 <= n)%Z /\
    inject_Z n * 90 + V2.calculate_transaction_costs 90 n
    <= V2.cash (V2.liquidate 90 (V2.bk v2_long)).
Proof.
  destruct (proj2 v2_buy_always_fits_the_cash v2_stop_and_buy 21%nat
              (v2_bar true false 90 21) (V2.bk v2_long)
              (V2.liquidate 90 (V2.bk v2_long)))
    as (n & H1 & H2 & H3 & _).
  - reflexivity.
  - discriminate.
  - split; [discriminate | simpl; lia].
  - reflexivity.
  - vm_compute. reflexivity.
  - reflexivity.
  - exists n. split; [exact H1|]. split; [exact H2|]. exact H3.
Defined.

Lemma V2_value_liquidate (price : Q) (k : V2.book) :
  V2_value price (V2.liquidate price k)
  == V2_value price k - 0.0005 * price * inject_Z (V2.position k).
Proof.
  unfold V2_value. rewrite V2_liquidate_cash. simpl.
  change (inject_Z 0) with 0. ring.
Qed.

(** The stop-loss block sells [s] shares, all or none. *)
Lemma V2_risk_value (data : list V2.bar) (i : nat) (price : Q)
    (k k1 : V2.book) :
  (0 <= V2.position k)%Z ->
  V2.risk data i price k = Some k1 ->
  exists s : Z,
    (0 <= s <= V2.position k)%Z /\
    V2.position k1 = (V2.position k - s)%Z /\
    V2_value price k1 == V2_value price k - 0.0005 * price * inject_Z s.
Proof.
  intros Hn. unfold V2.risk.
  destruct (0 <? V2.position k)%Z eqn:El.
  - destruct (iloc_prev data i); [|discriminate].
    destruct (V2.stop_triggered _ _ _); intros H; injection H as <-.
    + exists (V2.position k). split; [lia|]. split; [simpl; lia|].
      apply V2_value_liquidate.
    + exists 0%Z. split; [lia|]. split; [simpl; lia|].
      unfold V2_value. simpl. change (inject_Z 0) with 0. ring.
  - intros H. injection H as <-. exists 0%Z. split; [lia|].
    split; [lia|]. change (inject_Z 0) with 0. ring.
Qed.

(** The signal handling buys [position k2] shares on a flat book, or sells
    all or none of a position. *)
Lemma V2_trade_value (b : V2.bar) (tv : Q) (k1 k2 : V2.book) :
  (0 <= V2.position k1)%Z ->
  V2.trade b tv k1 = Some k2 ->
  exists t : Z,
    (0 <= t)%Z /\ (0 <= V2.position k2)%Z /\
    (V2.position k1 = 0%Z -> t = V2.position k2) /\
    ((0 < V2.position k1)%Z -> t = (V2.position k1 - V2.position k2)%Z) /\
    V2_value (V2.close b) k2
    == V2_value (V2.close b) k1 - 0.0005 * V2.close b * inject_Z t.
Proof.
  intros Hn. unfold V2.trade.
  assert (Hnone : exists t : Z,
            (0 <= t)%Z /\ (0 <= V2.position k1)%Z /\
            (V2.position k1 = 0%Z -> t = V2.position k1) /\
            ((0 < V2.position k1)%Z -> t = (V2.position k1 - V2.position k1)%Z) /\
            V2_value (V2.close b) k1
            == V2_value (V2.close b) k1 - 0.0005 * V2.close b * inject_Z t).
  { exists 0%Z. repeat split; try lia. change (inject_Z 0) with 0. ring. }
  destruct (V2.buy_signal b && (V2.position k1 =? 0)%Z) eqn:Eb.
  - apply andb_prop in Eb as [_ Ef]. apply Z.eqb_eq in Ef.
    destruct (floordiv_int _ _) as [n|]; [|discriminate].
    destruct (0 <? n)%Z eqn:En;
      [|intros H; injection H as <-; exact Hnone].
    destruct (Qleb _ _); [|intros H; injection H as <-; exact Hnone].
    intros H. injection H as <-. apply Z.ltb_lt in En.
    exists n. split; [lia|]. split; [simpl; lia|].
    split; [reflexivity|]. split; [lia|].
    unfold V2_value. simpl. rewrite V2_costs_eq, Ef.
    change (inject_Z 0) with 0. ring.
  - destruct (V2.sell_signal b && (0 <? V2.position k1)%Z) eqn:Es;
      [|intros H; injection H as <-; exact Hnone].
    apply andb_prop in Es as [_ El]. apply Z.ltb_lt in El.
    intros H. injection H as <-.
    exists (V2.position k1). split; [lia|]. split; [simpl; lia|].
    split; [lia|]. split; [simpl; lia|].
    apply V2_value_liquidate.
Qed.

(** Trading is the only thing that moves the value of the account within a
    bar of variant 2, and it only costs: valued at the close, the account is
    worth after the bar what it was worth before, less 0.05% of the value of
    the shares sold and bought; it never gains, and it loses at most 0.05% of
    the position held before plus the position held after. *)
Theorem v2_bar_only_loses_transaction_costs :
  forall (data : list V2.bar) (st st' : V2.state) (i : nat) (b : V2.bar),
    iloc data i = Some b ->
    V2.step data st i = Some st' ->
    0 <= V2.close b -> (0 <= V2.position (V2.bk st))%Z ->
    exists traded : Z,
      (0 <= traded <= V2.position (V2.bk st) + V2.position (V2.bk st'))%Z /\
      V2_value (V2.close b) (V2.bk st')
      == V2_value (V2.close b) (V2.bk st)
         - 0.0005 * V2.close b * inject_Z traded /\
      V2_value (V2.close b) (V2.bk st') <= V2_value (V2.close b) (V2.bk st).
Proof.
  intros data st st' i b Hb Hs Hp Hn.
  destruct (V2_step_inv _ _ _ _ Hs) as (b' & k1 & Hb' & Hr & Ht & _).
  rewrite Hb in Hb'. injection Hb' as <-.
  destruct (V2_risk_value _ _ _ _ _ Hn Hr) as (s & Hs1 & Hs2 & Hs3).
  assert (Hn1 : (0 <= V2.position k1)%Z) by lia.
  destruct (V2_trade_value _ _ _ _ Hn1 Ht) as (t & Ht1 & Ht2 & Ht3 & Ht4 & Ht5).
  exists (s + t)%Z.
  assert (Hb1 : (s + t <= V2.position (V2.bk st) + V2.position (V2.bk st'))%Z).
  { destruct (Z.eq_dec (V2.position k1) 0) as [E|E].
    - rewrite (Ht3 E). lia.
    - rewrite Ht4 by lia. lia. }
  assert (Heq : V2_value (V2.close b) (V2.bk st')
                == V2_value (V2.close b) (V2.bk st)
                   - 0.0005 * V2.close b * inject_Z (s + t)).
  { rewrite Ht5, Hs3, inject_Z_plus. ring. }
  split; [lia|]. split; [exact Heq|].
  rewrite Heq.
  assert (Hq : 0 <= inject_Z (s + t)) by (apply inject_Z_nonneg; lia).
  pose proof (Qmult_le_0_compat _ _ Hp Hq) as Hprod. lra.
Qed.

Lemma v2_bar_only_loses_transaction_costs_witness :
  exists st' traded,
    V2.step v2_stop_and_buy v2_long 21 = Some st' /\
    (0 <= traded <= 513 + V2.position (V2.bk st'))%Z /\
    V2_value 90 (V2.bk st') <= V2_value 90 (V2.bk v2_long).
Proof.
  destruct (V2.step v2_stop_and_buy v2_long 21) as [st'|] eqn:E;
    [|vm_compute in E; discriminate].
  destruct (v2_bar_only_loses_transaction_costs v2_stop_and_buy v2_long st'
              21%nat (v2_bar true false 90 21))
    as (traded & H1 & _ & H3).
  - reflexivity.
  - exact E.
  - discriminate.
  - simpl. lia.
  - exists st', traded. split; [reflexivity|]. split; [exact H1 | exact H3].
Defined.

(** ** Variant 2: the highest price *)

(** After every bar of variant 2: a flat book has [highest_price] 0 if it
    had before, and a book with a position has a [highest_price] that is at
    least the close of the bar. *)
Lemma V2_step_highest (data : list V2.bar) (st st' : V2.state) (i : nat)
    (b : V2.bar) :
  iloc data i = Some b ->
  V2.step data st i = Some st' ->
  ((V2.position (V2.bk st) = 0%Z -> V2.highest_price (V2.bk st) == 0) ->
   V2.position (V2.bk st') = 0%Z -> V2.highest_price (V2.bk st') == 0) /\
  ((0 < V2.position (V2.bk st'))%Z ->
   V2.close b <= V2.highest_price (V2.bk st')).
Proof.
  intros Hb Hs.
  destruct (V2_step_inv _ _ _ _ Hs) as (b' & k1 & Hb' & Hr & Ht & _).
  rewrite Hb in Hb'. injection Hb' as <-.
  assert (H1 : ((V2.position (V2.bk st) = 0%Z ->
                 V2.highest_price (V2.bk st) == 0) ->
                V2.position k1 = 0%Z -> V2.highest_price k1 == 0) /\
               ((0 < V2.position k1)%Z -> V2.close b <= V2.highest_price k1)).
  { unfold V2.risk in Hr. destruct (0 <? V2.position (V2.bk st))%Z eqn:El.
    - destruct (iloc_prev data i); [|discriminate].
      destruct (V2.stop_triggered _ _ _); injection Hr as <-; simpl.
      + split; [reflexivity | lia].
      + apply Z.ltb_lt in El. split; [lia|]. intros _.
        unfold py_max. destruct (Qlt_le_dec _ _); lra.
    - injection Hr as <-. apply Z.ltb_ge in El. split; [auto | lia]. }
  destruct H1 as [Hflat Hlong].
  unfold V2.trade in Ht.
  destruct (V2.buy_signal b && (V2.position k1 =? 0)%Z) eqn:Eb.
  - destruct (floordiv_int _ _) as [n|]; [|discriminate].
    destruct (0 <? n)%Z eqn:En; [|injection Ht as <-; auto].
    destruct (Qleb _ _); [|injection Ht as <-; auto].
    injection Ht as <-. simpl. apply Z.ltb_lt in En.
    split; [lia | lra].
  - destruct (V2.sell_signal b && (0 <? V2.position k1)%Z);
      injection Ht as <-; [|auto].
    simpl. split; [reflexivity | lia].
Qed.

(** The highest price of variant 2.  It is reset on every exit: after every
    processed bar a flat account has [highest_price] 0, whatever happened
    before.  And a bar that ends with a position ends with a [highest_price]
    that is at least its close, so that the trailing stop level is never
    measured from below the last close. *)
Theorem v2_highest_price_tracking :
  (forall (data : list V2.bar) (c0 : Q) (k : nat) (st : V2.state),
      run (V2.step data) (V2.init c0) (firstn k (V2.bars data)) = Some st ->
      V2.position (V2.bk st) = 0%Z -> V2.highest_price (V2.bk st) == 0)
  /\
  (forall (data : list V2.bar) (st st' : V2.state) (i : nat) (b : V2.bar),
      iloc data i = Some b ->
      V2.step data st i = Some st' ->
      (0 < V2.position (V2.bk st'))%Z ->
      V2.close b <= V2.highest_price (V2.bk st')).
Proof.
  split.
  - intros data c0 k st Hrun.
    apply (run_invariant (V2.step data)
             (fun s => V2.position (V2.bk s) = 0%Z ->
                       V2.highest_price (V2.bk s) == 0)
             (fun _ => True)) with (idx := firstn k (V2.bars data))
                                   (st := V2.init c0).
    + intros s i s' _ HP Hs.
      destruct (V2_step_inv _ _ _ _ Hs) as (b & _ & Hb & _).
      apply (proj1 (V2_step_highest data s s' i b Hb Hs) HP).
    + apply Forall_forall. auto.
    + intros _. reflexivity.
    + exact Hrun.
  - intros data st st' i b Hb Hs.
    apply (proj2 (V2_step_highest data st st' i b Hb Hs)).
Qed.

Lemma v2_highest_price_tracking_witness :
  (exists st,
      run (V2.step (v2_slide ++ [v2_bar false false 85 23])) (V2.init 100000)
          (firstn 4 (V2.bars (v2_slide ++ [v2_bar false false 85 23])))
      = Some st /\
      V2.position (V2.bk st) = 0%Z /\ V2.highest_price (V2.bk st) == 0)
  /\
  (exists st',
      V2.step v2_slide v2_long 21 = Some st' /\
      96 <= V2.highest_price (V2.bk st')).
Proof.
  split.
  - eexists. split; [vm_compute; reflexivity|]. split; [reflexivity|].
    apply (proj1 v2_highest_price_tracking
             (v2_slide ++ [v2_bar false false 85 23]) 100000 4%nat);
      vm_compute; reflexivity.
  - eexists. split; [vm_compute; reflexivity|].
    apply (proj2 v2_highest_price_tracking v2_slide v2_long _ 21%nat
             (v2_bar false false 96 21)); vm_compute; reflexivity.
Defined.

(** ** Variant 3: the ATR and its stop *)

Lemma zip_with_In {A B C : Type} (f : A -> B -> C) :
  forall l m x, In x (zip_with f l m) ->
                exists a b, In a l /\ In b m /\ x = f a b.
Proof.
  induction l as [|a l IH]; intros [|b m] x H; simpl in H; try contradiction.
  destruct H as [<-|H].
  - exists a, b. simpl. auto.
  - destruct (IH m x H) as (a' & b' & Ha & Hb & E).
    exists a', b'. simpl. auto.
Qed.

Lemma zip_with_iloc_inv {A B C : Type} (f : A -> B -> C) :
  forall l m i c, iloc (zip_with f l m) i = Some c ->
                  exists a b, iloc l i = Some a /\ iloc m i = Some b /\
                              c = f a b.
Proof.
  induction l as [|a l IH]; intros [|b m] [|i] c H; simpl in H;
    try discriminate.
  - injection H as <-. exists a, b. auto.
  - apply (IH m i c H).
Qed.

Lemma true_range_nonneg (r : TQQQStrategyV3.row) (pc : option Q) :
  TQQQStrategyV3.low r <= TQQQStrategyV3.high r ->
  0 <= TQQQStrategyV3.true_range r pc.
Proof.
  intros H. unfold TQQQStrategyV3.true_range. destruct pc as [c|]; [|lra].
  pose proof (Qabs_nonneg (TQQQStrategyV3.low r - c)) as Ha.
  unfold py_max.
  destruct (Qlt_le_dec _ (Qabs (TQQQStrategyV3.low r - c))); [exact Ha|].
  destruct (Qlt_le_dec _ _); [apply Qabs_nonneg | lra].
Qed.

Lemma rolling_mean_at_ok (window : nat) (col : list Q) (i : nat) :
  Forall (fun x => 0 <= x) col -> atr_ok (rolling_mean_at window col i).
Proof.
  intros Hcol.
  destruct (Nat.le_gt_cases window (i + 1)) as [Hw|Hw].
  - destruct window as [|w]; [exact I|].
    destruct (rolling_mean_at_warm (S w) col i) as (m & -> & Hm);
      [lia | exact Hcol | exact Hm].
  - rewrite rolling_mean_at_cold by lia. exact I.
Qed.

Lemma atr_cell_ok (data : list TQQQStrategyV3.row) (period i : nat) :
  (forall r, In r data -> TQQQStrategyV3.low r <= TQQQStrategyV3.high r) ->
  atr_ok (cell (TQQQStrategyV3.calculate_atr data period) i) /\
  ((i + 1 < period)%nat ->
   cell (TQQQStrategyV3.calculate_atr data period) i = None).
Proof.
  intros Hrange. unfold TQQQStrategyV3.calculate_atr.
  rewrite cell_rolling_mean.
  destruct (i <? _)%nat; [|split; [exact I | reflexivity]].
  split.
  - apply rolling_mean_at_ok. apply Forall_forall. intros x Hx.
    apply zip_with_In in Hx. destruct Hx as (r & pc & Hr & _ & ->).
    apply true_range_nonneg, Hrange, Hr.
  - intros Hc. apply rolling_mean_at_cold. lia.
Qed.

Lemma prepare_data_iloc (p : V3.params) (data : list TQQQStrategyV3.row)
    (i : nat) (b : V3.bar) :
  iloc (TQQQStrategyV3.prepare_data p data) i = Some b ->
  exists r, nth_error data i = Some r /\
            b = TQQQStrategyV3.prepare_row p data i r.
Proof.
  unfold TQQQStrategyV3.prepare_data. intros H.
  apply zip_with_iloc_inv in H. destruct H as (j & r & Hj & Hr & ->).
  assert (Hi : (i < length data)%nat) by (apply (iloc_lt _ _ _ Hr)).
  rewrite (iloc_seq _ _ Hi) in Hj. injection Hj as <-.
  exists r. auto.
Qed.

(** The ATR stop of variant 3 never trips.  Line 171 recomputes the stop
    level from the close of the very bar it is tested on, as close minus
    [atr_multiplier] times the ATR; with a multiplier that is not negative
    and an ATR that is NaN or not negative, the close is never below it, and
    [should_stop_loss] is decided by the fixed and the trailing stop alone.
    The ATR column that [prepare_data] computes is of that kind on every bar
    whose high is not below its low: NaN before bar [atr_period - 1], a
    non-negative number from there on. *)
Theorem v3_atr_stop_never_trips :
  (forall (p : V3.params) (price : Q) (k : V3.book) (highest : Q)
          (a : option Q),
      0 <= V3.atr_multiplier p -> atr_ok a ->
      V3.should_stop_loss p price k highest
        (option_map (fun x => price - V3.atr_multiplier p * x) a)
      = Qltb (price / V3.avg_cost k - 1) (- V3.stop_loss p)
        || Qltb price (highest * (1 - V3.trailing_stop p)))
  /\
  (forall (p : V3.params) (data : list TQQQStrategyV3.row) (i : nat)
          (b : V3.bar),
      (forall r, In r data -> TQQQStrategyV3.low r <= TQQQStrategyV3.high r) ->
      iloc (TQQQStrategyV3.prepare_data p data) i = Some b ->
      atr_ok (V3.ATR b) /\
      ((i + 1 < V3.atr_period p)%nat -> V3.ATR b = None)).
Proof.
  split.
  - intros p price k highest a Hm Ha. unfold V3.should_stop_loss.
    destruct (Qltb (price / V3.avg_cost k - 1) (- V3.stop_loss p));
      [reflexivity|].
    destruct (Qltb price (highest * (1 - V3.trailing_stop p)));
      [reflexivity|].
    destruct a as [x|]; simpl; [|reflexivity].
    simpl in Ha.
    assert (H : Qltb price (price - V3.atr_multiplier p * x) = false).
    { apply Qltb_false.
      pose proof (Qmult_le_0_compat _ _ Hm Ha). lra. }
    rewrite H. reflexivity.
  - intros p data i b Hrange Hb.
    destruct (prepare_data_iloc p data i b Hb) as (r & _ & ->).
    cbn [V3.ATR TQQQStrategyV3.prepare_row].
    apply atr_cell_ok. exact Hrange.
Qed.

Lemma v3_atr_stop_never_trips_witness :
  V3.should_stop_loss V3.default_params 90 (V3.bk v3_long) 100
    (option_map (fun x => 90 - V3.atr_multiplier V3.default_params * x)
       (Some 1))
  = Qltb (90 / 100 - 1) (- V3.stop_loss V3.default_params)
    || Qltb 90 (100 * (1 - V3.trailing_stop V3.default_params))
  /\
  (exists b,
      iloc (TQQQStrategyV3.prepare_data V3.default_params v3_rows) 51 = Some b /\
      atr_ok (V3.ATR b)).
Proof.
  split.
  - apply (proj1 v3_atr_stop_never_trips V3.default_params 90 (V3.bk v3_long)
             100 (Some 1)); [discriminate | simpl; discriminate].
  - eexists. split; [reflexivity|].
    apply (proj2 v3_atr_stop_never_trips V3.default_params v3_rows 51%nat).
    + apply Forall_forall. repeat constructor; discriminate.
    + reflexivity.
Defined.

(** ** Variant 3: sizing of an entry *)

Lemma py_max_nan_between (floor c : Q) (v : option Q) :
  floor <= 1 -> 0 < c -> vol_ok v ->
  floor <= py_max_nan floor (option_map (fun x => 1 - x / c) v) <= 1.
Proof.
  intros Hf Hc Hv. destruct v as [x|]; simpl; [|split; lra].
  simpl in Hv. unfold py_max.
  assert (Hq : 0 <= x / c) by (apply Qle_shift_div_l; lra).
  destruct (Qlt_le_dec floor (1 - x / c)); split; lra.
Qed.

Lemma rsi_adj_bounds (r : option Q) : 0.6 <= V3.rsi_adj r <= 1.
Proof.
  unfold V3.rsi_adj.
  destruct (_ || _); [split; discriminate|].
  destruct (_ && _); split; discriminate.
Qed.

Lemma trend_adj_bounds (b : V3.bar) : 1 <= V3.trend_adj b <= 1.2.
Proof.
  unfold V3.trend_adj.
  destruct (_ =? _)%Z; [destruct (_ =? _)%Z|]; split; discriminate.
Qed.

(** The product of the three adjustments lies between 0.24 and 1.2. *)
Lemma V3_adjustments_bounds (va ra ta : Q) :
  0.4 <= va <= 1 -> 0.6 <= ra <= 1 -> 1 <= ta <= 1.2 ->
  0.24 <= va * ra * ta <= 1.2.
Proof.
  intros [Hv1 Hv2] [Hr1 Hr2] [Ht1 Ht2].
  assert (H1 : 0.24 <= va * ra) by nra.
  assert (H2 : va * ra <= 1) by nra.
  split; nra.
Qed.

(** The share count of an entry in variant 3 is the largest whole number of
    shares that the allocated cash pays for, and the allocation lies between
    24% and 120% of [max_position] times the cash: with the default
    [max_position] of 0.8 an entry can take up to 96% of the cash.  When
    1.2 * max_position * (1 + commission + slippage) <= 1, as with the
    defaults, the test [total_cost <= cash] of line 213 never fails: a buy
    signal on a flat book goes through whenever the share count is
    positive. *)
Theorem v3_entry_size_and_affordability :
  forall (p : V3.params) (data : list V3.bar) (b : V3.bar) (sell : bool)
         (k : V3.book),
    data <> [] ->
    0 <= V3.max_position p -> 0 < V3.vol_threshold p ->
    0 <= V3.commission p + V3.slippage p ->
    1.2 * V3.max_position p * (1 + (V3.commission p + V3.slippage p)) <= 1 ->
    0 < V3.close b -> vol_ok (V3.volatility b) ->
    0 <= V3.cash k -> V3.position k = 0%Z ->
    exists n,
      V3.calculate_position_size p data (V3.cash k) (V3.close b)
        (V3.volatility b) = Some n /\
      (0 <= n)%Z /\
      inject_Z n * V3.close b <= 1.2 * V3.max_position p * V3.cash k /\
      0.24 * V3.max_position p * V3.cash k < inject_Z (n + 1) * V3.close b /\
      inject_Z n * V3.close b
      + V3.calculate_transaction_costs p (V3.close b) n <= V3.cash k /\
      V3.trade p data b true sell k
      = Some (if (0 <? n)%Z
              then {| V3.cash :=
                        V3.cash k
                        - (inject_Z n * V3.close b
                           + V3.calculate_transaction_costs p (V3.close b) n);
                      V3.position := n;
                      V3.avg_cost := V3.close b;
                      V3.highest_price := V3.close b;
                      V3.atr_stop_price :=
                        option_map
                          (fun a => V3.close b - V3.atr_multiplier p * a)
                          (V3.ATR b) |}
              else k).
Proof.
  intros p data b sell k Hne Hmax Hthr Hrate Hfit Hp Hv Hc Hflat.
  destruct (iloc_last_Some data Hne) as (last & Elast & _).
  set (va := py_max_nan 0.4
               (option_map (fun v => 1 - v / (V3.vol_threshold p * 1.5))
                  (V3.volatility b))).
  assert (Hva : 0.4 <= va <= 1).
  { apply py_max_nan_between; [discriminate | lra | exact Hv]. }
  pose proof (rsi_adj_bounds (V3.rsi last)) as Hra.
  pose proof (trend_adj_bounds last) as Hta.
  pose proof (V3_adjustments_bounds _ _ _ Hva Hra Hta) as [Hlo Hhi].
  set (adj := va * V3.rsi_adj (V3.rsi last) * V3.trend_adj last) in *.
  set (x := V3.cash k * (V3.max_position p * va * V3.rsi_adj (V3.rsi last)
                         * V3.trend_adj last)).
  assert (Ex : x == V3.max_position p * V3.cash k * adj)
    by (unfold x, adj; ring).
  assert (Hmc : 0 <= V3.max_position p * V3.cash k)
    by (apply Qmult_le_0_compat; assumption).
  assert (Hx1 : x <= 1.2 * V3.max_position p * V3.cash k) by (rewrite Ex; nra).
  assert (Hx0 : 0.24 * V3.max_position p * V3.cash k <= x) by (rewrite Ex; nra).
  assert (Hxn : 0 <= x) by nra.
  assert (Esize : V3.calculate_position_size p data (V3.cash k) (V3.close b)
                    (V3.volatility b) = Some (Qfloor (x / V3.close b))).
  { unfold V3.calculate_position_size. rewrite Elast.
    fold va. fold x. apply floordiv_int_total. exact Hp. }
  set (n := Qfloor (x / V3.close b)) in *.
  assert (Hn : (0 <= n)%Z).
  { apply Qfloor_nonneg. apply Qle_shift_div_l; lra. }
  pose proof (floordiv_mul_le x (V3.close b) Hp) as Hle. fold n in Hle.
  pose proof (Qlt_floor (x / V3.close b)) as Hlt. fold n in Hlt.
  assert (Hub : x < inject_Z (n + 1) * V3.close b).
  { assert (E : x == x / V3.close b * V3.close b) by (field; lra).
    rewrite E at 1. apply Qmult_lt_compat_r; assumption. }
  assert (Hcost : inject_Z n * V3.close b
                  + V3.calculate_transaction_costs p (V3.close b) n
                  <= V3.cash k).
  { rewrite V3_costs_eq.
    set (r := V3.commission p + V3.slippage p) in *.
    set (y := inject_Z n * V3.close b) in *.
    assert (Hy : 0 <= y).
    { apply Qmult_le_0_compat; [apply inject_Z_nonneg; exact Hn | lra]. }
    assert (E : y + V3.close b * inject_Z n * r == y * (1 + r))
      by (unfold y; ring).
    rewrite E.
    assert (H1 : y * (1 + r)
                 <= 1.2 * V3.max_position p * V3.cash k * (1 + r)).
    { apply Qmult_le_compat_r; lra. }
    assert (H2 : 1.2 * V3.max_position p * V3.cash k * (1 + r)
                 == V3.cash k * (1.2 * V3.max_position p * (1 + r))) by ring.
    assert (H3 : V3.cash k * (1.2 * V3.max_position p * (1 + r))
                 <= V3.cash k * 1).
    { rewrite (Qmult_comm (V3.cash k) _), (Qmult_comm (V3.cash k) 1).
      apply Qmult_le_compat_r; assumption. }
    lra. }
  exists n. split; [exact Esize|]. split; [exact Hn|].
  split; [lra|]. split; [lra|]. split; [exact Hcost|].
  unfold V3.trade. rewrite Hflat. simpl. rewrite Esize.
  destruct (0 <? n)%Z; [|reflexivity].
  apply Qleb_true in Hcost. rewrite Hcost. reflexivity.
Qed.

Lemma v3_entry_size_and_affordability_witness :
  exists n,
    V3.calculate_position_size V3.default_params v3_stop 100000 100
      (Some 0.01) = Some n /\
    (0 <= n)%Z /\
    inject_Z n * 100 <= 1.2 * 0.8 * 100000 /\
    inject_Z n * 100
    + V3.calculate_transaction_costs V3.default_params 100 n <= 100000.
Proof.
  destruct (v3_entry_size_and_affordability V3.default_params v3_stop
              (v3_bar 100 (Some 50) 1 1 50) false
              {| V3.cash := 100000; V3.position := 0; V3.avg_cost := 0;
                 V3.highest_price := 0; V3.atr_stop_price := Some 0 |})
    as (n & H1 & H2 & H3 & _ & H5 & _);
    try discriminate; try reflexivity.
  exists n. split; [exact H1|]. split; [exact H2|]. split; [exact H3|].
  exact H5.
Defined.

(** ** Variant 3: the stop levels kept by the loop *)

Lemma py_max_ge_l (a b : Q) : a <= py_max a b.
Proof. unfold py_max. destruct (Qlt_le_dec a b); lra. Qed.

Lemma V3_risk_levels (p : V3.params) (b : V3.bar) (k : V3.book) :
  V3_levels k ->
  match V3.risk p b k with
  | V3.Skip k' => V3_levels k'
  | V3.Go k' => V3_levels k'
  end.
Proof.
  intros [Hflat Hlong]. unfold V3.risk.
  destruct (0 <? V3.position k)%Z eqn:El; [|split; assumption].
  apply Z.ltb_lt in El. destruct (Hlong El) as [Hc Hh].
  pose proof (py_max_ge_l (V3.highest_price k) (V3.close b)) as Hm.
  pose proof (V3_shares_to_sell_lt p
                ((V3.close b - V3.avg_cost k) / V3.avg_cost k) k El) as Hlt.
  destruct (V3.should_stop_loss _ _ _ _ _).
  - split; simpl; [reflexivity | lia].
  - destruct (Qleb _ _).
    + destruct (0 <? V3.shares_to_sell _ _ _)%Z; split; simpl;
        try lia; intros _; split; lra.
    + split; simpl; [lia|]. intros _. split; lra.
Qed.

Lemma V3_trade_levels (p : V3.params) (data : list V3.bar) (b : V3.bar)
    (buy sell : bool) (k k' : V3.book) :
  0 < V3.close b -> V3_levels k ->
  V3.trade p data b buy sell k = Some k' -> V3_levels k'.
Proof.
  intros Hp Hk. unfold V3.trade.
  destruct (buy && (V3.position k =? 0)%Z).
  - destruct (V3.calculate_position_size _ _ _ _ _) as [n|]; [|discriminate].
    destruct (0 <? n)%Z eqn:En; [|intros H; injection H as <-; exact Hk].
    destruct (Qleb _ _); [|intros H; injection H as <-; exact Hk].
    intros H. injection H as <-. apply Z.ltb_lt in En.
    split; simpl; [lia|]. intros _. split; lra.
  - destruct (sell && (0 <? V3.position k)%Z);
      intros H; injection H as <-; [|exact Hk].
    split; simpl; [reflexivity | lia].
Qed.

(** After every processed bar of variant 3, on positive closes: a flat
    account has [highest_price] 0; a held position has an average cost that
    is positive -- the return of line 172 and the fixed stop of line 179
    never divide by zero -- and a [highest_price] that is at least the
    average cost. *)
Theorem v3_stop_levels_are_kept :
  forall (p : V3.params) (data : list V3.bar) (c0 : Q) (k : nat)
         (st : V3.state),
    (forall b, In b data -> 0 < V3.close b) ->
    run (V3.step p data) (V3.init c0) (firstn k (V3.bars p data)) = Some st ->
    V3_levels (V3.bk st).
Proof.
  intros p data c0 k st Hpos Hrun.
  apply (run_invariant (V3.step p data) (fun s => V3_levels (V3.bk s))
           (fun _ => True)) with (idx := firstn k (V3.bars p data))
                                 (st := V3.init c0).
  - intros s i s' _ HP Hs.
    destruct (V3_step_inv _ _ _ _ _ Hs)
      as (b & buy & sell & Hb & _ & _ & Hcase).
    pose proof (V3_risk_levels p b (V3.bk s) HP) as Hr.
    destruct Hcase as [[E _] | (k1 & E & Ht & _)]; rewrite E in Hr.
    + exact Hr.
    + apply (V3_trade_levels p data b buy sell k1 (V3.bk s')); auto.
      apply Hpos. eapply iloc_In; eauto.
  - apply Forall_forall. auto.
  - split; simpl; [reflexivity | lia].
  - exact Hrun.
Qed.

Lemma v3_stop_levels_are_kept_witness :
  exists st,
    run (V3.step V3.default_params v3_stop) (V3.init 100000)
        (firstn 1 (V3.bars V3.default_params v3_stop)) = Some st /\
    (0 < V3.position (V3.bk st))%Z /\
    V3_levels (V3.bk st).
Proof.
  eexists. split; [vm_compute; reflexivity|]. split; [reflexivity|].
  apply (v3_stop_levels_are_kept V3.default_params v3_stop 100000 1%nat).
  - apply Forall_forall. repeat constructor.
  - vm_compute. reflexivity.
Defined.

(** ** Variant 3: the value of the account within a bar *)

Lemma V3_value_sale (p : V3.params) (price : Q) (k : V3.book) (n : Z) :
  V3.cash k
  + (inject_Z n * price - V3.calculate_transaction_costs p price n)
  + inject_Z (V3.position k - n) * price
  == V3_value price k
     - (V3.commission p + V3.slippage p) * price * inject_Z n.
Proof.
  unfold V3_value. rewrite V3_costs_eq.
  unfold Z.sub. rewrite inject_Z_plus, inject_Z_opp. ring.
Qed.

(** The risk block sells [s] shares: all on a stop, part on a take-profit,
    or none. *)
Lemma V3_risk_value (p : V3.params) (b : V3.bar) (k : V3.book) :
  (0 <= V3.position k)%Z ->
  exists (s : Z) (k1 : V3.book),
    (V3.risk p b k = V3.Skip k1 \/ V3.risk p b k = V3.Go k1) /\
    (0 <= s <= V3.position k)%Z /\
    V3.position k1 = (V3.position k - s)%Z /\
    V3_value (V3.close b) k1
    == V3_value (V3.close b) k
       - (V3.commission p + V3.slippage p) * V3.close b * inject_Z s.
Proof.
  intros Hn. unfold V3.risk.
  assert (Hnone : forall k1, V3.cash k1 = V3.cash k ->
            V3.position k1 = V3.position k ->
            (0 <= 0 <= V3.position k)%Z /\
            V3.position k1 = (V3.position k - 0)%Z /\
            V3_value (V3.close b) k1
            == V3_value (V3.close b) k
               - (V3.commission p + V3.slippage p) * V3.close b * inject_Z 0).
  { intros k1 E1 E2. split; [lia|]. split; [lia|].
    unfold V3_value. rewrite E1, E2. change (inject_Z 0) with 0. ring. }
  destruct (0 <? V3.position k)%Z eqn:El.
  - apply Z.ltb_lt in El.
    pose proof (V3_shares_to_sell_lt p
                  ((V3.close b - V3.avg_cost k) / V3.avg_cost k) k El) as Hlt.
    destruct (V3.should_stop_loss _ _ _ _ _).
    + exists (V3.position k). eexists. split; [left; reflexivity|].
      split; [lia|]. split; [simpl; lia|].
      unfold V3_value at 1. cbn [V3.liquidate V3.cash V3.position].
      rewrite <- (V3_value_sale p (V3.close b) k (V3.position k)).
      rewrite Z.sub_diag. reflexivity.
    + destruct (Qleb _ _).
      * destruct (0 <? V3.shares_to_sell _ _ _)%Z eqn:En.
        -- apply Z.ltb_lt in En.
           eexists. eexists. split; [right; reflexivity|].
           split; [split; [apply Z.lt_le_incl; exact En | lia]|].
           split; [reflexivity|].
           unfold V3_value at 1. cbn [V3.cash V3.position].
           apply V3_value_sale.
        -- exists 0%Z. eexists. split; [right; reflexivity|].
           apply Hnone; reflexivity.
      * exists 0%Z. eexists. split; [right; reflexivity|].
        apply Hnone; reflexivity.
  - exists 0%Z, k. split; [right; reflexivity|]. apply Hnone; reflexivity.
Qed.

Lemma V3_trade_value (p : V3.params) (data : list V3.bar) (b : V3.bar)
    (buy sell : bool) (k1 k2 : V3.book) :
  (0 <= V3.position k1)%Z ->
  V3.trade p data b buy sell k1 = Some k2 ->
  exists t : Z,
    (0 <= t)%Z /\ (0 <= V3.position k2)%Z /\
    (V3.position k1 = 0%Z -> t = V3.position k2) /\
    ((0 < V3.position k1)%Z -> t = (V3.position k1 - V3.position k2)%Z) /\
    V3_value (V3.close b) k2
    == V3_value (V3.close b) k1
       - (V3.commission p + V3.slippage p) * V3.close b * inject_Z t.
Proof.
  intros Hn. unfold V3.trade.
  assert (Hnone : exists t : Z,
            (0 <= t)%Z /\ (0 <= V3.position k1)%Z /\
            (V3.position k1 = 0%Z -> t = V3.position k1) /\
            ((0 < V3.position k1)%Z -> t = (V3.position k1 - V3.position k1)%Z) /\
            V3_value (V3.close b) k1
            == V3_value (V3.close b) k1
               - (V3.commission p + V3.slippage p) * V3.close b * inject_Z t).
  { exists 0%Z. repeat split; try lia. change (inject_Z 0) with 0. ring. }
  destruct (buy && (V3.position k1 =? 0)%Z) eqn:Eb.
  - apply andb_prop in Eb as [_ Ef]. apply Z.eqb_eq in Ef.
    destruct (V3.calculate_position_size _ _ _ _ _) as [n|]; [|discriminate].
    destruct (0 <? n)%Z eqn:En;
      [|intros H; injection H as <-; exact Hnone].
    destruct (Qleb _ _); [|intros H; injection H as <-; exact Hnone].
    intros H. injection H as <-. apply Z.ltb_lt in En.
    exists n. split; [lia|]. split; [simpl; lia|].
    split; [reflexivity|]. split; [lia|].
    unfold V3_value. simpl. rewrite V3_costs_eq, Ef.
    change (inject_Z 0) with 0. ring.
  - destruct (sell && (0 <? V3.position k1)%Z) eqn:Es;
      [|intros H; injection H as <-; exact Hnone].
    apply andb_prop in Es as [_ El]. apply Z.ltb_lt in El.
    intros H. injection H as <-.
    exists (V3.position k1). split; [lia|]. split; [simpl; lia|].
    split; [lia|]. split; [simpl; lia|].
    unfold V3_value at 1. cbn [V3.cash V3.position].
    rewrite <- (V3_value_sale p (V3.close b) k1 (V3.position k1)).
    rewrite Z.sub_diag. reflexivity.
Qed.

(** Within a bar of variant 3 the account, valued at the close, changes by
    the transaction costs only: it is worth after the bar what it was worth
    before, less (commission + slippage) times the value of the shares traded
    -- a stop, a partial take-profit, an exit or an entry.  With cost rates
    that are not negative it never gains, and the shares traded are at most
    the position held before plus the position held after. *)
Theorem v3_bar_only_loses_transaction_costs :
  forall (p : V3.params) (data : list V3.bar) (st st' : V3.state) (i : nat)
         (b : V3.bar),
    iloc data i = Some b ->
    V3.step p data st i = Some st' ->
    0 <= V3.close b -> (0 <= V3.position (V3.bk st))%Z ->
    0 <= V3.commission p + V3.slippage p ->
    exists traded : Z,
      (0 <= traded <= V3.position (V3.bk st) + V3.position (V3.bk st'))%Z /\
      V3_value (V3.close b) (V3.bk st')
      == V3_value (V3.close b) (V3.bk st)
         - (V3.commission p + V3.slippage p) * V3.close b * inject_Z traded /\
      V3_value (V3.close b) (V3.bk st') <= V3_value (V3.close b) (V3.bk st).
Proof.
  intros p data st st' i b Hb Hs Hp Hn Hrate.
  destruct (V3_step_inv _ _ _ _ _ Hs)
    as (b' & buy & sell & Hb' & _ & _ & Hcase).
  rewrite Hb in Hb'. injection Hb' as <-.
  destruct (V3_risk_value p b (V3.bk st) Hn)
    as (s & k1 & Hr & Hs1 & Hs2 & Hs3).
  assert (Hfin : forall traded : Z,
            (0 <= traded)%Z ->
            V3_value (V3.close b) (V3.bk st')
            == V3_value (V3.close b) (V3.bk st)
               - (V3.commission p + V3.slippage p) * V3.close b
                 * inject_Z traded ->
            V3_value (V3.close b) (V3.bk st')
            <= V3_value (V3.close b) (V3.bk st)).
  { intros traded Ht Heq. rewrite Heq.
    pose proof (inject_Z_nonneg _ Ht) as Hq.
    pose proof (Qmult_le_0_compat _ _ Hrate Hp) as H1.
    pose proof (Qmult_le_0_compat _ _ H1 Hq) as H2. lra. }
  destruct Hcase as [[E _] | (k1' & E & Ht & _)].
  - destruct Hr as [Hr|Hr]; rewrite Hr in E; [|discriminate].
    injection E as ->. exists s.
    split; [lia|]. split; [exact Hs3|]. apply (Hfin s); [lia | exact Hs3].
  - destruct Hr as [Hr|Hr]; rewrite Hr in E; [discriminate|].
    injection E as <-.
    assert (Hn1 : (0 <= V3.position k1)%Z) by lia.
    destruct (V3_trade_value p data b buy sell k1 (V3.bk st') Hn1 Ht)
      as (t & Ht1 & Ht2 & Ht3 & Ht4 & Ht5).
    exists (s + t)%Z.
    assert (Hb1 : (s + t <= V3.position (V3.bk st)
                            + V3.position (V3.bk st'))%Z).
    { destruct (Z.eq_dec (V3.position k1) 0) as [E|E].
      - rewrite (Ht3 E). lia.
      - rewrite Ht4 by lia. lia. }
    assert (Heq : V3_value (V3.close b) (V3.bk st')
                  == V3_value (V3.close b) (V3.bk st)
                     - (V3.commission p + V3.slippage p) * V3.close b
                       * inject_Z (s + t)).
    { rewrite Ht5, Hs3, inject_Z_plus. ring. }
    split; [lia|]. split; [exact Heq|]. apply (Hfin (s + t)%Z); [lia|exact Heq].
Qed.

Lemma v3_bar_only_loses_transaction_costs_witness :
  exists st' traded,
    V3.step V3.default_params v3_stop v3_long 51 = Some st' /\
    (0 <= traded <= 746 + V3.position (V3.bk st'))%Z /\
    V3_value 90 (V3.bk st') <= V3_value 90 (V3.bk v3_long).
Proof.
  destruct (V3.step V3.default_params v3_stop v3_long 51) as [st'|] eqn:E;
    [|vm_compute in E; discriminate].
  destruct (v3_bar_only_loses_transaction_costs V3.default_params v3_stop
              v3_long st' 51%nat (v3_bar 90 (Some 50) 1 1 51))
    as (traded & H1 & _ & H3).
  - reflexivity.
  - exact E.
  - discriminate.
  - simpl. lia.
  - discriminate.
  - exists st', traded. split; [reflexivity|]. split; [exact H1 | exact H3].
Defined.


(** ** The ledgers and the length of the frame *)

Lemma V3_run_rows (p : V3.params) (data : list V3.bar) :
  forall idx st st',
    run (V3.step p data) st idx = Some st' ->
    exists rows sub,
      V3.history st' = V3.history st ++ rows /\
      subseq sub idx /\ Forall2 (V3_row_of data) rows sub.
Proof.
  induction idx as [|i idx IH]; intros st st' H; simpl in H.
  - injection H as <-. exists [], []. rewrite app_nil_r.
    split; [reflexivity|]. split; constructor.
  - destruct (V3.step p data st i) as [st1|] eqn:E; [|discriminate].
    destruct (IH _ _ H) as (rows & sub & Hh & Hsub & Hr).
    destruct (V3_step_inv _ _ _ _ _ E)
      as (b & buy & sell & Hb & _ & _ & [[_ Hh1] | (k1 & _ & _ & Hh1)]).
    + exists rows, sub. rewrite Hh, Hh1.
      split; [reflexivity|]. split; [constructor; exact Hsub | exact Hr].
    + eexists (_ :: rows), (i :: sub). rewrite Hh, Hh1, <- app_assoc.
      split; [reflexivity|]. split; [constructor; exact Hsub|].
      constructor; [|exact Hr]. exists b. simpl. auto.
Qed.

(** A bar that variant 3 enters flat always gets its row. *)
Lemma V3_flat_bar_has_row (p : V3.params) (data : list V3.bar)
    (st st' : V3.state) (i : nat) :
  V3.position (V3.bk st) = 0%Z ->
  V3.step p data st i = Some st' ->
  exists r, V3.history st' = V3.history st ++ [r] /\ V3_row_of data r i.
Proof.
  intros Hflat Hs.
  destruct (V3_step_inv _ _ _ _ _ Hs)
    as (b & buy & sell & Hb & _ & _ & Hcase).
  rewrite (V3_risk_flat p b (V3.bk st) Hflat) in Hcase.
  destruct Hcase as [[E _] | (k1 & _ & _ & Hh)]; [discriminate|].
  eexists. split; [exact Hh|]. exists b. simpl. auto.
Qed.

(** The ledger of variant 3 holds rows of processed bars only, in their
    order and each bar at most once (the bars on which a stop trips are left
    out), and it always holds the row of the first processed bar, on which
    the account is flat.  So for all three variants the ledger is empty
    exactly when the frame is too short to have a processed bar: at most 9
    rows for variant 1, at most 20 for variant 2, at most
    max(50, atr_period) for variant 3. *)
Theorem ledger_rows_and_short_frames :
  (forall (p : V3.params) (data : list V3.bar) (c : Q)
          (h : list V3.ledger_row),
      V3.backtest p data c = Some h ->
      (exists sub, subseq sub (V3.bars p data) /\
                   Forall2 (V3_row_of data) h sub) /\
      ((V3.start_idx p < length data)%nat ->
       exists r rest, h = r :: rest /\ V3_row_of data r (V3.start_idx p)) /\
      (h = [] <-> (length data <= Nat.max 50 (V3.atr_period p))%nat))
  /\
  (forall (data : list V1.bar) (c : Q) (h : list V1.ledger_row),
      V1.backtest data c = Some h ->
      (h = [] <-> (length data <= 9)%nat))
  /\
  (forall (data : list V2.bar) (c : Q) (h : list V2.ledger_row),
      V2.backtest data c = Some h ->
      (h = [] <-> (length data <= 20)%nat)).
Proof.
  split; [|split].
  - intros p data c h. unfold V3.backtest, V3.backtest_from.
    destruct (run _ _ _) as [st|] eqn:E; [|discriminate].
    intros H. injection H as <-.
    assert (Hfirst : (V3.start_idx p < length data)%nat ->
              exists r rest, V3.history st = r :: rest /\
                             V3_row_of data r (V3.start_idx p)).
    { intros Hlt. unfold V3.bars, py_range in E.
      destruct (length data - V3.start_idx p)%nat as [|m] eqn:Em; [lia|].
      cbn [seq run] in E.
      destruct (V3.step p data (V3.init c) (V3.start_idx p)) as [st1|] eqn:E1;
        [|discriminate].
      destruct (V3_flat_bar_has_row p data (V3.init c) st1 (V3.start_idx p)
                  eq_refl E1) as (r & Hh1 & Hr).
      destruct (V3_run_rows p data _ _ _ E) as (rows & _ & Hh & _).
      exists r, rows. rewrite Hh, Hh1. split; [reflexivity | exact Hr]. }
    split; [|split].
    + destruct (V3_run_rows p data _ _ _ E) as (rows & sub & Hh & Hs & Hr).
      exists sub. rewrite Hh. simpl. auto.
    + exact Hfirst.
    + split.
      * intros Hnil.
        destruct (Nat.le_gt_cases (length data) (Nat.max 50 (V3.atr_period p)))
          as [Hle|Hgt]; [exact Hle|].
        destruct (Hfirst Hgt) as (r & rest & Hh & _). congruence.
      * intros Hle. unfold V3.bars, V3.start_idx, py_range in E.
        replace (length data - Nat.max 50 (V3.atr_period p))%nat with 0%nat
          in E by lia.
        simpl in E. injection E as <-. reflexivity.
  - intros data c h Hb.
    unfold V1.backtest, V1.backtest_from in Hb.
    destruct (run _ _ _) as [st|] eqn:E; [|discriminate].
    injection Hb as <-.
    destruct (V1_run_rows _ _ _ _ E) as (rows & Hh & Hr).
    apply Forall2_length in Hr. simpl in Hh. rewrite Hh.
    unfold V1.bars, py_range in Hr. rewrite length_seq in Hr.
    split.
    + intros ->. simpl in Hr. lia.
    + intros Hle. destruct rows; [reflexivity | simpl in Hr; lia].
  - intros data c h Hb.
    unfold V2.backtest, V2.backtest_from in Hb.
    destruct (run _ _ _) as [st|] eqn:E; [|discriminate].
    injection Hb as <-.
    destruct (V2_run_rows _ _ _ _ E) as (rows & Hh & Hr).
    apply Forall2_length in Hr. simpl in Hh. rewrite Hh.
    unfold V2.bars, py_range in Hr. rewrite length_seq in Hr.
    split.
    + intros ->. simpl in Hr. lia.
    + intros Hle. destruct rows; [reflexivity | simpl in Hr; lia].
Qed.

Lemma ledger_rows_and_short_frames_witness :
  (exists r rest,
      V3.backtest V3.default_params v3_stop 100000 = Some (r :: rest) /\
      V3_row_of v3_stop r 50) /\
  (V1.backtest (map (v1_bar false false 100 101) (seq 0 9)) 100000 = Some [] /\
   (length (map (v1_bar false false 100 101) (seq 0 9)) <= 9)%nat) /\
  (V2.backtest (map (v2_bar false false 100) (seq 0 20)) 100000 = Some [] /\
   (length (map (v2_bar false false 100) (seq 0 20)) <= 20)%nat).
Proof.
  destruct ledger_rows_and_short_frames as (H3 & H1 & H2).
  split; [|split].
  - destruct (V3.backtest V3.default_params v3_stop 100000) as [h|] eqn:E;
      [|vm_compute in E; discriminate].
    destruct (H3 V3.default_params v3_stop 100000 h E) as (_ & Hf & _).
    destruct Hf as (r & rest & -> & Hr); [vm_compute; lia|].
    exists r, rest. split; [reflexivity | exact Hr].
  - split; [vm_compute; reflexivity|].
    apply (H1 (map (v1_bar false false 100 101) (seq 0 9)) 100000 []);
      vm_compute; reflexivity.
  - split; [vm_compute; reflexivity|].
    apply (H2 (map (v2_bar false false 100) (seq 0 20)) 100000 []);
      vm_compute; reflexivity.
Defined.

(** ** The range of the RSI *)

Lemma rsi_cell_shape (series : list Q) (period i : nat) :
  (i < length series)%nat ->
  iloc (RSI.calculate_rsi series period) i
  = Some (option_map (fun r => 100 - 100 / (1 + r))
            (RSI.div_cell
               (rolling_mean_at period (map RSI.gain_cell (diff series)) i)
               (RSI.replace_zero
                  (rolling_mean_at period
                     (map RSI.loss_cell (diff series)) i)))).
Proof.
  intros Hi.
  assert (Hlen : forall f : option Q -> Q,
            length (map f (diff series)) = length series)
    by (intros f; rewrite length_map; apply diff_length).
  assert (Hg : iloc (RSI.gain series period) i
               = Some (rolling_mean_at period
                         (map RSI.gain_cell (diff series)) i)).
  { unfold RSI.gain. apply rolling_mean_iloc. rewrite Hlen. exact Hi. }
  assert (Hl : iloc (RSI.loss series period) i
               = Some (rolling_mean_at period
                         (map RSI.loss_cell (diff series)) i)).
  { unfold RSI.loss. apply rolling_mean_iloc. rewrite Hlen. exact Hi. }
  assert (Hd : iloc (RSI.divisor series period) i
               = Some (RSI.replace_zero
                         (rolling_mean_at period
                            (map RSI.loss_cell (diff series)) i))).
  { unfold RSI.divisor, iloc. rewrite nth_error_map.
    unfold iloc in Hl. rewrite Hl. reflexivity. }
  assert (Hrs : iloc (RSI.rs series period) i
                = Some (RSI.div_cell
                          (rolling_mean_at period
                             (map RSI.gain_cell (diff series)) i)
                          (RSI.replace_zero
                             (rolling_mean_at period
                                (map RSI.loss_cell (diff series)) i)))).
  { unfold RSI.rs. apply zip_with_iloc; assumption. }
  unfold RSI.calculate_rsi, iloc. rewrite nth_error_map.
  unfold iloc in Hrs. rewrite Hrs. reflexivity.
Qed.


(** A warmed-up cell of the RSI *)
Lemma rsi_cell_warm (series : list Q) (period i : nat) :
  (i < length series)%nat -> (0 < period <= i + 1)%nat ->
  exists g l d,
    rolling_mean_at period (map RSI.gain_cell (diff series)) i = Some g /\
    rolling_mean_at period (map RSI.loss_cell (diff series)) i = Some l /\
    0 <= g /\ 0 < d /\
    iloc (RSI.calculate_rsi series period) i
    = Some (Some (100 - 100 / (1 + g / d))).
Proof.
  intros Hi Hw.
  destruct (rolling_mean_at_warm period (map RSI.gain_cell (diff series)) i
              Hw (gain_cells_nonneg _)) as (g & Eg & Hg0).
  destruct (rolling_mean_at_warm period (map RSI.loss_cell (diff series)) i
              Hw (loss_cells_nonneg _)) as (l & El & Hl0).
  exists g, l, (if Qeq_bool l 0 then RSI.epsilon else l).
  split; [exact Eg|]. split; [exact El|]. split; [exact Hg0|]. split.
  - destruct (Qeq_bool l 0) eqn:E; [reflexivity|].
    apply Qeq_bool_neq in E. lra.
  - rewrite (rsi_cell_shape series period i Hi), Eg, El. reflexivity.
Qed.






(** ** The performance metrics *)

Lemma py_max_idem (x : Q) : py_max x x = x.
Proof. unfold py_max. destruct (Qlt_le_dec x x); reflexivity. Qed.

Lemma py_max_cases (m x : Q) :
  (m < x /\ py_max m x = x) \/ (x <= m /\ py_max m x = m).
Proof. unfold py_max. destruct (Qlt_le_dec m x); auto. Qed.

Lemma py_min_cases (a b : Q) :
  (b < a /\ py_min a b = b) \/ (a <= b /\ py_min a b = a).
Proof. unfold py_min. destruct (Qlt_le_dec b a); auto. Qed.

(** One drawdown: the value against a running maximum that is at least the
    value *)
Lemma drawdown_cell (v m : Q) :
  0 < v -> v <= m ->
  -1 < v / m - 1 /\ v / m - 1 <= 0 /\ (v / m - 1 == 0 <-> m <= v).
Proof.
  intros Hv Hm.
  assert (H0 : 0 < v / m) by (apply Qlt_shift_div_l; lra).
  assert (H1 : v / m <= 1) by (apply Qle_shift_div_r; lra).
  split; [lra|]. split; [lra|]. split.
  - intros E. assert (E1 : v / m == 1) by lra.
    assert (E2 : v == v / m * m) by (field; lra).
    rewrite E1 in E2. lra.
  - intros Hle. assert (E : v == m) by lra. rewrite E. field. lra.
Qed.

(** The drawdowns of a column of positive values, from a running maximum
    [m]: each lies in (-1, 0], and all are zero exactly when the column
    never falls and never is below [m]. *)
Lemma drawdowns_from (col : list Q) :
  forall m, 0 < m -> Forall (fun v => 0 < v) col ->
    Forall (fun d => -1 < d /\ d <= 0)
      (zip_with (fun v x => v / x - 1) col (Metrics.expanding_max_from m col))
    /\
    (Forall (fun d => d == 0)
       (zip_with (fun v x => v / x - 1) col (Metrics.expanding_max_from m col))
     <-> never_falls col /\ Forall (fun v => m <= v) col).
Proof.
  induction col as [|x rest IH]; intros m Hm Hpos.
  - simpl. split; [constructor|]. split; intros _.
    + split; constructor.
    + constructor.
  - inversion Hpos as [|? ? Hx Hrest]; subst.
    cbn [Metrics.expanding_max_from zip_with].
    set (M := py_max m x).
    assert (HM : 0 < M /\ x <= M /\ m <= M /\ (m <= x -> M == x)).
    { unfold M. destruct (py_max_cases m x) as [[H ->]|[H ->]];
        repeat split; try lra. }
    destruct HM as (HM0 & HMx & HMm & HMeq).
    destruct (drawdown_cell x M Hx HMx) as (Hd1 & Hd2 & Hd3).
    destruct (IH M HM0 Hrest) as [IH1 IH2].
    split; [constructor; [split; assumption | exact IH1]|].
    split.
    + intros Hall. inversion Hall as [|? ? Hz Hzs]; subst.
      apply Hd3 in Hz. apply IH2 in Hzs. destruct Hzs as [Hs HF].
      assert (Hmx : m <= x) by lra.
      assert (HFx : Forall (fun v => x <= v) rest).
      { eapply Forall_impl; [|exact HF]. simpl. intros v Hv. lra. }
      split; [constructor; assumption|].
      constructor; [exact Hmx|].
      eapply Forall_impl; [|exact HFx]. simpl. intros v Hv. lra.
    + intros [Hs HF]. apply StronglySorted_inv in Hs. destruct Hs as [Hs HFx].
      inversion HF as [|? ? Hmx _]; subst.
      constructor.
      * apply Hd3. rewrite (HMeq Hmx). lra.
      * apply IH2. split; [exact Hs|].
        eapply Forall_impl; [|exact HFx]. simpl. intros v Hv.
        rewrite (HMeq Hmx). exact Hv.
Qed.

Lemma drawdowns_range (x : Q) (rest : list Q) :
  Forall (fun v => 0 < v) (x :: rest) ->
  Forall (fun d => -1 < d /\ d <= 0) (Metrics.drawdowns (x :: rest)) /\
  (Forall (fun d => d == 0) (Metrics.drawdowns (x :: rest))
   <-> never_falls (x :: rest)).
Proof.
  intros Hpos. inversion Hpos as [|? ? Hx Hrest]; subst.
  unfold Metrics.drawdowns. cbn [Metrics.expanding_max].
  pose proof (drawdowns_from (x :: rest) x Hx Hpos) as [H1 H2].
  cbn [Metrics.expanding_max_from] in H1, H2.
  rewrite py_max_idem in H1, H2.
  split; [exact H1|]. rewrite H2. split.
  - intros [Hs _]. exact Hs.
  - intros Hs. split; [exact Hs|].
    apply StronglySorted_inv in Hs. destruct Hs as [_ HF].
    constructor; [lra | exact HF].
Qed.

(** The minimum of a column of numbers in (-1, 0] *)
Lemma fold_min_range (rest : list Q) :
  forall acc,
    -1 < acc /\ acc <= 0 ->
    Forall (fun d => -1 < d /\ d <= 0) rest ->
    -1 < fold_left py_min rest acc /\ fold_left py_min rest acc <= 0 /\
    (fold_left py_min rest acc == 0
     <-> acc == 0 /\ Forall (fun d => d == 0) rest).
Proof.
  induction rest as [|d rest IH]; intros acc Hacc Hall; simpl.
  - split; [lra|]. split; [lra|]. split.
    + intros E. split; [exact E | constructor].
    + intros [E _]. exact E.
  - inversion Hall as [|? ? Hd Hrest]; subst.
    assert (Hm : -1 < py_min acc d /\ py_min acc d <= 0 /\
                 (py_min acc d == 0 <-> acc == 0 /\ d == 0)).
    { destruct (py_min_cases acc d) as [[H ->]|[H ->]];
        (split; [lra|]); (split; [lra|]); split; intros; try lra;
        split; lra. }
    destruct Hm as (Hm1 & Hm2 & Hm3).
    destruct (IH (py_min acc d) (conj Hm1 Hm2) Hrest) as (H1 & H2 & H3).
    split; [exact H1|]. split; [exact H2|].
    rewrite H3, Hm3. split.
    + intros [[Ha Hd0] HF]. split; [exact Ha | constructor; assumption].
    + intros [Ha HF]. inversion HF; subst. auto.
Qed.

Lemma trades_split (results : Metrics.ledger) :
  Metrics.signal_rows results
  = (Metrics.buy_trades results + Metrics.sell_trades results)%nat /\
  (Metrics.signal_rows results <= length results)%nat.
Proof.
  unfold Metrics.signal_rows, Metrics.buy_trades, Metrics.sell_trades.
  induction results as [|[s v] rest [IH1 IH2]]; simpl; [split; lia|].
  destruct s; simpl; lia.
Qed.

(** [calculate_performance_metrics] raises on an empty ledger.  On a ledger
    of positive portfolio values it returns; the maximum drawdown it reports
    lies in (-1, 0] and is 0 exactly when the portfolio value never falls
    below an earlier value; and the trades it reports are the rows whose
    signal is buy or sell, however many of them traded: buy rows plus sell
    rows, at most the length of the ledger. *)
Theorem metrics_max_drawdown :
  Metrics.calculate_performance_metrics [] = None /\
  forall results : Metrics.ledger,
    results <> [] ->
    Forall (fun v => 0 < v) (Metrics.portfolio_value results) ->
    exists m,
      Metrics.calculate_performance_metrics results = Some m /\
      -1 < Metrics.max_drawdown m /\ Metrics.max_drawdown m <= 0 /\
      (Metrics.max_drawdown m == 0
       <-> never_falls (Metrics.portfolio_value results)) /\
      Metrics.total_trades m
      = (Metrics.m_buy_trades m + Metrics.m_sell_trades m)%nat /\
      (Metrics.total_trades m <= length results)%nat.
Proof.
  split; [reflexivity|].
  intros results Hne Hpos.
  unfold Metrics.calculate_performance_metrics.
  destruct (Metrics.portfolio_value results) as [|x rest] eqn:Ecol.
  { destruct results; [congruence | discriminate]. }
  cbn [iloc nth_error].
  destruct (iloc_last_Some (x :: rest)) as (final & -> & _); [discriminate|].
  destruct (drawdowns_range x rest Hpos) as [Hr Hz].
  destruct (Metrics.drawdowns (x :: rest)) as [|d ds] eqn:Ed;
    [discriminate|].
  cbn [Metrics.col_min].
  inversion Hr as [|? ? Hd Hds]; subst.
  destruct (fold_min_range ds d Hd Hds) as (H1 & H2 & H3).
  destruct (trades_split results) as [Ht1 Ht2].
  eexists. split; [reflexivity|]. cbn.
  split; [exact H1|]. split; [exact H2|]. split.
  - rewrite H3, <- Hz. split.
    + intros [Hd0 HF]. constructor; assumption.
    + intros HF. inversion HF; subst. auto.
  - split; assumption.
Qed.

Lemma metrics_max_drawdown_witness :
  exists m,
    Metrics.calculate_performance_metrics
      [(Hold, 100); (Buy, 100); (Hold, 90); (Sell, 120)] = Some m /\
    -1 < Metrics.max_drawdown m /\ Metrics.max_drawdown m <= 0 /\
    Metrics.total_trades m = 2%nat.
Proof.
  destruct (proj2 metrics_max_drawdown
              [(Hold, 100); (Buy, 100); (Hold, 90); (Sell, 120)])
    as (m & E & H1 & H2 & _ & _ & _).
  - discriminate.
  - repeat constructor.
  - exists m. split; [exact E|]. split; [exact H1|]. split; [exact H2|].
    vm_compute in E. injection E as <-. reflexivity.
Defined.













(** ** The report on a run without signals *)

Lemma idle_values (c0 : Q) (results : Metrics.ledger) :
  idle c0 results ->
  Forall (fun v => v == c0) (Metrics.portfolio_value results).
Proof.
  intros H. unfold Metrics.portfolio_value. apply Forall_forall.
  intros v Hv. apply in_map_iff in Hv. destruct Hv as (r & <- & Hr).
  unfold idle in H. rewrite Forall_forall in H. apply (H r Hr).
Qed.

Lemma flat_never_falls (c0 : Q) (col : list Q) :
  Forall (fun v => v == c0) col -> never_falls col.
Proof.
  induction 1 as [|x l Hx Hl IH]; constructor; [exact IH|].
  eapply Forall_impl; [|exact Hl]. simpl. intros v Hv. lra.
Qed.

Lemma idle_no_signal_rows (c0 : Q) (results : Metrics.ledger) :
  idle c0 results -> Metrics.signal_rows results = 0%nat.
Proof.
  unfold Metrics.signal_rows.
  induction 1 as [|[s v] l [Hs _] Hl IH]; simpl; [reflexivity|].
  simpl in Hs. subst s. simpl. exact IH.
Qed.

Lemma idle_report (c0 : Q) (results : Metrics.ledger) :
  0 < c0 -> results <> [] -> idle c0 results ->
  exists m,
    Metrics.calculate_performance_metrics results = Some m /\
    Metrics.total_return m == 0 /\ Metrics.max_drawdown m == 0 /\
    Metrics.total_trades m = 0%nat /\ Metrics.win_rate m = 0.
Proof.
  intros Hc Hne Hidle.
  pose proof (idle_values c0 results Hidle) as Hvals.
  pose proof (idle_no_signal_rows c0 results Hidle) as Hrows.
  unfold Metrics.calculate_performance_metrics. rewrite Hrows.
  destruct (Metrics.portfolio_value results) as [|x rest] eqn:Ecol.
  { destruct results; [congruence | discriminate]. }
  cbn [iloc nth_error].
  destruct (iloc_last_Some (x :: rest)) as (final & -> & Hfin);
    [discriminate|].
  assert (Hpos : Forall (fun v => 0 < v) (x :: rest)).
  { eapply Forall_impl; [|exact Hvals]. simpl. intros v Hv. lra. }
  destruct (drawdowns_range x rest Hpos) as [Hr Hz].
  destruct (Metrics.drawdowns (x :: rest)) as [|d ds] eqn:Ed;
    [discriminate|].
  cbn [Metrics.col_min].
  inversion Hr as [|? ? Hd Hds]; subst.
  destruct (fold_min_range ds d Hd Hds) as (_ & _ & H3).
  eexists. split; [reflexivity|].
  cbn [Metrics.total_return Metrics.max_drawdown Metrics.total_trades
       Metrics.win_rate].
  rewrite Forall_forall in Hvals.
  pose proof (Hvals x (or_introl eq_refl)) as Ex.
  pose proof (Hvals final Hfin) as Ef.
  split; [rewrite Ex, Ef; field; lra|].
  split; [|split; reflexivity].
  apply H3.
  assert (HF : Forall (fun d0 => d0 == 0) (d :: ds)).
  { apply Hz. apply (flat_never_falls c0). apply Forall_forall. exact Hvals. }
  inversion HF; subst. auto.
Qed.

Lemma V1_hold_signals (data : list V1.bar) (idx : list nat) (st st' : V1.state) :
  (forall b, In b data -> V1.buy_signal b = false /\ V1.sell_signal b = false) ->
  Forall (fun r => V1.l_signal r = Hold) (V1.history st) ->
  run (V1.step data) st idx = Some st' ->
  Forall (fun r => V1.l_signal r = Hold) (V1.history st').
Proof.
  intros Hhold HP Hrun.
  apply (run_invariant (V1.step data)
           (fun s => Forall (fun r => V1.l_signal r = Hold) (V1.history s))
           (fun _ => True)) with (idx := idx) (st := st); auto.
  - intros s i s' _ Hs Hstep.
    destruct (V1_step_inv _ _ _ _ Hstep) as (b & nb & Hb & _ & _ & Hh).
    rewrite Hh. apply Forall_snoc; [exact Hs|]. simpl.
    destruct (Hhold b (iloc_In _ _ _ Hb)) as [-> ->]. reflexivity.
  - apply Forall_forall. auto.
Qed.

Lemma V2_hold_signals (data : list V2.bar) (idx : list nat) (st st' : V2.state) :
  (forall b, In b data -> V2.buy_signal b = false /\ V2.sell_signal b = false) ->
  Forall (fun r => V2.l_signal r = Hold) (V2.history st) ->
  run (V2.step data) st idx = Some st' ->
  Forall (fun r => V2.l_signal r = Hold) (V2.history st').
Proof.
  intros Hhold HP Hrun.
  apply (run_invariant (V2.step data)
           (fun s => Forall (fun r => V2.l_signal r = Hold) (V2.history s))
           (fun _ => True)) with (idx := idx) (st := st); auto.
  - intros s i s' _ Hs Hstep.
    destruct (V2_step_inv _ _ _ _ Hstep) as (b & k1 & Hb & _ & _ & Hh).
    rewrite Hh. apply Forall_snoc; [exact Hs|]. simpl.
    destruct (Hhold b (iloc_In _ _ _ Hb)) as [-> ->]. reflexivity.
  - apply Forall_forall. auto.
Qed.

Lemma V3_hold_signals (p : V3.params) (data : list V3.bar) (idx : list nat)
    (st st' : V3.state) :
  Forall (fun s => s = false) (V3.buy_signal p data) ->
  Forall (fun s => s = false) (V3.sell_signal p data) ->
  Forall (fun r => V3.l_signal r = Hold) (V3.history st) ->
  run (V3.step p data) st idx = Some st' ->
  Forall (fun r => V3.l_signal r = Hold) (V3.history st').
Proof.
  intros Hbuy Hsell HP Hrun.
  apply (run_invariant (V3.step p data)
           (fun s => Forall (fun r => V3.l_signal r = Hold) (V3.history s))
           (fun _ => True)) with (idx := idx) (st := st); auto.
  - intros s i s' _ Hs Hstep.
    destruct (V3_step_inv _ _ _ _ _ Hstep)
      as (b & buy & sell & Hb & Ebuy & Esell & Hcase).
    rewrite Forall_forall in Hbuy, Hsell.
    pose proof (Hbuy _ (iloc_In _ _ _ Ebuy)) as ->.
    pose proof (Hsell _ (iloc_In _ _ _ Esell)) as ->.
    destruct Hcase as [[_ Hh] | (k1 & _ & _ & Hh)]; rewrite Hh;
      [exact Hs|].
    apply Forall_snoc; [exact Hs | reflexivity].
  - apply Forall_forall. auto.
Qed.

Lemma idle_of_rows {R : Type} (sig : R -> signal) (pv : R -> Q)
    (c0 : Q) (h : list R) :
  Forall (fun r => sig r = Hold) h ->
  Forall (fun r => pv r == c0) h ->
  idle c0 (map (fun r => (sig r, pv r)) h).
Proof.
  intros Hs Hv. unfold idle. apply Forall_forall. intros x Hx.
  apply in_map_iff in Hx. destruct Hx as (r & <- & Hr).
  rewrite Forall_forall in Hs, Hv. simpl. split; [apply Hs | apply Hv]; exact Hr.
Qed.

(** A run without buy or sell signals, started with a positive cash on a
    frame long enough to have a processed bar, is reported by
    [calculate_performance_metrics] with a total return of 0, a maximum
    drawdown of 0, no trades and a win rate of 0 -- for each of the three
    variants. *)
Theorem idle_run_is_reported_flat :
  (forall (data : list V1.bar) (c0 : Q),
      0 < c0 -> (9 < length data)%nat ->
      (forall b, In b data ->
                 V1.buy_signal b = false /\ V1.sell_signal b = false) ->
      exists h m,
        V1.backtest data c0 = Some h /\
        Metrics.calculate_performance_metrics (V1_report h) = Some m /\
        Metrics.total_return m == 0 /\ Metrics.max_drawdown m == 0 /\
        Metrics.total_trades m = 0%nat /\ Metrics.win_rate m = 0)
  /\
  (forall (data : list V2.bar) (c0 : Q),
      0 < c0 -> (20 < length data)%nat ->
      (forall b, In b data ->
                 V2.buy_signal b = false /\ V2.sell_signal b = false) ->
      exists h m,
        V2.backtest data c0 = Some h /\
        Metrics.calculate_performance_metrics (V2_report h) = Some m /\
        Metrics.total_return m == 0 /\ Metrics.max_drawdown m == 0 /\
        Metrics.total_trades m = 0%nat /\ Metrics.win_rate m = 0)
  /\
  (forall (p : V3.params) (data : list V3.bar) (c0 : Q),
      0 < c0 -> (Nat.max 50 (V3.atr_period p) < length data)%nat ->
      Forall (fun s => s = false) (V3.buy_signal p data) ->
      Forall (fun s => s = false) (V3.sell_signal p data) ->
      exists h m,
        V3.backtest p data c0 = Some h /\
        Metrics.calculate_performance_metrics (V3_report h) = Some m /\
        Metrics.total_return m == 0 /\ Metrics.max_drawdown m == 0 /\
        Metrics.total_trades m = 0%nat /\ Metrics.win_rate m = 0).
Proof.
  split; [|split].
  - intros data c0 Hc Hlen Hhold.
    destruct (run_total_count (V1.step data) (V1_untouched c0)
                (fun i => (i + 1 < length data)%nat)) with
      (idx := V1.bars data) (n := 0%nat) (st := V1.init c0)
      as (st & E & (_ & _ & Hn & Hrows)).
    + intros n s i Hi HP. apply V1_hold_step; assumption.
    + apply V1_bars_in_range.
    + repeat split. constructor.
    + pose proof (V1_hold_signals data _ (V1.init c0) st Hhold (Forall_nil _) E)
        as Hsig.
      destruct (idle_report c0 (V1_report (V1.history st)) Hc) as (m & Hm).
      * intros Hnil. apply (f_equal (@length _)) in Hnil.
        unfold V1_report in Hnil. rewrite length_map, Hn in Hnil.
        unfold V1.bars, py_range in Hnil. rewrite length_seq in Hnil.
        simpl in Hnil. lia.
      * apply (idle_of_rows V1.l_signal V1.l_portfolio_value);
          [exact Hsig|].
        eapply Forall_impl; [|exact Hrows]. simpl. intros r Hr. apply Hr.
      * exists (V1.history st), m.
        unfold V1.backtest, V1.backtest_from. rewrite E.
        split; [reflexivity | exact Hm].
  - intros data c0 Hc Hlen Hhold.
    destruct (run_total_count (V2.step data) (V2_untouched c0)
                (fun i => (0 < i < length data)%nat)) with
      (idx := V2.bars data) (n := 0%nat) (st := V2.init c0)
      as (st & E & (_ & _ & Hn & Hrows)).
    + intros n s i Hi HP. apply V2_hold_step; [assumption | lia | assumption].
    + apply V2_bars_in_range.
    + repeat split. constructor.
    + pose proof (V2_hold_signals data _ (V2.init c0) st Hhold (Forall_nil _) E)
        as Hsig.
      destruct (idle_report c0 (V2_report (V2.history st)) Hc) as (m & Hm).
      * intros Hnil. apply (f_equal (@length _)) in Hnil.
        unfold V2_report in Hnil. rewrite length_map, Hn in Hnil.
        unfold V2.bars, py_range in Hnil. rewrite length_seq in Hnil.
        simpl in Hnil. lia.
      * apply (idle_of_rows V2.l_signal V2.l_portfolio_value);
          [exact Hsig|].
        eapply Forall_impl; [|exact Hrows]. simpl. intros r Hr. apply Hr.
      * exists (V2.history st), m.
        unfold V2.backtest, V2.backtest_from. rewrite E.
        split; [reflexivity | exact Hm].
  - intros p data c0 Hc Hlen Hbuy Hsell.
    destruct (run_total_count (V3.step p data) (V3_untouched c0)
                (fun i => (i < length data)%nat)) with
      (idx := V3.bars p data) (n := 0%nat) (st := V3.init c0)
      as (st & E & (_ & _ & Hn & Hrows)).
    + intros n s i Hi HP. apply V3_hold_step; assumption.
    + apply V3_bars_in_range.
    + repeat split. constructor.
    + pose proof (V3_hold_signals p data _ (V3.init c0) st Hbuy Hsell
                    (Forall_nil _) E) as Hsig.
      destruct (idle_report c0 (V3_report (V3.history st)) Hc) as (m & Hm).
      * intros Hnil. apply (f_equal (@length _)) in Hnil.
        unfold V3_report in Hnil. rewrite length_map, Hn in Hnil.
        unfold V3.bars, V3.start_idx, py_range in Hnil.
        rewrite length_seq in Hnil. cbn [length] in Hnil. lia.
      * apply (idle_of_rows V3.l_signal V3.l_portfolio_value);
          [exact Hsig|].
        eapply Forall_impl; [|exact Hrows]. simpl. intros r Hr. apply Hr.
      * exists (V3.history st), m.
        unfold V3.backtest, V3.backtest_from. rewrite E.
        split; [reflexivity | exact Hm].
Qed.

Lemma idle_run_is_reported_flat_witness :
  (exists h m,
      V1.backtest (map (v1_bar false false 100 101) (seq 0 12)) 100000
      = Some h /\
      Metrics.calculate_performance_metrics (V1_report h) = Some m /\
      Metrics.total_return m == 0 /\ Metrics.max_drawdown m == 0)
  /\
  (exists h m,
      V2.backtest (map (v2_bar false false 100) (seq 0 23)) 100000 = Some h /\
      Metrics.calculate_performance_metrics (V2_report h) = Some m /\
      Metrics.total_return m == 0 /\ Metrics.max_drawdown m == 0)
  /\
  (exists h m,
      V3.backtest V3.default_params
        (map (v3_bar 100 (Some 80) 0 0) (seq 0 53)) 100000 = Some h /\
      Metrics.calculate_performance_metrics (V3_report h) = Some m /\
      Metrics.total_return m == 0 /\ Metrics.max_drawdown m == 0).
Proof.
  destruct idle_run_is_reported_flat as (H1 & H2 & H3).
  split; [|split].
  - destruct (H1 (map (v1_bar false false 100 101) (seq 0 12)) 100000)
      as (h & m & E1 & E2 & E3 & E4 & _).
    + reflexivity.
    + simpl. lia.
    + intros b Hin. apply in_map_iff in Hin. destruct Hin as (d & <- & _).
      split; reflexivity.
    + exists h, m. auto.
  - destruct (H2 (map (v2_bar false false 100) (seq 0 23)) 100000)
      as (h & m & E1 & E2 & E3 & E4 & _).
    + reflexivity.
    + simpl. lia.
    + intros b Hin. apply in_map_iff in Hin. destruct Hin as (d & <- & _).
      split; reflexivity.
    + exists h, m. auto.
  - destruct (H3 V3.default_params
                (map (v3_bar 100 (Some 80) 0 0) (seq 0 53)) 100000)
      as (h & m & E1 & E2 & E3 & E4 & _).
    + reflexivity.
    + simpl. lia.
    + vm_compute. repeat constructor.
    + vm_compute. repeat constructor.
    + exists h, m. auto.
Defined.

(** ** The loader *)

Lemma has_In (col : string) (columns : list string) :
  DataFetcher.has col columns = true <-> In col columns.
Proof.
  unfold DataFetcher.has. rewrite existsb_exists. split.
  - intros (c & Hc & E). apply String.eqb_eq in E. subst c. exact Hc.
  - intros H. exists col. split; [exact H | apply String.eqb_refl].
Qed.

Lemma drop_In (col c : string) (columns : list string) :
  In c (DataFetcher.drop col columns) <-> In c columns /\ c <> col.
Proof.
  unfold DataFetcher.drop. rewrite filter_In, negb_true_iff.
  rewrite String.eqb_neq. split; intros [H1 H2]; split; auto; congruence.
Qed.

Lemma drop_absent (col : string) (columns : list string) :
  DataFetcher.has col columns = false -> DataFetcher.drop col columns = columns.
Proof.
  unfold DataFetcher.has, DataFetcher.drop.
  induction columns as [|c l IH]; simpl; [reflexivity|].
  intros H. apply orb_false_elim in H as [H1 H2].
  rewrite H1. simpl. rewrite (IH H2). reflexivity.
Qed.

Lemma filter_nil_iff {A : Type} (f : A -> bool) (l : list A) :
  filter f l = [] <-> forall x, In x l -> f x = false.
Proof.
  induction l as [|a l IH]; simpl.
  - split; [intros _ x [] | reflexivity].
  - destruct (f a) eqn:E; split.
    + discriminate.
    + intros H. specialize (H a (or_introl eq_refl)). congruence.
    + intros H x [<-|Hx]; [exact E | apply IH; assumption].
    + intros H. apply IH. intros x Hx. apply H. right. exact Hx.
Qed.

(** [fetch_tqqq_data] fails when the file cannot be read, and otherwise
    succeeds exactly when the file has the [dt] column and the five required
    columns open, high, low, close and avg.  The frame it returns has the
    columns of the file in their order, without [dt] (now the index) and
    without [symbol]; the required columns are among them. *)
Theorem fetch_needs_dt_and_required_columns :
  DataFetcher.fetch_tqqq_data None = None /\
  (forall header : list string,
      (exists columns, DataFetcher.fetch_tqqq_data (Some header) = Some columns)
      <-> In "dt"%string header /\
          forall c, In c DataFetcher.required_columns -> In c header) /\
  (forall header columns : list string,
      DataFetcher.fetch_tqqq_data (Some header) = Some columns ->
      columns = DataFetcher.drop "symbol" (DataFetcher.drop "dt" header) /\
      ~ In "dt"%string columns /\ ~ In "symbol"%string columns /\
      forall c, In c DataFetcher.required_columns -> In c columns).
Proof.
  assert (Hreq : forall c, In c DataFetcher.required_columns ->
                           c <> "dt"%string /\ c <> "symbol"%string).
  { intros c Hc. simpl in Hc.
    repeat (destruct Hc as [<-|Hc]; [split; discriminate|]). contradiction. }
  assert (Hshape : forall header,
    DataFetcher.fetch_tqqq_data (Some header)
    = if DataFetcher.has "dt" header
      then match filter
                   (fun col =>
                      negb (DataFetcher.has col
                              (DataFetcher.drop "symbol"
                                 (DataFetcher.drop "dt" header))))
                   DataFetcher.required_columns
           with
           | [] => Some (DataFetcher.drop "symbol" (DataFetcher.drop "dt" header))
           | _ => None
           end
      else None).
  { intros header. unfold DataFetcher.fetch_tqqq_data.
    destruct (DataFetcher.has "dt" header); [|reflexivity].
    destruct (DataFetcher.has "symbol" (DataFetcher.drop "dt" header)) eqn:E;
      [reflexivity|].
    rewrite (drop_absent _ _ E). reflexivity. }
  assert (Hmissing : forall header,
    filter (fun col =>
              negb (DataFetcher.has col
                      (DataFetcher.drop "symbol"
                         (DataFetcher.drop "dt" header))))
           DataFetcher.required_columns = []
    <-> forall c, In c DataFetcher.required_columns -> In c header).
  { intros header. rewrite filter_nil_iff. split; intros H c Hc.
    - specialize (H c Hc). apply negb_false_iff in H.
      apply has_In in H. apply drop_In in H. destruct H as [H _].
      apply drop_In in H. apply H.
    - apply negb_false_iff. apply has_In.
      destruct (Hreq c Hc) as [H1 H2].
      apply drop_In. split; [|exact H2].
      apply drop_In. split; [apply H; exact Hc | exact H1]. }
  split; [reflexivity|]. split.
  - intros header. rewrite Hshape. split.
    + intros (columns & H).
      destruct (DataFetcher.has "dt" header) eqn:Edt; [|discriminate].
      split; [apply has_In; exact Edt|].
      apply Hmissing. destruct (filter _ _); [reflexivity | discriminate].
    + intros [Hdt Hall]. apply has_In in Hdt. rewrite Hdt.
      apply Hmissing in Hall. rewrite Hall. eauto.
  - intros header columns. rewrite Hshape.
    destruct (DataFetcher.has "dt" header); [|discriminate].
    destruct (filter _ _) eqn:Ef; [|discriminate].
    intros H. injection H as <-.
    split; [reflexivity|]. split; [|split].
    + intros H. apply drop_In in H. destruct H as [H _].
      apply drop_In in H. destruct H as [_ H]. congruence.
    + intros H. apply drop_In in H. destruct H as [_ H]. congruence.
    + intros c Hc. destruct (Hreq c Hc) as [H1 H2].
      apply drop_In. split; [|exact H2]. apply drop_In. split; [|exact H1].
      apply (proj1 (Hmissing header) Ef c Hc).
Qed.

Lemma fetch_needs_dt_and_required_columns_witness :
  DataFetcher.fetch_tqqq_data
    (Some ["dt"; "symbol"; "open"; "high"; "low"; "close"; "avg"; "volume"]%string)
  = Some ["open"; "high"; "low"; "close"; "avg"; "volume"]%string /\
  ~ In "symbol"%string ["open"; "high"; "low"; "close"; "avg"; "volume"]%string.
Proof.
  split; [reflexivity|].
  destruct (proj2 (proj2 fetch_needs_dt_and_required_columns)
              ["dt"; "symbol"; "open"; "high"; "low"; "close"; "avg";
               "volume"]%string
              ["open"; "high"; "low"; "close"; "avg"; "volume"]%string)
    as (_ & _ & H & _); [reflexivity | exact H].
Defined.

(** ** The warm-up of variants 2 and 3 *)

Lemma shift_fwd_nth (k : nat) (col : list (option Q)) (i : nat) :
  (k <= i < length col)%nat ->
  nth_error (shift_fwd k col) i = nth_error col (i - k).
Proof.
  intros H. unfold shift_fwd.
  assert (Hr : length (repeat (@None Q) (Nat.min k (length col))) = k)
    by (rewrite repeat_length; lia).
  rewrite nth_error_app2 by (rewrite Hr; lia).
  rewrite Hr, nth_error_firstn.
  assert (E : (i - k <? length col - k)%nat = true) by (apply Nat.ltb_lt; lia).
  rewrite E. reflexivity.
Qed.

Lemma cell_pct_change (k : nat) (col : list Q) (i : nat) (v u : Q) :
  (k <= i)%nat -> nth_error col i = Some v -> nth_error col (i - k) = Some u ->
  cell (pct_change k col) i = Some (v / u - 1).
Proof.
  intros Hk Hv Hu. rewrite cell_nth_error. unfold pct_change.
  assert (Hi : (i < length col)%nat) by (apply nth_error_Some; congruence).
  pose proof (zip_with_iloc
    (fun cur prev => nan_sub (nan_div (Some cur) prev) (Some 1))
    col (shift_fwd k (map Some col)) i v (Some u)) as Hz.
  unfold iloc in Hz. rewrite Hz; [reflexivity | exact Hv |].
  rewrite shift_fwd_nth by (rewrite length_map; lia).
  rewrite nth_error_map, Hu. reflexivity.
Qed.

Lemma nth_error_defined {A : Type} (l : list A) (i : nat) :
  (i < length l)%nat -> exists x, nth_error l i = Some x.
Proof.
  intros H. destruct (nth_error l i) as [x|] eqn:E; [eauto|].
  apply nth_error_None in E. lia.
Qed.

Lemma cell_rolling_mean_warm (window : nat) (col : list Q) (i : nat) :
  (0 < window <= i + 1)%nat -> (i < length col)%nat ->
  exists m, cell (rolling_mean window col) i = Some m.
Proof.
  intros Hw Hi. rewrite cell_rolling_mean.
  assert (E : (i <? length col)%nat = true) by (apply Nat.ltb_lt; exact Hi).
  rewrite E, rolling_mean_at_Some by exact Hw. eauto.
Qed.

(** The loops of variants 2 and 3 start where the indicators are numbers.
    On a frame that [prepare_data] has prepared, from bar max(50, atr_period)
    on, the ATR, the RSI, both momenta and the four moving averages are
    defined, and the three trend flags compare numbers.  In variant 2, from
    bar 20 on, the three moving averages and the momentum are defined.
    Before that a flag is not NaN but 0: the trend flag of variant 2 is 0 on
    every bar before bar 19, whatever the prices. *)
Theorem warm_up_covers_the_indicators :
  (forall (p : V3.params) (data : list TQQQStrategyV3.row) (i : nat)
          (b : V3.bar),
      (0 < V3.atr_period p)%nat ->
      (Nat.max 50 (V3.atr_period p) <= i)%nat ->
      iloc (TQQQStrategyV3.prepare_data p data) i = Some b ->
      exists atr r m5 m20 a2 a7 a20 a50,
        V3.ATR b = Some atr /\ V3.rsi b = Some r /\
        V3.momentum b = Some m5 /\ V3.momentum_20 b = Some m20 /\
        cell (TQQQStrategyV3.ma_2 data) i = Some a2 /\
        cell (TQQQStrategyV3.ma_7 data) i = Some a7 /\
        cell (TQQQStrategyV3.ma_20 data) i = Some a20 /\
        cell (TQQQStrategyV3.ma_50 data) i = Some a50 /\
        V3.ma_cross b = astype_int (Qltb a7 a2) /\
        V3.ma_trend b = astype_int (Qltb a20 a7) /\
        V3.ma_long_trend b = astype_int (Qltb a50 a20))
  /\
  (forall (data : list TQQQStrategyV2.row) (i : nat),
      (20 <= i < length data)%nat ->
      exists a2 a7 a20 m5,
        cell (TQQQStrategyV2.ma_2 data) i = Some a2 /\
        cell (TQQQStrategyV2.ma_7 data) i = Some a7 /\
        cell (TQQQStrategyV2.ma_20 data) i = Some a20 /\
        cell (TQQQStrategyV2.momentum data) i = Some m5 /\
        int_cell (TQQQStrategyV2.ma_cross data) i = astype_int (Qltb a7 a2) /\
        int_cell (TQQQStrategyV2.ma_trend data) i = astype_int (Qltb a20 a7))
  /\
  (forall (data : list TQQQStrategyV2.row) (i : nat),
      (i < 19)%nat -> int_cell (TQQQStrategyV2.ma_trend data) i = 0%Z).
Proof.
  split; [|split].
  - intros p data i b Hper Hi Hb.
    destruct (prepare_data_iloc p data i b Hb) as (r & Hr & ->).
    assert (Hlt : (i < length data)%nat) by (apply nth_error_Some; congruence).
    assert (Hla : (i < length (map TQQQStrategyV3.avg data))%nat)
      by (rewrite length_map; exact Hlt).
    assert (Hlc : (i < length (map TQQQStrategyV3.close data))%nat)
      by (rewrite length_map; exact Hlt).
    destruct (cell_rolling_mean_warm 2 _ i ltac:(lia) Hla) as (a2 & E2).
    destruct (cell_rolling_mean_warm 7 _ i ltac:(lia) Hla) as (a7 & E7).
    destruct (cell_rolling_mean_warm 20 _ i ltac:(lia) Hla) as (a20 & E20).
    destruct (cell_rolling_mean_warm 50 _ i ltac:(lia) Hla) as (a50 & E50).
    assert (Htr : (i < length (TQQQStrategyV3.TR data))%nat).
    { unfold TQQQStrategyV3.TR.
      rewrite zip_with_length; rewrite shift1_length, length_map; auto. }
    destruct (cell_rolling_mean_warm (V3.atr_period p)
                (TQQQStrategyV3.TR data) i ltac:(lia) Htr) as (atr & Eatr).
    destruct (rsi_cell_warm (map TQQQStrategyV3.close data) 14 i Hlc
                ltac:(lia)) as (g & l & d & _ & _ & _ & _ & Ersi).
    destruct (nth_error_defined (map TQQQStrategyV3.avg data) i Hla)
      as (v & Ev).
    destruct (nth_error_defined (map TQQQStrategyV3.avg data) (i - 5))
      as (u5 & Eu5); [lia|].
    destruct (nth_error_defined (map TQQQStrategyV3.avg data) (i - 20))
      as (u20 & Eu20); [lia|].
    exists atr, (100 - 100 / (1 + g / d)), (v / u5 - 1), (v / u20 - 1),
      a2, a7, a20, a50.
    cbn [TQQQStrategyV3.prepare_row V3.ATR V3.rsi V3.momentum V3.momentum_20
         V3.ma_cross V3.ma_trend V3.ma_long_trend].
    unfold TQQQStrategyV3.ma_2, TQQQStrategyV3.ma_7, TQQQStrategyV3.ma_20,
      TQQQStrategyV3.ma_50, TQQQStrategyV3.calculate_atr.
    rewrite E2, E7, E20, E50, Eatr.
    rewrite (cell_pct_change 5 _ i v u5) by (try lia; assumption).
    rewrite (cell_pct_change 20 _ i v u20) by (try lia; assumption).
    rewrite cell_nth_error. unfold iloc in Ersi. rewrite Ersi.
    repeat split; reflexivity.
  - intros data i Hi.
    assert (Hla : (i < length (map TQQQStrategyV2.avg data))%nat)
      by (rewrite length_map; lia).
    destruct (cell_rolling_mean_warm 2 _ i ltac:(lia) Hla) as (a2 & E2).
    destruct (cell_rolling_mean_warm 7 _ i ltac:(lia) Hla) as (a7 & E7).
    destruct (cell_rolling_mean_warm 20 _ i ltac:(lia) Hla) as (a20 & E20).
    destruct (nth_error_defined (map TQQQStrategyV2.avg data) i Hla)
      as (v & Ev).
    destruct (nth_error_defined (map TQQQStrategyV2.avg data) (i - 5))
      as (u5 & Eu5); [lia|].
    exists a2, a7, a20, (v / u5 - 1).
    unfold TQQQStrategyV2.ma_2, TQQQStrategyV2.ma_7, TQQQStrategyV2.ma_20,
      TQQQStrategyV2.momentum.
    split; [exact E2|]. split; [exact E7|]. split; [exact E20|].
    split; [apply cell_pct_change; try lia; assumption|].
    assert (Hs : nth_error (seq 0 (length data)) i = Some i)
      by (apply iloc_seq; lia).
    split.
    + apply int_cell_nth_error. unfold TQQQStrategyV2.ma_cross.
      rewrite nth_error_map, Hs. simpl.
      unfold TQQQStrategyV2.ma_2, TQQQStrategyV2.ma_7. rewrite E2, E7.
      reflexivity.
    + apply int_cell_nth_error. unfold TQQQStrategyV2.ma_trend.
      rewrite nth_error_map, Hs. simpl.
      unfold TQQQStrategyV2.ma_20, TQQQStrategyV2.ma_7. rewrite E20, E7.
      reflexivity.
  - intros data i Hi.
    destruct (nth_error (TQQQStrategyV2.ma_trend data) i) as [q|] eqn:E.
    + rewrite (int_cell_nth_error _ _ _ E).
      unfold TQQQStrategyV2.ma_trend in E. rewrite nth_error_map in E.
      destruct (nth_error (seq 0 (length data)) i) as [j|] eqn:Es;
        [|discriminate].
      assert (Hlt : (i < length data)%nat).
      { assert (Hs : (i < length (seq 0 (length data)))%nat)
          by (apply nth_error_Some; congruence).
        rewrite length_seq in Hs. exact Hs. }
      pose proof (iloc_seq (length data) i Hlt) as Es'. unfold iloc in Es'.
      rewrite Es' in Es. injection Es as <-. injection E as <-.
      unfold TQQQStrategyV2.ma_20. rewrite cell_rolling_mean, length_map.
      destruct (i <? length data)%nat; [|reflexivity].
      rewrite rolling_mean_at_cold by lia. reflexivity.
    + apply nth_overflow. apply nth_error_None. exact E.
Qed.

Lemma warm_up_covers_the_indicators_witness :
  (exists b atr r,
      iloc (TQQQStrategyV3.prepare_data V3.default_params v3_rows) 51
      = Some b /\
      V3.ATR b = Some atr /\ V3.rsi b = Some r) /\
  (exists a20 m5,
      cell (TQQQStrategyV2.ma_20 v2_rows) 21 = Some a20 /\
      cell (TQQQStrategyV2.momentum v2_rows) 21 = Some m5) /\
  int_cell (TQQQStrategyV2.ma_trend v2_rows) 10 = 0%Z.
Proof.
  destruct warm_up_covers_the_indicators as (H3 & H2 & H0).
  split; [|split].
  - destruct (H3 V3.default_params v3_rows 51%nat
                (TQQQStrategyV3.prepare_row V3.default_params v3_rows 51
                   (v3_row 104 51)))
      as (atr & r & _ & _ & _ & _ & _ & _ & E1 & E2 & _).
    + simpl. lia.
    + simpl. lia.
    + reflexivity.
    + eexists. exists atr, r. split; [reflexivity|]. split; assumption.
  - destruct (H2 v2_rows 21%nat) as (_ & _ & a20 & m5 & _ & _ & E1 & E2 & _).
    + simpl. lia.
    + exists a20, m5. split; assumption.
  - apply (H0 v2_rows 10%nat). lia.
Defined.


(** ** The driver needs a frame longer than the warm-up *)

Lemma report_Some {R : Type} (to_report : list R -> Metrics.ledger)
    (results : list R) :
  length (to_report results) = length results ->
  (exists out, Main.report to_report results = Some out) <-> results <> [].
Proof.
  intros Hlen. unfold Main.report, Metrics.calculate_performance_metrics.
  split.
  - intros (out & H) ->.
    destruct (to_report []) as [|x l] eqn:E; [discriminate H|].
    simpl in Hlen. discriminate.
  - intros Hne. destruct results as [|r rest]; [congruence|].
    destruct (to_report (r :: rest)) as [|[s v] l] eqn:E;
      [simpl in Hlen; discriminate|].
    cbn [Metrics.portfolio_value map snd iloc nth_error].
    destruct (iloc_last_Some (v :: map snd l)) as (fin & -> & _);
      [discriminate|].
    unfold Metrics.drawdowns. cbn [Metrics.expanding_max zip_with Metrics.col_min].
    destruct (iloc_last_Some (r :: rest)) as (lst & -> & _); [discriminate|].
    eauto.
Qed.

Lemma v2_generate_signals_length (data : list TQQQStrategyV2.row) :
  length (TQQQStrategyV2.generate_signals data) = length data.
Proof.
  unfold TQQQStrategyV2.generate_signals.
  apply zip_with_length. apply length_seq.
Qed.

Lemma prepare_data_length (p : V3.params) (data : list TQQQStrategyV3.row) :
  length (TQQQStrategyV3.prepare_data p data) = length data.
Proof.
  unfold TQQQStrategyV3.prepare_data.
  apply zip_with_length. apply length_seq.
Qed.

(** [run_strategy] on short and on long frames.  With positive prices it
    returns exactly when the frame has more rows than the warm-up of the
    strategy: more than 9 for variant 1, more than 20 for variant 2, more
    than 50 for variant 3 with its default parameters.  On a shorter frame
    the ledger is empty and reading its first row raises. *)
Theorem run_strategy_needs_more_than_the_warm_up :
  (forall data : list TQQQStrategy.row,
      (forall r, In r data -> 0 < TQQQStrategy.open r) ->
      ((exists out, Main.run_strategy_v1 data = Some out)
       <-> (9 < length data)%nat))
  /\
  (forall data : list TQQQStrategyV2.row,
      (forall r, In r data -> 0 < TQQQStrategyV2.close r) ->
      ((exists out, Main.run_strategy_v2 data = Some out)
       <-> (20 < length data)%nat))
  /\
  (forall data : list TQQQStrategyV3.row,
      (forall r, In r data -> 0 < TQQQStrategyV3.close r) ->
      ((exists out, Main.run_strategy_v3 data = Some out)
       <-> (50 < length data)%nat)).
Proof.
  split; [|split].
  - intros data Hpos. unfold Main.run_strategy_v1.
    destruct (V1_ledger_complete (TQQQStrategy.generate_signals data)
                Main.initial_cash) as (h & E & Hlen).
    { intros b Hb. unfold TQQQStrategy.generate_signals in Hb.
      apply zip_with_In in Hb. destruct Hb as (i & r & _ & Hr & ->).
      simpl. apply Hpos, Hr. }
    rewrite E.
    rewrite (report_Some V1_report h)
      by (unfold V1_report; apply length_map).
    unfold V1.bars, py_range in Hlen.
    rewrite length_seq, v1_generate_signals_length in Hlen.
    split.
    + intros Hne. destruct h; [congruence | simpl in Hlen; lia].
    + intros Hgt ->. simpl in Hlen. lia.
  - intros data Hpos. unfold Main.run_strategy_v2.
    destruct (V2_ledger_complete (TQQQStrategyV2.generate_signals data)
                Main.initial_cash) as (h & E & Hlen).
    { intros b Hb. unfold TQQQStrategyV2.generate_signals in Hb.
      apply zip_with_In in Hb. destruct Hb as (i & r & _ & Hr & ->).
      simpl. apply Hpos, Hr. }
    rewrite E.
    rewrite (report_Some V2_report h)
      by (unfold V2_report; apply length_map).
    unfold V2.bars, py_range in Hlen.
    rewrite length_seq, v2_generate_signals_length in Hlen.
    split.
    + intros Hne. destruct h; [congruence | simpl in Hlen; lia].
    + intros Hgt ->. simpl in Hlen. lia.
  - intros data Hpos. unfold Main.run_strategy_v3.
    set (frame := TQQQStrategyV3.prepare_data V3.default_params data).
    destruct (V3_run_total V3.default_params frame
                (V3.bars V3.default_params frame) (V3.init Main.initial_cash))
      as (st & E).
    { intros b Hb. unfold frame, TQQQStrategyV3.prepare_data in Hb.
      apply zip_with_In in Hb. destruct Hb as (i & r & _ & Hr & ->).
      simpl. apply Hpos, Hr. }
    { apply V3_bars_in_range. }
    assert (Eb : V3.backtest V3.default_params frame Main.initial_cash
                 = Some (V3.history st)).
    { unfold V3.backtest, V3.backtest_from. rewrite E. reflexivity. }
    rewrite Eb.
    rewrite (report_Some V3_report (V3.history st))
      by (unfold V3_report; apply length_map).
    assert (Hlen : length frame = length data)
      by (apply prepare_data_length).
    split.
    + intros Hne.
      destruct (Nat.le_gt_cases (length data) 50) as [Hle|Hgt]; [|exact Hgt].
      exfalso. apply Hne.
      unfold V3.bars, V3.start_idx, py_range in E.
      replace (length frame - Nat.max 50 (V3.atr_period V3.default_params))%nat
        with 0%nat in E by (rewrite Hlen; simpl; lia).
      simpl in E. injection E as <-. reflexivity.
    + intros Hgt Hnil.
      unfold V3.bars, V3.start_idx, py_range in E.
      change (Nat.max 50 (V3.atr_period V3.default_params)) with 50%nat in E.
      destruct (length frame - 50)%nat as [|m] eqn:Em; [lia|].
      cbn [seq run] in E.
      destruct (V3.step V3.default_params frame (V3.init Main.initial_cash) 50)
        as [st1|] eqn:E1; [|discriminate].
      destruct (V3_flat_bar_has_row V3.default_params frame
                  (V3.init Main.initial_cash) st1 50%nat eq_refl E1)
        as (r & Hh1 & _).
      destruct (V3_run_rows V3.default_params frame _ _ _ E)
        as (rows & _ & Hh & _).
      rewrite Hh, Hh1 in Hnil. simpl in Hnil. discriminate.
Qed.

Lemma run_strategy_needs_more_than_the_warm_up_witness :
  (exists out, Main.run_strategy_v1 (v1_rows 101 102) = Some out) /\
  (exists out, Main.run_strategy_v2 v2_rows = Some out) /\
  (exists out, Main.run_strategy_v3 v3_rows = Some out).
Proof.
  destruct run_strategy_needs_more_than_the_warm_up as (H1 & H2 & H3).
  split; [|split].
  - apply (H1 (v1_rows 101 102)).
    + apply Forall_forall. repeat constructor.
    + simpl. lia.
  - apply (H2 v2_rows).
    + apply Forall_forall. repeat constructor.
    + simpl. lia.
  - apply (H3 v3_rows).
    + apply Forall_forall. repeat constructor.
    + simpl. lia.
Defined.
